(** * PR context backend: cache fingerprint, result cache, retrying invoker

    A shallow embedding of the analysis pipeline of the backend:
    - [app/models.py]                 request and response models, validators
    - [app/services/cache_service.py] cache key, TTL cache
    - [app/services/groq_service.py]  retry loop, error classification,
                                      fallback context
    - [app/routers/analyze.py]        the /analyze endpoint

    Python [str] values are [string]s whose characters stand for code points
    below 256; Python [int]s are [Z]; the readings of [time.time()] are
    handed to the operations that read the clock; the dict of the cache is
    a [gmap] (the insertion order of its keys, visible only in the order of
    the entries of [stats], is not kept). The provider, [json.loads] and
    the text of a validation error are parameters of the invoker.

    The cache is embedded twice. In [Cache] a clock reading is an exact
    rational and the age of an entry the exact difference of two readings.
    In [FloatCache] a reading is the binary64 [float] that [time.time()]
    returns and the age is the rounded difference [now - timestamp] that
    the interpreter computes, compared with the TTL and cut by [int] by its
    exact value. What is said about expiry at given clock readings, about
    the sweep and about the ages shown by [stats] is stated and proved on
    [FloatCache]. *)

From Stdlib Require Import ZArith QArith Lqa Lia.
From Stdlib Require Import Ascii String DecimalString.
From Stdlib Require Floats.
From stdpp Require Import gmap strings list fin_maps.

Set Warnings "-register-all,-abstract-large-number".

Local Open Scope string_scope.
Local Open Scope Z_scope.

(* ===================================================================== *)
(** ** Python string primitives used by the sources *)
(* ===================================================================== *)

Module Py.

(** [len(s)] *)
Definition len (s : string) : Z := Z.of_nat (String.length s).

(** [s[:n]] for a constant [n >= 0] *)
Fixpoint slice_to (n : nat) (s : string) : string :=
  match n, s with
  | S n', String c s' => String c (slice_to n' s')
  | _, _ => EmptyString
  end.

(** [s[n:]] for a constant [n >= 0] *)
Fixpoint slice_from (n : nat) (s : string) : string :=
  match n, s with
  | S n', String _ s' => slice_from n' s'
  | _, _ => s
  end.

(** [s[:-n]] for a constant [n > 0] *)
Definition slice_to_neg (n : nat) (s : string) : string :=
  slice_to (String.length s - n) s.

(** [s.startswith(p)] *)
Definition startswith (s p : string) : bool := String.prefix p s.

(** [s.endswith(p)] *)
Definition endswith (s p : string) : bool :=
  (String.length p <=? String.length s)%nat
  && String.eqb (slice_from (String.length s - String.length p) s) p.

(** [sub in s] *)
Fixpoint contains (sub s : string) : bool :=
  String.prefix sub s ||
  match s with
  | EmptyString => false
  | String _ s' => contains sub s'
  end.

(** [str.lower] on one code point below 256: the letters A-Z and the
    Latin-1 capitals (U+00C0-U+00DE without the multiplication sign). *)
Definition lower_char (c : ascii) : ascii :=
  let n := nat_of_ascii c in
  if ((65 <=? n) && (n <=? 90))%nat then ascii_of_nat (n + 32)
  else if ((192 <=? n) && (n <=? 222) && negb (n =? 215))%nat
       then ascii_of_nat (n + 32)
  else c.

Fixpoint lower (s : string) : string :=
  match s with
  | EmptyString => EmptyString
  | String c s' => String (lower_char c) (lower s')
  end.

(** Whitespace as [str.strip()] sees it, among code points below 256. *)
Definition isspace (c : ascii) : bool :=
  let n := nat_of_ascii c in
  (((9 <=? n) && (n <=? 13)) || ((28 <=? n) && (n <=? 32))
   || (n =? 133) || (n =? 160))%nat.

Fixpoint lstrip (s : string) : string :=
  match s with
  | String c s' => if isspace c then lstrip s' else s
  | EmptyString => EmptyString
  end.

Fixpoint rstrip (s : string) : string :=
  match s with
  | EmptyString => EmptyString
  | String c s' =>
      match rstrip s' with
      | EmptyString => if isspace c then EmptyString else String c EmptyString
      | r => String c r
      end
  end.

(** [s.strip()] *)
Definition strip (s : string) : string := rstrip (lstrip s).

(** [s.split(sep)[0]] for a one-character separator *)
Fixpoint split_head (sep : ascii) (s : string) : string :=
  match s with
  | EmptyString => EmptyString
  | String c s' =>
      if Ascii.eqb c sep then EmptyString else String c (split_head sep s')
  end.

(** [str(n)] for an int *)
Definition str_int (z : Z) : string := NilZero.string_of_int (Z.to_int z).

(** [sep.join(l)] *)
Definition join (sep : string) (l : list string) : string :=
  String.concat sep l.

(** [sum(...)] over ints *)
Definition sum (l : list Z) : Z := foldr Z.add 0 l.

(** [s if s else d]: the empty string is falsy. *)
Definition truthy (s : string) : bool :=
  match s with EmptyString => false | _ => true end.

(** [s.encode()]: UTF-8, for code points below 256. *)
Definition encode_char (c : ascii) : list Z :=
  let n := Z.of_nat (nat_of_ascii c) in
  if n <? 128 then [n]
  else [Z.lor 192 (Z.shiftr n 6); Z.lor 128 (Z.land n 63)].

Fixpoint encode (s : string) : list Z :=
  match s with
  | EmptyString => []
  | String c s' => encode_char c ++ encode s'
  end.

(** One lower-case hexadecimal digit. *)
Definition hex_digit (d : Z) : ascii :=
  if d <? 10 then ascii_of_nat (Z.to_nat (48 + d))
  else ascii_of_nat (Z.to_nat (87 + d)).

End Py.

(* ===================================================================== *)
(** ** [hashlib.sha256]: FIPS 180-4 over 32-bit words held in [Z] *)
(* ===================================================================== *)

Module Sha256.

Definition mask32 : Z := 0xFFFFFFFF.
Definition add32 (x y : Z) : Z := (x + y) mod 2 ^ 32.
Definition rotr (n x : Z) : Z :=
  Z.lor (Z.shiftr x n) (Z.land (Z.shiftl x (32 - n)) mask32).
Definition not32 (x : Z) : Z := Z.lxor x mask32.

Definition Ch (x y z : Z) : Z := Z.lxor (Z.land x y) (Z.land (not32 x) z).
Definition Maj (x y z : Z) : Z :=
  Z.lxor (Z.lxor (Z.land x y) (Z.land x z)) (Z.land y z).
Definition Sigma0 (x : Z) : Z :=
  Z.lxor (Z.lxor (rotr 2 x) (rotr 13 x)) (rotr 22 x).
Definition Sigma1 (x : Z) : Z :=
  Z.lxor (Z.lxor (rotr 6 x) (rotr 11 x)) (rotr 25 x).
Definition sigma0 (x : Z) : Z :=
  Z.lxor (Z.lxor (rotr 7 x) (rotr 18 x)) (Z.shiftr x 3).
Definition sigma1 (x : Z) : Z :=
  Z.lxor (Z.lxor (rotr 17 x) (rotr 19 x)) (Z.shiftr x 10).

(** The first 32 bits of the fractional parts of the cube roots of the
    first 64 primes, in decimal. *)
Definition K : list Z :=
  [ 1116352408; 1899447441; 3049323471; 3921009573; 961987163; 1508970993;
    2453635748; 2870763221; 3624381080; 310598401; 607225278; 1426881987;
    1925078388; 2162078206; 2614888103; 3248222580; 3835390401; 4022224774;
    264347078; 604807628; 770255983; 1249150122; 1555081692; 1996064986;
    2554220882; 2821834349; 2952996808; 3210313671; 3336571891; 3584528711;
    113926993; 338241895; 666307205; 773529912; 1294757372; 1396182291;
    1695183700; 1986661051; 2177026350; 2456956037; 2730485921; 2820302411;
    3259730800; 3345764771; 3516065817; 3600352804; 4094571909; 275423344;
    430227734; 506948616; 659060556; 883997877; 958139571; 1322822218;
    1537002063; 1747873779; 1955562222; 2024104815; 2227730452; 2361852424;
    2428436474; 2756734187; 3204031479; 3329325298 ].

(** The eight working words. *)
Record state : Type := St {
  ha : Z; hb : Z; hc : Z; hd : Z; he : Z; hf : Z; hg : Z; hh : Z
}.

(** The first 32 bits of the fractional parts of the square roots of the
    first 8 primes. *)
Definition H0 : state :=
  {| ha := 1779033703; hb := 3144134277; hc := 1013904242; hd := 2773480762;
     he := 1359893119; hf := 2600822924; hg := 528734635; hh := 1541459225 |}.

(** Big-endian bytes of a word of [n] bytes, most significant first. *)
Fixpoint be_bytes (n : nat) (x : Z) : list Z :=
  match n with
  | O => []
  | S n' => Z.land (Z.shiftr x (8 * Z.of_nat n')) 255 :: be_bytes n' x
  end.

Definition be_word (bs : list Z) : Z :=
  foldl (fun acc b => Z.lor (Z.shiftl acc 8) b) 0 bs.

(** Padding: a one bit, zeros up to 56 mod 64, the bit length on 8 bytes. *)
Definition pad (msg : list Z) : list Z :=
  let l := Z.of_nat (length msg) in
  msg ++ [128] ++ repeat 0 (Z.to_nat ((55 - l) mod 64)) ++ be_bytes 8 (8 * l).

Fixpoint chunks {A} (size count : nat) (l : list A) : list (list A) :=
  match count with
  | O => []
  | S c => firstn size l :: chunks size c (skipn size l)
  end.

Definition words_of_block (block : list Z) : list Z :=
  be_word <$> chunks 4 16 block.

(** Message schedule, latest word first: [recent] holds w(t-1), w(t-2), ... *)
Fixpoint extend (n : nat) (recent : list Z) : list Z :=
  match n with
  | O => recent
  | S n' =>
      let w := add32 (add32 (sigma1 (nth 1 recent 0)) (nth 6 recent 0))
                     (add32 (sigma0 (nth 14 recent 0)) (nth 15 recent 0)) in
      extend n' (w :: recent)
  end.

Definition schedule (block : list Z) : list Z :=
  rev (extend 48 (rev (words_of_block block))).

Definition round (s : state) (kw : Z * Z) : state :=
  let t1 := add32 (add32 (add32 (hh s) (Sigma1 (he s)))
                         (add32 (Ch (he s) (hf s) (hg s)) (fst kw))) (snd kw) in
  let t2 := add32 (Sigma0 (ha s)) (Maj (ha s) (hb s) (hc s)) in
  St (add32 t1 t2) (ha s) (hb s) (hc s) (add32 (hd s) t1) (he s) (hf s) (hg s).

Definition compress (h : state) (block : list Z) : state :=
  let s := foldl round h (zip K (schedule block)) in
  St (add32 (ha h) (ha s)) (add32 (hb h) (hb s)) (add32 (hc h) (hc s))
     (add32 (hd h) (hd s)) (add32 (he h) (he s)) (add32 (hf h) (hf s))
     (add32 (hg h) (hg s)) (add32 (hh h) (hh s)).

Definition digest_of (s : state) : list Z :=
  be_bytes 4 (ha s) ++ be_bytes 4 (hb s) ++ be_bytes 4 (hc s) ++
  be_bytes 4 (hd s) ++ be_bytes 4 (he s) ++ be_bytes 4 (hf s) ++
  be_bytes 4 (hg s) ++ be_bytes 4 (hh s).

(** [hashlib.sha256(msg).digest()] *)
Definition sha256 (msg : list Z) : list Z :=
  let p := pad msg in
  digest_of (foldl compress H0 (chunks 64 (length p / 64) p)).

Fixpoint hex (bs : list Z) : string :=
  match bs with
  | [] => EmptyString
  | b :: bs' =>
      String (Py.hex_digit (Z.shiftr b 4))
             (String (Py.hex_digit (Z.land b 15)) (hex bs'))
  end.

(** [hashlib.sha256(msg).hexdigest()] *)
Definition hexdigest (msg : list Z) : string := hex (sha256 msg).

End Sha256.

(* ===================================================================== *)
(** ** JSON values and [json.dumps(obj, sort_keys=True)] *)
(* ===================================================================== *)

Module Json.

(** The Python values [json.loads] produces and [json.dumps] accepts.
    A float is kept as its literal; a dict as its items in insertion order. *)
Inductive value : Type :=
| JNull
| JBool (b : bool)
| JInt (z : Z)
| JFloat (repr : string)
| JStr (s : string)
| JList (l : list value)
| JDict (items : list (string * value)).

(** [d.get(k)] *)
Fixpoint dict_get (k : string) (items : list (string * value)) : option value :=
  match items with
  | [] => None
  | (k', v) :: rest => if String.eqb k k' then Some v else dict_get k rest
  end.

(** The double-quote character. *)
Definition dquote : ascii := "034"%char.

(** Escaping of one character with [ensure_ascii=True]. *)
Definition escape_char (c : ascii) : string :=
  let n := Z.of_nat (nat_of_ascii c) in
  if n =? 34 then String "\" (String dquote EmptyString)
  else if n =? 92 then "\\"
  else if n =? 10 then "\n"
  else if n =? 13 then "\r"
  else if n =? 9 then "\t"
  else if n =? 8 then "\b"
  else if n =? 12 then "\f"
  else if (32 <=? n) && (n <=? 126) then String c EmptyString
  else String "\" (String "u" (String "0" (String "0"
         (String (Py.hex_digit (Z.shiftr n 4))
            (String (Py.hex_digit (Z.land n 15)) EmptyString))))).

Fixpoint escape (s : string) : string :=
  match s with
  | EmptyString => EmptyString
  | String c s' => escape_char c +:+ escape s'
  end.

Definition quote (s : string) : string :=
  String dquote (escape s +:+ String dquote EmptyString).

(** [sorted(items)] on keys: insertion sort by code-point order. *)
Fixpoint insert_item (kv : string * string) (l : list (string * string))
  : list (string * string) :=
  match l with
  | [] => [kv]
  | kv' :: l' =>
      if String.leb (fst kv) (fst kv') then kv :: l
      else kv' :: insert_item kv l'
  end.

Definition sort_items (l : list (string * string)) : list (string * string) :=
  foldr insert_item [] l.

Definition render_item (kv : string * string) : string :=
  quote (fst kv) +:+ ": " +:+ snd kv.

(** [json.dumps(v, sort_keys=True)] with the default separators. *)
Fixpoint dumps (v : value) : string :=
  match v with
  | JNull => "null"
  | JBool true => "true"
  | JBool false => "false"
  | JInt z => Py.str_int z
  | JFloat r => r
  | JStr s => quote s
  | JList l => "[" +:+ Py.join ", " (map dumps l) +:+ "]"
  | JDict items =>
      "{" +:+ Py.join ", "
                (map render_item
                   (sort_items (map (fun kv => (fst kv, dumps (snd kv))) items)))
          +:+ "}"
  end.

End Json.

(* ===================================================================== *)
(** ** [app/models.py] *)
(* ===================================================================== *)

Module Models.

Record PRFile : Type := {
  filename : string;
  status : string;
  additions : Z;
  deletions : Z;
  changes : Z;
  patch : option string
}.

Record PRCommit : Type := {
  sha : string;
  message : string;
  author : string
}.

(** [Optional[...]] fields may hold [None]. *)
Record PRAnalyzeRequest : Type := {
  title : string;
  description : option string;
  files : list PRFile;
  commits : option (list PRCommit);
  base_branch : option string;
  head_branch : option string;
  pr_url : option string
}.

Record PRContext : Type := {
  summary : string;
  purpose : string;
  testing_focus : list string;
  potential_risks : list string;
  affected_areas : list string;
  review_priority : string;
  estimated_review_time : string;
  key_changes : list string
}.

(** Outcome of validating one field or one model. *)
Inductive validated (A : Type) : Type :=
| Accepted (v : A)
| Rejected (msg : string).
Arguments Accepted {A} v.
Arguments Rejected {A} msg.

(** [@validator('files')] *)
Definition validate_files (v : list PRFile) : validated (list PRFile) :=
  if Z.of_nat (length v) >? 100
  then Rejected "Too many files. Maximum 100 files allowed."
  else Accepted v.

(** [@validator('description')]: [v and len(v) > 10000], [v or ""] *)
Definition validate_description (v : option string) : string :=
  match v with
  | Some s =>
      if Py.truthy s && (Py.len s >? 10000)
      then Py.slice_to 10000 s +:+ "... (truncated)"
      else s
  | None => ""
  end.

(** The [files] field: [min_items=1], then the validator. *)
Definition check_files (v : list PRFile) : validated (list PRFile) :=
  if Z.of_nat (length v) <? 1
  then Rejected "List should have at least 1 item"
  else validate_files v.

(** The [title] field: [min_length=1, max_length=500]. *)
Definition check_title (v : string) : validated string :=
  if Py.len v <? 1 then Rejected "String should have at least 1 character"
  else if Py.len v >? 500 then Rejected "String should have at most 500 characters"
  else Accepted v.

(** Construction of a [PRAnalyzeRequest] from the field values of a request
    body: every supplied field goes through its constraints and validator;
    the description validator runs on a supplied value, an omitted
    description takes the default [""] (here: [Some ""]). *)
Definition PRAnalyzeRequest_validate (body : PRAnalyzeRequest)
  : validated PRAnalyzeRequest :=
  match check_title (title body) with
  | Rejected m => Rejected m
  | Accepted t =>
      match check_files (files body) with
      | Rejected m => Rejected m
      | Accepted fs =>
          Accepted {| title := t;
                      description := Some (validate_description (description body));
                      files := fs;
                      commits := commits body;
                      base_branch := base_branch body;
                      head_branch := head_branch body;
                      pr_url := pr_url body |}
      end
  end.

End Models.

(* ===================================================================== *)
(** ** [app/services/cache_service.py] *)
(* ===================================================================== *)

Module Cache.
Import Models.

Record CacheEntry : Type := {
  data : PRContext;
  timestamp : Q;
  pr_title : string
}.

Record CacheService : Type := {
  _cache : gmap string CacheEntry;
  _ttl : Z
}.

(** [CacheService(ttl_seconds)] *)
Definition init (ttl_seconds : Z) : CacheService :=
  {| _cache := ∅; _ttl := ttl_seconds |}.

(** The dict literal [cache_input], keys in the order they are written. *)
Definition cache_input (pr_data : PRAnalyzeRequest) : Json.value :=
  Json.JDict
    [ ("title", Json.JStr (title pr_data));
      ("files", Json.JInt (Z.of_nat (length (files pr_data))));
      ("total_additions", Json.JInt (Py.sum (additions <$> files pr_data)));
      ("total_deletions", Json.JInt (Py.sum (deletions <$> files pr_data)));
      ("sample_files",
        Json.JList (Json.JStr <$> (filename <$> take 3 (files pr_data)))) ].

Definition _generate_cache_key (pr_data : PRAnalyzeRequest) : string :=
  let cache_str := Json.dumps (cache_input pr_data) in
  Py.slice_to 16 (Sha256.hexdigest (Py.encode cache_str)).

(** Follows the spec's words (Fingerprinter, algorithm): the canonical
    record [{title, file_count, total_additions, total_deletions,
    sample_files}]. *)
Definition spec_record (title : string)
    (file_count total_additions total_deletions : Z)
    (sample_files : list string) : Json.value :=
  Json.JDict
    [ ("title", Json.JStr title);
      ("file_count", Json.JInt file_count);
      ("total_additions", Json.JInt total_additions);
      ("total_deletions", Json.JInt total_deletions);
      ("sample_files", Json.JList (Json.JStr <$> sample_files)) ].

(** Follows the spec's words: serialize the record with its field names
    sorted, hash the UTF-8 bytes with SHA-256, keep the first 16 characters
    of the hexadecimal encoding. *)
Definition spec_fingerprint (title : string)
    (file_count total_additions total_deletions : Z)
    (sample_files : list string) : string :=
  Py.slice_to 16
    (Sha256.hexdigest
       (Py.encode (Json.dumps (spec_record title file_count total_additions
                                 total_deletions sample_files)))).

(** The canonical string with the names the code gives to the five values,
    written out in the lexicographic order of these names: [files] for the
    number of files, [sample_files] for the first three file names. *)
Definition canonical_string (title : string)
    (file_count total_additions total_deletions : Z)
    (sample_files : list string) : string :=
  "{" +:+ Py.join ", "
            [ Json.quote "files" +:+ ": " +:+ Py.str_int file_count;
              Json.quote "sample_files" +:+ ": " +:+
                ("[" +:+ Py.join ", " (Json.quote <$> sample_files) +:+ "]");
              Json.quote "title" +:+ ": " +:+ Json.quote title;
              Json.quote "total_additions" +:+ ": "
                +:+ Py.str_int total_additions;
              Json.quote "total_deletions" +:+ ": "
                +:+ Py.str_int total_deletions ]
      +:+ "}".

(** The first 16 hexadecimal characters of the SHA-256 digest of the UTF-8
    bytes of a string. *)
Definition digest16 (canonical : string) : string :=
  Py.slice_to 16 (Sha256.hexdigest (Py.encode canonical)).

(** [age > self._ttl] *)
Definition expired (ttl : Z) (now : Q) (entry : CacheEntry) : bool :=
  negb (Qle_bool (now - timestamp entry) (inject_Z ttl)).

(** [get]; [now] is the reading of [time.time()]. *)
Definition get (self : CacheService) (pr_data : PRAnalyzeRequest) (now : Q)
  : option PRContext * CacheService :=
  let cache_key := _generate_cache_key pr_data in
  match _cache self !! cache_key with
  | None => (None, self)
  | Some entry =>
      if expired (_ttl self) now entry
      then (None, {| _cache := delete cache_key (_cache self);
                     _ttl := _ttl self |})
      else (Some (data entry), self)
  end.

(** [_cleanup_expired]: collect the expired keys, then delete each. *)
Definition expired_keys (self : CacheService) (now : Q) : list string :=
  fst <$> filter (fun kv => expired (_ttl self) now (snd kv) = true)
                 (map_to_list (_cache self)).

Definition _cleanup_expired (self : CacheService) (now : Q) : CacheService :=
  {| _cache := foldl (fun m key => delete key m) (_cache self)
                     (expired_keys self now);
     _ttl := _ttl self |}.

(** [set]; [t_store] is the clock reading stored as the timestamp,
    [t_sweep] the later reading taken by [_cleanup_expired]. *)
Definition set (self : CacheService) (pr_data : PRAnalyzeRequest)
    (context : PRContext) (t_store t_sweep : Q) : CacheService :=
  let cache_key := _generate_cache_key pr_data in
  let entry := {| data := context; timestamp := t_store;
                  pr_title := title pr_data |} in
  _cleanup_expired
    {| _cache := <[cache_key := entry]> (_cache self); _ttl := _ttl self |}
    t_sweep.

Definition clear (self : CacheService) : CacheService :=
  {| _cache := ∅; _ttl := _ttl self |}.

(** [int(age)]: truncation toward zero. *)
Definition int_of_Q (q : Q) : Z := Z.quot (Qnum q) (Zpos (Qden q)).

Record StatsEntry : Type := {
  key : string;
  age_seconds : Z;
  stat_pr_title : string
}.

Record Stats : Type := {
  total_entries : Z;
  ttl_seconds : Z;
  entries : list StatsEntry
}.

Definition stats (self : CacheService) (now : Q) : Stats :=
  {| total_entries := Z.of_nat (size (_cache self));
     ttl_seconds := _ttl self;
     entries :=
       (fun kv => {| key := fst kv;
                     age_seconds := int_of_Q (now - timestamp (snd kv));
                     stat_pr_title := pr_title (snd kv) |})
       <$> map_to_list (_cache self) |}.

End Cache.

(* ===================================================================== *)
(** ** Python [float]: IEEE 754 binary64 *)
(* ===================================================================== *)

Module Double.
Import PrimFloat SpecFloat FloatOps.

(** A Python [float] is a binary64 number, and so is the primitive [float]
    of the kernel; [time.time()] returns one. *)
Definition float : Set := PrimFloat.float.

(** [a - b]: the difference rounded to the nearest double, ties to even. *)
Definition sub (a b : float) : float := PrimFloat.sub a b.

(** [a + b], rounded alike, and [a < b]. *)
Definition add (a b : float) : float := PrimFloat.add a b.

Definition lt (a b : float) : bool := PrimFloat.ltb a b.

(** The number a finite double stands for: sign [s], significand [m] and
    exponent [e] give [(-1)^s * m * 2^e]. *)
Definition finite_value (s : bool) (m : positive) (e : Z) : Q :=
  (inject_Z (if s then Z.neg m else Z.pos m) * 2 ^ e)%Q.

(** The exact value of a double; an infinity and a NaN have none. *)
Definition value (x : float) : option Q :=
  match Prim2SF x with
  | S754_zero _ => Some 0%Q
  | S754_finite s m e => Some (finite_value s m e)
  | S754_infinity _ => None
  | S754_nan => None
  end.

(** [x > n] for a float [x] and an int [n]: Python compares the two by
    their exact values; a NaN is not greater than anything, an infinity is
    compared by its sign. *)
Definition gt_int (x : float) (n : Z) : bool :=
  match Prim2SF x with
  | S754_nan => false
  | S754_infinity s => negb s
  | S754_zero _ => negb (Qle_bool 0 (inject_Z n))
  | S754_finite s m e => negb (Qle_bool (finite_value s m e) (inject_Z n))
  end.

(** [int(x)]: the exact value cut toward zero; [None] stands for the
    OverflowError raised on an infinity and the ValueError raised on a
    NaN. *)
Definition int (x : float) : option Z :=
  match value x with
  | Some q => Some (Z.quot (Qnum q) (Zpos (Qden q)))
  | None => None
  end.

End Double.

(* ===================================================================== *)
(** ** [app/services/cache_service.py] on the clock of the interpreter *)
(* ===================================================================== *)

(** The operations of [CacheService] that read the clock, with the
    readings of [time.time()] as the doubles they are: the age of an entry
    is the rounded difference [now - entry["timestamp"]], which [get] and
    [_cleanup_expired] compare with the TTL and [stats] cuts to whole
    seconds. *)
Module FloatCache.
Import Models.

Record CacheEntry : Type := {
  data : PRContext;
  timestamp : Double.float;
  pr_title : string
}.

Record CacheService : Type := {
  _cache : gmap string CacheEntry;
  _ttl : Z
}.

(** [CacheService(ttl_seconds)] *)
Definition init (ttl_seconds : Z) : CacheService :=
  {| _cache := ∅; _ttl := ttl_seconds |}.

(** [now - entry["timestamp"]] *)
Definition age (now : Double.float) (entry : CacheEntry) : Double.float :=
  Double.sub now (timestamp entry).

(** [age > self._ttl] *)
Definition expired (ttl : Z) (now : Double.float) (entry : CacheEntry)
  : bool :=
  Double.gt_int (age now entry) ttl.

(** [get]; [now] is the reading of [time.time()]. *)
Definition get (self : CacheService) (pr_data : PRAnalyzeRequest)
    (now : Double.float) : option PRContext * CacheService :=
  let cache_key := Cache._generate_cache_key pr_data in
  match _cache self !! cache_key with
  | None => (None, self)
  | Some entry =>
      if expired (_ttl self) now entry
      then (None, {| _cache := delete cache_key (_cache self);
                     _ttl := _ttl self |})
      else (Some (data entry), self)
  end.

(** [_cleanup_expired]: collect the keys whose entry is expired at the
    reading [now], then delete each. *)
Definition expired_keys (self : CacheService) (now : Double.float)
  : list string :=
  fst <$> filter (fun kv => expired (_ttl self) now (snd kv) = true)
                 (map_to_list (_cache self)).

Definition _cleanup_expired (self : CacheService) (now : Double.float)
  : CacheService :=
  {| _cache := foldl (fun m key => delete key m) (_cache self)
                     (expired_keys self now);
     _ttl := _ttl self |}.

(** [set]; [t_store] is the reading stored as the timestamp, [t_sweep] the
    one taken afterwards by [_cleanup_expired]. *)
Definition set (self : CacheService) (pr_data : PRAnalyzeRequest)
    (context : PRContext) (t_store t_sweep : Double.float) : CacheService :=
  let cache_key := Cache._generate_cache_key pr_data in
  let entry := {| data := context; timestamp := t_store;
                  pr_title := title pr_data |} in
  _cleanup_expired
    {| _cache := <[cache_key := entry]> (_cache self); _ttl := _ttl self |}
    t_sweep.

Record StatsEntry : Type := {
  key : string;
  age_seconds : Z;
  stat_pr_title : string
}.

Record Stats : Type := {
  total_entries : Z;
  ttl_seconds : Z;
  entries : list StatsEntry
}.

(** One round of the loop of [stats]: the dict appended for an item, unless
    [int(age)] raises. *)
Definition stats_entry (now : Double.float) (kv : string * CacheEntry)
  : option StatsEntry :=
  match Double.int (age now (snd kv)) with
  | Some seconds => Some {| key := fst kv; age_seconds := seconds;
                            stat_pr_title := pr_title (snd kv) |}
  | None => None
  end.

(** [stats]; [None] when [int(age)] raises for one of the entries. *)
Definition stats (self : CacheService) (now : Double.float) : option Stats :=
  match mapM (stats_entry now) (map_to_list (_cache self)) with
  | Some listed => Some {| total_entries := Z.of_nat (size (_cache self));
                           ttl_seconds := _ttl self;
                           entries := listed |}
  | None => None
  end.

End FloatCache.

(* ===================================================================== *)
(** ** [app/services/groq_service.py] *)
(* ===================================================================== *)

Module Groq.
Import Models.

(** Exceptions by class, each with its [str(e)]. *)
Inductive exn : Type :=
| GroqError (text : string)
| JSONDecodeError (text : string)
| ValidationError (text : string)
| TypeError (text : string)
| ValueError (text : string)
| OtherException (text : string).

Definition str_exn (e : exn) : string :=
  match e with
  | GroqError t | JSONDecodeError t | ValidationError t
  | TypeError t | ValueError t | OtherException t => t
  end.

(** [str(last_error)], where [last_error] may still be [None]. *)
Definition str_last (e : option exn) : string :=
  match e with Some e' => str_exn e' | None => "None" end.

(** What [client.chat.completions.create(...)] followed by
    [response.choices[0].message.content] does on one call. *)
Inductive completion : Type :=
| Responds (content : string)
| Fails (e : exn).

(** One observable action of a run. *)
Inductive event : Type :=
| Call (attempt : Z)
| Sleep (seconds : Z).

Definition is_call (ev : event) : bool :=
  match ev with Call _ => true | Sleep _ => false end.

Definition calls (tr : list event) : nat := length (filter is_call tr).

Inductive outcome : Type :=
| Returned (context : PRContext)
| Raised (e : exn).

(** [_build_analysis_prompt] only matters here through whether it raises:
    it slices and measures [pr_data.commits], which raises [TypeError] on
    [None]; everything else in it is total. *)
Definition prompt_error (pr_data : PRAnalyzeRequest) : option exn :=
  match commits pr_data with
  | None => Some (TypeError "'NoneType' object is not subscriptable")
  | Some _ => None
  end.

(** Removal of the markdown code fence around the reply. *)
Definition strip_fences (content : string) : string :=
  let c1 := if Py.startswith content "```json" then Py.slice_from 7 content
            else content in
  let c2 := if Py.startswith c1 "```" then Py.slice_from 3 c1 else c1 in
  let c3 := if Py.endswith c2 "```" then Py.slice_to_neg 3 c2 else c2 in
  Py.strip c3.

(** ["rate limit" in error_str or "quota" in error_str] *)
Definition is_rate_limit (e : exn) : bool :=
  let error_str := Py.lower (str_exn e) in
  Py.contains "rate limit" error_str || Py.contains "quota" error_str.

(** The class test of [except GroqError]. *)
Definition is_groq_error (e : exn) : bool :=
  match e with GroqError _ => true | _ => false end.

(** A failure takes the rate-limit branch when it is a [GroqError] with a
    rate-limit text; every other exception is handled as a generic one. *)
Definition is_rate_limited (e : exn) : bool :=
  is_groq_error e && is_rate_limit e.

Definition is_generic (e : exn) : bool := negb (is_rate_limited e).

(** [min(2 ** (attempt + 2), 30)] *)
Definition rate_limit_wait (attempt : Z) : Z := Z.min (2 ^ (attempt + 2)) 30.

(** [min(2 ** attempt, 10)] *)
Definition generic_wait (attempt : Z) : Z := Z.min (2 ^ attempt) 10.

Definition rate_limit_message : string :=
  "Groq API rate limit exceeded. Please try again in a few minutes. "
  +:+ "Free tier: 80,000 tokens/day, 30 requests/minute.".

(** Text of the [ValueError] raised when the last attempt fails with a
    generic error [e]. *)
Definition exhausted_text (max_retries : Z) (e : exn) : string :=
  (if is_groq_error e then "AI analysis failed after "
   else "Analysis failed after ")
  +:+ Py.str_int max_retries +:+ " attempts: " +:+ str_exn e.

Definition band (total_changes : Z) : string * string :=
  if total_changes <? 50 then ("5-10 minutes", "low")
  else if total_changes <? 200 then ("15-25 minutes", "medium")
  else if total_changes <? 500 then ("30-45 minutes", "high")
  else ("1+ hours", "critical").

Definition _create_fallback_context (pr_data : PRAnalyzeRequest)
    (raw_response : string) : PRContext :=
  let total_changes :=
    Py.sum ((fun f => additions f + deletions f) <$> files pr_data) in
  let '(review_time, priority) := band total_changes in
  {| summary :=
       "This PR modifies " +:+ Py.str_int (Z.of_nat (length (files pr_data)))
       +:+ " files with " +:+ Py.str_int total_changes +:+ " total changes.";
     purpose :=
       match description pr_data with
       | Some d => if Py.truthy d then Py.slice_to 200 d
                   else "No description provided"
       | None => "No description provided"
       end;
     testing_focus :=
       [ "Test the modified functionality";
         "Check for breaking changes";
         "Verify edge cases" ];
     potential_risks :=
       [ "Changes may affect existing functionality";
         "Review for potential bugs" ];
     affected_areas :=
       (fun f => Py.split_head "/" (filename f)) <$> take 5 (files pr_data);
     review_priority := priority;
     estimated_review_time := review_time;
     key_changes :=
       (fun f => filename f +:+ " (" +:+ status f +:+ ")")
       <$> take 5 (files pr_data) |}.

(** A [str] field of [PRContext]. *)
Definition field_str (items : list (string * Json.value)) (k : string)
  : option string :=
  match Json.dict_get k items with
  | Some (Json.JStr s) => Some s
  | _ => None
  end.

Definition as_str (v : Json.value) : option string :=
  match v with Json.JStr s => Some s | _ => None end.

(** A [List[str]] field of [PRContext]. *)
Definition field_list (items : list (string * Json.value)) (k : string)
  : option (list string) :=
  match Json.dict_get k items with
  | Some (Json.JList l) => mapM as_str l
  | _ => None
  end.

(** Field validation when [PRContext] is built from a decoded dict: all eight
    fields are required, unknown keys are ignored. *)
Definition PRContext_fields (items : list (string * Json.value))
  : option PRContext :=
  s ← field_str items "summary";
  p ← field_str items "purpose";
  tf ← field_list items "testing_focus";
  pr ← field_list items "potential_risks";
  aa ← field_list items "affected_areas";
  rp ← field_str items "review_priority";
  et ← field_str items "estimated_review_time";
  kc ← field_list items "key_changes";
  Some {| summary := s; purpose := p; testing_focus := tf;
          potential_risks := pr; affected_areas := aa;
          review_priority := rp; estimated_review_time := et;
          key_changes := kc |}.

Section Invoker.

(** [json.loads]: the decoded value, or the text of the
    [JSONDecodeError] it raises. *)
Variable json_loads : string -> string + Json.value.

(** [str(e)] of the exception that building [PRContext] from
    [analysis_data] raises. *)
Variable construct_error_text : Json.value -> string.

(** The Completion Service: what the call of each attempt does. *)
Variable client : Z -> completion.

(** [PRContext] built from [analysis_data] as keyword arguments: the
    unpacking needs a mapping, then the fields are validated. *)
Definition PRContext_construct (analysis_data : Json.value) : exn + PRContext :=
  match analysis_data with
  | Json.JDict items =>
      match PRContext_fields items with
      | Some c => inr c
      | None => inl (ValidationError (construct_error_text analysis_data))
      end
  | _ => inl (TypeError (construct_error_text analysis_data))
  end.

(** How one iteration of the [for] loop ends. *)
Inductive step : Type :=
| Finish (o : outcome)
| Continue (last_error : exn) (sleep : option Z).

(** The two outer handlers, [except GroqError] and [except Exception]. *)
Definition handle_exception (max_retries attempt : Z) (e : exn) : step :=
  match e with
  | GroqError _ =>
      if is_rate_limit e then
        if attempt <? max_retries - 1
        then Continue e (Some (rate_limit_wait attempt))
        else Finish (Raised (ValueError rate_limit_message))
      else
        if attempt <? max_retries - 1
        then Continue e (Some (generic_wait attempt))
        else Finish (Raised (ValueError
               ("AI analysis failed after " +:+ Py.str_int max_retries
                +:+ " attempts: " +:+ str_exn e)))
  | _ =>
      if attempt <? max_retries - 1
      then Continue e (Some (generic_wait attempt))
      else Finish (Raised (ValueError
             ("Analysis failed after " +:+ Py.str_int max_retries
              +:+ " attempts: " +:+ str_exn e)))
  end.

(** The inner [try]: fence removal, decoding, validation. *)
Definition interpret (pr_data : PRAnalyzeRequest) (max_retries attempt : Z)
    (content : string) : step :=
  let content' := strip_fences (Py.strip content) in
  match json_loads content' with
  | inr analysis_data =>
      match PRContext_construct analysis_data with
      | inr context => Finish (Returned context)
      | inl e => handle_exception max_retries attempt e
      end
  | inl text =>
      if attempt =? max_retries - 1
      then Finish (Returned (_create_fallback_context pr_data content'))
      else Continue (JSONDecodeError text) None
  end.

(** The context a reply is turned into, when the inner [try] returns. *)
Definition parse (content : string) : option PRContext :=
  match json_loads (strip_fences (Py.strip content)) with
  | inr analysis_data =>
      match PRContext_construct analysis_data with
      | inr context => Some context
      | inl _ => None
      end
  | inl _ => None
  end.

(** The body of the loop, with the events it causes. *)
Definition attempt_body (pr_data : PRAnalyzeRequest) (max_retries attempt : Z)
  : step * list event :=
  match prompt_error pr_data with
  | Some e => (handle_exception max_retries attempt e, [])
  | None =>
      match client attempt with
      | Fails e => (handle_exception max_retries attempt e, [Call attempt])
      | Responds content =>
          (interpret pr_data max_retries attempt content, [Call attempt])
      end
  end.

(** [for attempt in range(max_retries)], [remaining] iterations to go. *)
Fixpoint loop (pr_data : PRAnalyzeRequest) (max_retries : Z)
    (remaining : nat) (attempt : Z) (last_error : option exn)
  : outcome * list event :=
  match remaining with
  | O => (Raised (ValueError ("Analysis failed: " +:+ str_last last_error)), [])
  | S remaining' =>
      let '(st, evs) := attempt_body pr_data max_retries attempt in
      match st with
      | Finish o => (o, evs)
      | Continue e sleep =>
          let evs' := (evs ++ match sleep with
                              | Some w => [Sleep w]
                              | None => []
                              end)%list in
          let '(o, rest) :=
            loop pr_data max_retries remaining' (attempt + 1) (Some e) in
          (o, (evs' ++ rest)%list)
      end
  end.

Definition analyze_pr (pr_data : PRAnalyzeRequest) (max_retries : Z)
  : outcome * list event :=
  loop pr_data max_retries (Z.to_nat max_retries) 0 None.

End Invoker.

End Groq.

(* ===================================================================== *)
(** ** [app/routers/analyze.py]: the /analyze endpoint *)
(* ===================================================================== *)

Module Router.
Import Models.

Inductive response : Type :=
| Success (context : PRContext) (cached : bool)
| HTTPError (status_code : Z) (detail : string).

(** The clock readings a request consumes in the cache. *)
Record clock : Type := {
  t_get : Q;
  t_store : Q;
  t_sweep : Q
}.

Definition internal_error : response :=
  HTTPError 500 "Internal server error during analysis".

Section Endpoint.

Variable json_loads : string -> string + Json.value.
Variable construct_error_text : Json.value -> string.
Variable client : Z -> Groq.completion.

(** [get_groq_service()] raises [ValueError] without an API key. *)
Variable api_key_configured : bool.

(** The body of [analyze_pr] on a validated request. The logging line
    takes [len(pr_data.commits)] before the cache is read; a cached context
    is an object and therefore truthy. *)
Definition handler (pr_data : PRAnalyzeRequest) (cs : Cache.CacheService)
    (clk : clock) : response * Cache.CacheService * list Groq.event :=
  match commits pr_data with
  | None => (internal_error, cs, [])
  | Some _ =>
      let '(cached_context, cs1) := Cache.get cs pr_data (t_get clk) in
      match cached_context with
      | Some context => (Success context true, cs1, [])
      | None =>
          if (length (files pr_data) =? 0)%nat
          then (HTTPError 400 "At least one file must be provided", cs1, [])
          else if negb api_key_configured
          then (HTTPError 503
                  ("GROQ_API_KEY not configured. "
                   +:+ "Get your free API key from https://console.groq.com"),
                cs1, [])
          else
            match Groq.analyze_pr json_loads construct_error_text client
                    pr_data 3 with
            | (Groq.Returned context, tr) =>
                (Success context false,
                 Cache.set cs1 pr_data context (t_store clk) (t_sweep clk),
                 tr)
            | (Groq.Raised (Groq.ValueError text), tr) =>
                (HTTPError 422 ("Analysis failed: " +:+ text), cs1, tr)
            | (Groq.Raised _, tr) => (internal_error, cs1, tr)
            end
      end
  end.

(** The framework builds the request model from the body first and
    answers 422 without entering the handler when that fails. *)
Definition analyze_endpoint (body : PRAnalyzeRequest)
    (cs : Cache.CacheService) (clk : clock)
  : response * Cache.CacheService * list Groq.event :=
  match PRAnalyzeRequest_validate body with
  | Rejected msg => (HTTPError 422 msg, cs, [])
  | Accepted pr_data => handler pr_data cs clk
  end.

End Endpoint.

End Router.

(* ===================================================================== *)
(** ** Sample data for the worked examples *)
(* ===================================================================== *)

Module Samples.
Import Models.

Definition file_a : PRFile :=
  {| filename := "a.ts"; status := "modified"; additions := 10;
     deletions := 2; changes := 12; patch := None |}.

Definition file_b : PRFile :=
  {| filename := "b.ts"; status := "modified"; additions := 5;
     deletions := 1; changes := 6; patch := None |}.

Definition file_c : PRFile :=
  {| filename := "src/app/c.ts"; status := "added"; additions := 120;
     deletions := 0; changes := 120; patch := Some "@@ -0,0 +1,120 @@" |}.

Definition file_d : PRFile :=
  {| filename := "docs/d.md"; status := "removed"; additions := 0;
     deletions := 400; changes := 400; patch := None |}.

Definition request (fs : list PRFile) : PRAnalyzeRequest :=
  {| title := "Fix null check"; description := Some "";
     files := fs; commits := Some [];
     base_branch := Some "main"; head_branch := Some "";
     pr_url := Some "" |}.

(** The request of the end-to-end scenario: 18 changed lines. *)
Definition pr_small : PRAnalyzeRequest := request [file_a; file_b].

(** Same title, file count, totals and first file names as [pr_small];
    patch, change counter, status, description and commits differ. *)
Definition pr_small' : PRAnalyzeRequest :=
  {| title := "Fix null check";
     description := Some "Guards the parser against a missing node.";
     files :=
       [ {| filename := "a.ts"; status := "renamed"; additions := 9;
            deletions := 1; changes := 10; patch := Some "@@ -1 +1 @@" |};
         {| filename := "b.ts"; status := "added"; additions := 6;
            deletions := 2; changes := 8; patch := None |} ];
     commits := Some [ {| sha := "c0ffee"; message := "fix"; author := "dev" |} ];
     base_branch := Some "develop"; head_branch := Some "fix/null";
     pr_url := None |}.

Definition pr_medium : PRAnalyzeRequest := request [file_a; file_c].
Definition pr_high : PRAnalyzeRequest := request [file_d].
Definition pr_critical : PRAnalyzeRequest := request [file_c; file_d].

Definition context_1 : PRContext :=
  {| summary := "Adds a null check."; purpose := "Fixes a crash.";
     testing_focus := ["Open an empty file"];
     potential_risks := ["None expected"];
     affected_areas := ["a.ts"];
     review_priority := "low";
     estimated_review_time := "5 minutes";
     key_changes := ["a.ts: guard added"] |}.

Definition context_2 : PRContext :=
  {| summary := "Older analysis."; purpose := "Unknown.";
     testing_focus := []; potential_risks := []; affected_areas := [];
     review_priority := "medium"; estimated_review_time := "20 minutes";
     key_changes := [] |}.

(** [json.loads] on the two replies used below: the text of an empty
    object decodes to the empty dict, a reply that is no JSON at all
    raises [JSONDecodeError]. *)
Definition loads (s : string) : string + Json.value :=
  if String.eqb s "{}" then inr (Json.JDict [])
  else inl "Expecting value: line 1 column 1 (char 0)".

(** [str(e)] of the error raised when a context is built from a dict
    without any of the eight fields, cut to its first line. *)
Definition error_text (v : Json.value) : string :=
  "8 validation errors for PRContext".

(** A provider that answers every call with an empty JSON object. *)
Definition client_empty_object (attempt : Z) : Groq.completion :=
  Groq.Responds "{}".

(** A provider that answers every call with prose. *)
Definition client_prose (attempt : Z) : Groq.completion :=
  Groq.Responds "Sorry, I cannot help with that.".

(** A provider whose connection fails on every call. *)
Definition client_down (attempt : Z) : Groq.completion :=
  Groq.Fails (Groq.GroqError "Connection error.").

(** A cache with TTL 3600 holding one entry written at time 0 under the
    key of [pr_high]. *)
Definition cache_old : Cache.CacheService :=
  Cache.set (Cache.init 3600) pr_high context_2 0 0.

(** A request with 101 files, one with none. *)
Definition pr_too_many : PRAnalyzeRequest := request (repeat file_a 101).
Definition pr_no_files : PRAnalyzeRequest := request [].

(** A description of 10001 characters. *)
Definition long_description : string :=
  string_of_list_ascii (repeat "a"%char 10001).

End Samples.

(* ===================================================================== *)
(** ** [app/config.py], [GroqService.__init__], [main.py] *)
(* ===================================================================== *)

Module Config.

(** [s.split(sep)] for a one-character separator: every separator cuts, so
    the result is never empty and may hold empty pieces. *)
Fixpoint str_split (sep : ascii) (s : string) : list string :=
  match s with
  | EmptyString => [EmptyString]
  | String c s' =>
      if Ascii.eqb c sep then EmptyString :: str_split sep s'
      else match str_split sep s' with
           | piece :: rest => String c piece :: rest
           | [] => [String c EmptyString]
           end
  end.

(** [Settings.parse_origins]: a string is cut at the commas, the pieces are
    stripped and the empty ones dropped; a list is returned as it is. *)
Definition parse_origins (v : string + list string) : list string :=
  match v with
  | inl text =>
      Py.strip <$>
        filter (fun origin => Py.truthy (Py.strip origin) = true)
               (str_split "," text)
  | inr origins => origins
  end.

(** [Settings.parse_debug]: a string is true when its lower case is one of
    four words; a bool is returned as it is. *)
Definition parse_debug (v : string + bool) : bool :=
  match v with
  | inl text =>
      let l := Py.lower text in
      String.eqb l "true" || String.eqb l "1" || String.eqb l "yes"
      || String.eqb l "on"
  | inr b => b
  end.

Definition placeholder_key : string := "your_groq_api_key_here".

Definition missing_key_message : string :=
  "GROQ_API_KEY not configured. "
  +:+ "Get your free API key from https://console.groq.com".

(** [GroqService.__init__]: raises [ValueError] when the key is empty or
    still the placeholder, and builds the service otherwise. *)
Definition GroqService_init (GROQ_API_KEY : string) : Groq.exn + unit :=
  if negb (Py.truthy GROQ_API_KEY) || String.eqb GROQ_API_KEY placeholder_key
  then inl (Groq.ValueError missing_key_message)
  else inr tt.

(** Whether [get_groq_service()] hands out a service. *)
Definition service_available (GROQ_API_KEY : string) : bool :=
  match GroqService_init GROQ_API_KEY with inr _ => true | inl _ => false end.

Record Health : Type := {
  health_status : string;
  health_api : string;
  health_groq : string
}.

(** [health_check] of [main.py], without the debug flag it echoes. *)
Definition health_check (GROQ_API_KEY : string) : Health :=
  let groq_configured :=
    Py.truthy GROQ_API_KEY && negb (String.eqb GROQ_API_KEY placeholder_key) in
  {| health_status := if groq_configured then "healthy" else "degraded";
     health_api := "up";
     health_groq := if groq_configured then "configured" else "not configured" |}.

End Config.

(* ===================================================================== *)
(** ** [app/routers/analyze.py]: the /analyze/quick endpoint *)
(* ===================================================================== *)

Module Quick.
Import Models.

(** The answer of the quick endpoint: the context with the two counters of
    its metadata, or an error. *)
Inductive response : Type :=
| Success (context : PRContext) (files_analyzed total_files : Z)
| HTTPError (status_code : Z) (detail : string).

(** [model_copy()] followed by the two assignments. *)
Definition simplify (pr_data : PRAnalyzeRequest) (cs : list PRCommit)
  : PRAnalyzeRequest :=
  {| title := title pr_data;
     description := description pr_data;
     files := take 10 (files pr_data);
     commits := Some (take 5 cs);
     base_branch := base_branch pr_data;
     head_branch := head_branch pr_data;
     pr_url := pr_url pr_data |}.

Definition failed (e : Groq.exn) : response :=
  HTTPError 500 ("Quick analysis failed: " +:+ Groq.str_exn e).

Section Endpoint.

Variable json_loads : string -> string + Json.value.
Variable construct_error_text : Json.value -> string.
Variable client : Z -> Groq.completion.
Variable GROQ_API_KEY : string.

(** The body of [quick_analyze_pr] on a validated request: every exception,
    the one of slicing absent commits and the one of a missing key
    included, ends in the same 500 answer. The cache is not consulted. *)
Definition handler (pr_data : PRAnalyzeRequest)
  : response * list Groq.event :=
  match commits pr_data with
  | None =>
      (failed (Groq.TypeError "'NoneType' object is not subscriptable"), [])
  | Some cs =>
      let simplified_data := simplify pr_data cs in
      match Config.GroqService_init GROQ_API_KEY with
      | inl e => (failed e, [])
      | inr _ =>
          match Groq.analyze_pr json_loads construct_error_text client
                  simplified_data 3 with
          | (Groq.Returned context, tr) =>
              (Success context
                 (Z.of_nat (length (files simplified_data)))
                 (Z.of_nat (length (files pr_data))),
               tr)
          | (Groq.Raised e, tr) => (failed e, tr)
          end
      end
  end.

Definition quick_endpoint (body : PRAnalyzeRequest)
  : response * list Groq.event :=
  match PRAnalyzeRequest_validate body with
  | Rejected msg => (HTTPError 422 msg, [])
  | Accepted pr_data => handler pr_data
  end.

End Endpoint.

End Quick.

(* ===================================================================== *)
(** ** Observations used to state properties of runs and answers *)
(* ===================================================================== *)

Module Observe.

(** The arguments of [time.sleep], in order. *)
Definition sleeps (tr : list Groq.event) : list Z :=
  omap (fun ev => match ev with
                  | Groq.Sleep w => Some w
                  | Groq.Call _ => None
                  end) tr.

(** [range(a, a + n)] *)
Fixpoint range_from (a : Z) (n : nat) : list Z :=
  match n with
  | O => []
  | S n' => a :: range_from (a + 1) n'
  end.

(** The status of an answer of /analyze; a success is a 200. *)
Definition status_code (r : Router.response) : Z :=
  match r with
  | Router.Success _ _ => 200
  | Router.HTTPError code _ => code
  end.

(** The characters [0-9a-f]. *)
Definition is_hex_char (c : ascii) : bool :=
  let n := nat_of_ascii c in
  (((48 <=? n) && (n <=? 57)) || ((97 <=? n) && (n <=? 102)))%nat.

Fixpoint all_chars (P : ascii -> bool) (s : string) : bool :=
  match s with
  | EmptyString => true
  | String c s' => P c && all_chars P s'
  end.

(** Whether a character occurs in a string. *)
Fixpoint has_char (c : ascii) (s : string) : bool :=
  match s with
  | EmptyString => false
  | String c' s' => Ascii.eqb c c' || has_char c s'
  end.

End Observe.

(* ===================================================================== *)
(** ** More sample data *)
(* ===================================================================== *)

Module MoreSamples.
Import Models.

(** A complete analysis, with one key the model does not know. *)
Definition analysis_value : Json.value :=
  Json.JDict
    [ ("summary", Json.JStr "Adds a null check.");
      ("purpose", Json.JStr "Fixes a crash.");
      ("testing_focus", Json.JList [Json.JStr "Open an empty file"]);
      ("potential_risks", Json.JList [Json.JStr "None expected"]);
      ("affected_areas", Json.JList [Json.JStr "a.ts"]);
      ("review_priority", Json.JStr "low");
      ("estimated_review_time", Json.JStr "5 minutes");
      ("key_changes", Json.JList [Json.JStr "a.ts: guard added"]);
      ("confidence", Json.JInt 3) ].

(** Its JSON text, as the provider would send it. *)
Definition analysis_text : string := Json.dumps analysis_value.

(** [json.loads] on the replies used below: it reads the text of
    [analysis_value] back, and behaves as [Samples.loads] elsewhere. *)
Definition loads (s : string) : string + Json.value :=
  if String.eqb s analysis_text then inr analysis_value else Samples.loads s.

(** A provider whose first reply is an empty object and whose later replies
    are the complete analysis inside a code fence. *)
Definition client_second_ok (attempt : Z) : Groq.completion :=
  if attempt =? 0 then Groq.Responds "{}"
  else Groq.Responds ("```json" +:+ analysis_text +:+ "```").

(** A provider that always sends the complete analysis. *)
Definition client_ok (attempt : Z) : Groq.completion :=
  Groq.Responds analysis_text.

(** A request with absent commits. *)
Definition pr_no_commits : PRAnalyzeRequest :=
  {| title := "Fix null check"; description := Some "";
     files := [Samples.file_a]; commits := None;
     base_branch := Some "main"; head_branch := Some "";
     pr_url := Some "" |}.

(** A request with twelve files and six commits. *)
Definition pr_large : PRAnalyzeRequest :=
  {| title := "Fix null check"; description := Some "";
     files := repeat Samples.file_a 12;
     commits :=
       Some (repeat {| sha := "c0ffee"; message := "fix"; author := "dev" |} 6);
     base_branch := Some "main"; head_branch := Some "";
     pr_url := Some "" |}.

(** The readings of the clock for a first and for a second request. *)
Definition clock_1 : Router.clock :=
  {| Router.t_get := 10; Router.t_store := 12; Router.t_sweep := 12 |}.

Definition clock_2 : Router.clock :=
  {| Router.t_get := 20; Router.t_store := 22; Router.t_sweep := 22 |}.

End MoreSamples.

(* ===================================================================== *)
(** ** Clock readings for the worked examples *)
(* ===================================================================== *)

Module ClockSamples.
Import PrimFloat.

(** The doubles written [0.3], [3600.3] and [3601.0] in Python. *)
Definition t_stamp : Double.float := 0x1.3333333333333p-2%float.
Definition t_hour : Double.float := 0x1.c20999999999ap+11%float.
Definition t_late : Double.float := 0x1.c22p+11%float.

(** The doubles [2^-42] and [3600.0], and the double next above
    [3600.0]. *)
Definition t_tiny : Double.float := 0x1p-42%float.
Definition t_ttl : Double.float := 0x1.c2p+11%float.
Definition t_next : Double.float := 0x1.c200000000001p+11%float.

(** The doubles written [0.36568891691258554] and [3.3656889169125854]. *)
Definition stamp_1 : Double.float := 0x1.767727ca98cc2p-2%float.
Definition read_1 : Double.float := 0x1.aecee4f953198p+1%float.

(** A cache with a TTL of one hour holding one entry, written at [t_stamp]
    under the key of [Samples.pr_high]. *)
Definition cache_stamped : FloatCache.CacheService :=
  FloatCache.set (FloatCache.init 3600) Samples.pr_high Samples.context_2
    t_stamp t_stamp.

End ClockSamples.

(* ===================================================================== *)
(** * Properties *)
(* ===================================================================== *)

Import Models.

(** ** The result cache *)

Section CacheFacts.
Import Cache.







End CacheFacts.

Section CacheClaims.
Import Cache.



End CacheClaims.

(** ** The result cache on the clock of the interpreter *)

Section FloatCacheFacts.
Import FloatCache.

(** [x > n] is the order of the exact values. *)
Lemma gt_int_value (x : Double.float) (q : Q) (n : Z) :
  Double.value x = Some q ->
  Double.gt_int x n = true <-> (inject_Z n < q)%Q.
Proof.
  unfold Double.value, Double.gt_int.
  destruct (FloatOps.Prim2SF x) as [s|s| |s m e]; intros [= <-];
    rewrite negb_true_iff.
  - split.
    + intros Hle. apply Qnot_le_lt. intros Hle'.
      apply Qle_bool_iff in Hle'. congruence.
    + intros Hlt. destruct (Qle_bool 0 (inject_Z n)) eqn:Hle; [|done].
      apply Qle_bool_iff in Hle. exfalso. apply (Qlt_not_le _ _ Hlt), Hle.
  - split.
    + intros Hle. apply Qnot_le_lt. intros Hle'.
      apply Qle_bool_iff in Hle'. congruence.
    + intros Hlt.
      destruct (Qle_bool _ (inject_Z n)) eqn:Hle; [|done].
      apply Qle_bool_iff in Hle. exfalso. apply (Qlt_not_le _ _ Hlt), Hle.
Qed.

(** Where the subtraction is exact, the computed age exceeds the TTL at
    every reading later than the timestamp plus the TTL. *)
Lemma computed_age_exceeds_when_exact (t0 now : Double.float)
    (q0 q1 d : Q) (ttl : Z) :
  Double.value t0 = Some q0 ->
  Double.value now = Some q1 ->
  Double.value (Double.sub now t0) = Some d ->
  (d == q1 - q0)%Q ->
  (q0 + inject_Z ttl < q1)%Q ->
  Double.gt_int (Double.sub now t0) ttl = true.
Proof.
  intros _ _ Hd Hexact Hlate. apply (gt_int_value _ d); [done|].
  rewrite Hexact. lra.
Qed.

(** Deleting a list of keys one after the other. *)
Lemma lookup_delete_keys {A : Type} (ks : list string) (m : gmap string A)
    (k : string) :
  foldl (fun m' key => delete key m') m ks !! k
  = if decide (k ∈ ks) then None else m !! k.
Proof.
  revert m. induction ks as [|k0 ks IH]; intros m; cbn [foldl].
  - destruct (decide (k ∈ [])) as [Hin|_]; [|done].
    by apply elem_of_nil in Hin.
  - rewrite IH. destruct (decide (k ∈ ks)) as [Hin|Hin];
      destruct (decide (k ∈ k0 :: ks)) as [Hin'|Hin']; try done.
    + exfalso. apply Hin'. by right.
    + apply elem_of_cons in Hin' as [-> | ?]; [|done].
      by rewrite lookup_delete_eq.
    + apply lookup_delete_ne. intros ->. apply Hin'. by left.
Qed.

Lemma elem_of_swept_keys (self : CacheService) (now : Double.float)
    (k : string) :
  k ∈ expired_keys self now
  <-> exists e, _cache self !! k = Some e /\ expired (_ttl self) now e = true.
Proof.
  unfold expired_keys. rewrite list_elem_of_fmap. split.
  - intros [[k' e] [-> Hin]]. apply list_elem_of_filter in Hin as [Hexp Hin].
    apply elem_of_map_to_list in Hin. eauto.
  - intros [e [Hk Hexp]]. exists (k, e). split; [done|].
    apply list_elem_of_filter. split; [done|].
    by apply elem_of_map_to_list.
Qed.

(** The sweep keeps an entry exactly when its test [age > ttl] fails. *)
Lemma lookup_sweep (self : CacheService) (now : Double.float) (k : string) :
  _cache (_cleanup_expired self now) !! k
  = match _cache self !! k with
    | Some e => if expired (_ttl self) now e then None else Some e
    | None => None
    end.
Proof.
  unfold _cleanup_expired; simpl. rewrite lookup_delete_keys.
  destruct (decide (k ∈ expired_keys self now)) as [Hin|Hin].
  - apply elem_of_swept_keys in Hin as [e [-> ->]]. done.
  - destruct (_cache self !! k) as [e|] eqn:Hk; [|done].
    destruct (expired (_ttl self) now e) eqn:Hexp; [|done].
    exfalso. apply Hin, elem_of_swept_keys. eauto.
Qed.

(** The store after [set], key by key. *)
Lemma lookup_after_set (self : CacheService) pr_data context
    (t_store t_sweep : Double.float) (k : string) :
  _cache (set self pr_data context t_store t_sweep) !! k
  = match <[Cache._generate_cache_key pr_data :=
              {| data := context; timestamp := t_store;
                 pr_title := title pr_data |}]> (_cache self) !! k with
    | Some e => if expired (_ttl self) t_sweep e then None else Some e
    | None => None
    end.
Proof. unfold set. by rewrite lookup_sweep. Qed.

Lemma sweep_subseteq (self : CacheService) (now : Double.float) :
  _cache (_cleanup_expired self now) ⊆ _cache self.
Proof.
  apply map_subseteq_spec. intros k e. rewrite lookup_sweep.
  destruct (_cache self !! k) as [e'|]; [|done].
  by destruct (expired _ _ _).
Qed.

Lemma service_eq (a b : CacheService) :
  _cache a = _cache b -> _ttl a = _ttl b -> a = b.
Proof. destruct a, b; simpl; by intros -> ->. Qed.

(** A read of an entry whose computed age exceeds the TTL. *)
Lemma get_expired (cs : CacheService) (pr : PRAnalyzeRequest)
    (t : Double.float) (e : CacheEntry) :
  _cache cs !! Cache._generate_cache_key pr = Some e ->
  Double.gt_int (Double.sub t (timestamp e)) (_ttl cs) = true ->
  get cs pr t
  = (None, {| _cache := delete (Cache._generate_cache_key pr) (_cache cs);
              _ttl := _ttl cs |}).
Proof.
  intros Hk Hexp. unfold get. rewrite Hk.
  unfold expired, age. by rewrite Hexp.
Qed.

(** A read of an entry whose computed age does not exceed the TTL. *)
Lemma get_fresh (cs : CacheService) (pr : PRAnalyzeRequest)
    (t : Double.float) (e : CacheEntry) :
  _cache cs !! Cache._generate_cache_key pr = Some e ->
  Double.gt_int (Double.sub t (timestamp e)) (_ttl cs) = false ->
  get cs pr t = (Some (data e), cs).
Proof.
  intros Hk Hfresh. unfold get. rewrite Hk.
  unfold expired, age. by rewrite Hfresh.
Qed.

Lemma mapM_elem_of_l {A B : Type} (f : A -> option B) (l : list A)
    (k : list B) (x : A) :
  mapM f l = Some k -> x ∈ l -> exists y, f x = Some y /\ y ∈ k.
Proof.
  intros Hm%mapM_Some [i Hi]%list_elem_of_lookup.
  destruct (Forall2_lookup_l _ _ _ _ _ Hm Hi) as (y & Hy & Hf).
  exists y. split; [done|]. by eapply list_elem_of_lookup_2.
Qed.

Lemma mapM_elem_of_r {A B : Type} (f : A -> option B) (l : list A)
    (k : list B) (y : B) :
  mapM f l = Some k -> y ∈ k -> exists x, x ∈ l /\ f x = Some y.
Proof.
  intros Hm%mapM_Some [i Hi]%list_elem_of_lookup.
  destruct (Forall2_lookup_r _ _ _ _ _ Hm Hi) as (x & Hx & Hf).
  exists x. split; [|done]. by eapply list_elem_of_lookup_2.
Qed.

Lemma mapM_fmap_key (now : Double.float) (l : list (string * CacheEntry))
    (k : list StatsEntry) :
  mapM (stats_entry now) l = Some k -> key <$> k = fst <$> l.
Proof.
  intros Hm%mapM_Some. induction Hm as [|kv entry l k Hf _ IH]; [done|].
  cbn [fmap list_fmap]. rewrite IH. f_equal.
  unfold stats_entry in Hf. destruct (Double.int _); [|done].
  by injection Hf as <-.
Qed.

(** What [stats] returns, and when it raises. *)
Lemma stats_cases (self : CacheService) (now : Double.float) :
  match stats self now with
  | Some listing =>
      mapM (stats_entry now) (map_to_list (_cache self))
      = Some (entries listing)
      /\ total_entries listing = Z.of_nat (size (_cache self))
      /\ ttl_seconds listing = _ttl self
  | None =>
      exists k e, _cache self !! k = Some e
                  /\ Double.int (Double.sub now (timestamp e)) = None
  end.
Proof.
  unfold stats.
  destruct (mapM _ _) as [listed|] eqn:Hm; [done|].
  apply mapM_None, Exists_exists in Hm as ([k e] & Hin & Hnone).
  apply elem_of_map_to_list in Hin. exists k, e. split; [done|].
  unfold stats_entry in Hnone; cbn [snd] in Hnone.
  unfold age in Hnone. by destruct (Double.int _).
Qed.

(** The keys listed by [stats] are the keys of the store. *)
Lemma stats_keys (self : CacheService) (now : Double.float) (listing : Stats)
    (k : string) :
  stats self now = Some listing ->
  k ∈ (key <$> entries listing) <-> is_Some (_cache self !! k).
Proof.
  intros Hst. pose proof (stats_cases self now) as Hc. rewrite Hst in Hc.
  destruct Hc as (Hm & _ & _). rewrite (mapM_fmap_key _ _ _ Hm).
  rewrite list_elem_of_fmap. split.
  - intros [[k' e] [-> Hin]]. apply elem_of_map_to_list in Hin. eauto.
  - intros [e Hk]. exists (k, e). split; [done|].
    by apply elem_of_map_to_list.
Qed.

(** Cutting a rational toward zero. *)
Lemma trunc_nonneg (q : Q) :
  (0 <= q)%Q ->
  0 <= Z.quot (Qnum q) (Zpos (Qden q))
  /\ (inject_Z (Z.quot (Qnum q) (Zpos (Qden q))) <= q)%Q
  /\ (q < inject_Z (Z.quot (Qnum q) (Zpos (Qden q)) + 1))%Q.
Proof.
  destruct q as [n d]. unfold Qle, Qlt, inject_Z; simpl.
  intros Hn. rewrite Z.mul_1_r in Hn.
  rewrite Z.quot_div_nonneg by lia.
  pose proof (Z.div_mod n (Z.pos d) ltac:(lia)) as Hdiv.
  pose proof (Z.mod_pos_bound n (Z.pos d) ltac:(lia)) as Hmod.
  split; [apply Z.div_pos; lia|]. split; nia.
Qed.

Lemma trunc_nonpos (q : Q) :
  (q <= 0)%Q ->
  Z.quot (Qnum q) (Zpos (Qden q)) <= 0
  /\ (inject_Z (Z.quot (Qnum q) (Zpos (Qden q)) - 1) < q)%Q
  /\ (q <= inject_Z (Z.quot (Qnum q) (Zpos (Qden q))))%Q.
Proof.
  destruct q as [n d]. unfold Qle, Qlt, inject_Z; simpl.
  intros Hn. rewrite Z.mul_1_r in Hn.
  replace n with (- (- n)) by lia. rewrite Z.quot_opp_l by lia.
  rewrite Z.quot_div_nonneg by lia.
  pose proof (Z.div_mod (- n) (Z.pos d) ltac:(lia)) as Hdiv.
  pose proof (Z.mod_pos_bound (- n) (Z.pos d) ltac:(lia)) as Hmod.
  assert (0 <= - n / Z.pos d) by (apply Z.div_pos; lia).
  split; [lia|]. split; nia.
Qed.

End FloatCacheFacts.

Section FloatCacheClaims.
Import FloatCache.

(** C4 (TTL expiry, on the age the code computes). After [set] stores a
    result with the timestamp [t0], a [get] for the same fingerprint at a
    reading [now] at which the computed age, the double [now - t0], exceeds
    the TTL returns absent and leaves a store from which the entry is deleted; a
    later [stats] does not list the fingerprint (or raises, when the age of
    another entry is not finite). In any state of the cache, [get] answers
    absent for an entry whose computed age exceeds the TTL, and every
    context it returns is that of an entry whose computed age does not. *)
Theorem C4_entry_of_expired_computed_age_is_evicted
    (self : CacheService) (pr_data pr_data' : PRAnalyzeRequest)
    (context : PRContext) (t0 t_sweep now now' : Double.float) :
  Cache._generate_cache_key pr_data' = Cache._generate_cache_key pr_data ->
  Double.gt_int (Double.sub now t0) (_ttl self) = true ->
  let f := Cache._generate_cache_key pr_data in
  let after_set := set self pr_data context t0 t_sweep in
  let after_get := snd (get after_set pr_data' now) in
  fst (get after_set pr_data' now) = None
  /\ _cache after_get = delete f (_cache after_set)
  /\ _cache after_get !! f = None
  /\ match stats after_get now' with
     | Some listing => f ∉ (key <$> entries listing)
     | None => exists k e, _cache after_get !! k = Some e
                           /\ Double.int (Double.sub now' (timestamp e)) = None
     end
  /\ (forall (cs : CacheService) (pr : PRAnalyzeRequest) (t : Double.float)
             (e : CacheEntry),
        _cache cs !! Cache._generate_cache_key pr = Some e ->
        Double.gt_int (Double.sub t (timestamp e)) (_ttl cs) = true ->
        fst (get cs pr t) = None
        /\ _cache (snd (get cs pr t)) !! Cache._generate_cache_key pr = None)
  /\ (forall (cs : CacheService) (pr : PRAnalyzeRequest) (t : Double.float)
             (returned : PRContext),
        fst (get cs pr t) = Some returned ->
        exists e, _cache cs !! Cache._generate_cache_key pr = Some e
                  /\ data e = returned
                  /\ Double.gt_int (Double.sub t (timestamp e)) (_ttl cs)
                     = false).
Proof.
  intros Hkey Hlate f after_set after_get.
  assert (Hget : get after_set pr_data' now
                 = (None, {| _cache := delete f (_cache after_set);
                             _ttl := _ttl after_set |})).
  { unfold f in *. clear after_get.
    destruct (_cache after_set !! Cache._generate_cache_key pr_data)
      as [e|] eqn:Hk.
    - assert (He : e = {| data := context; timestamp := t0;
                          pr_title := title pr_data |}).
      { unfold after_set in Hk.
        rewrite lookup_after_set, lookup_insert_eq in Hk.
        destruct (expired _ _ _); congruence. }
      rewrite <- Hkey in Hk. rewrite <- Hkey.
      apply (get_expired after_set pr_data' now e Hk).
      rewrite He. exact Hlate.
    - unfold get. rewrite Hkey, Hk.
      f_equal. destruct after_set as [m ttl]; simpl in *.
      f_equal. symmetry. by apply delete_id. }
  subst after_get. rewrite Hget; cbn [fst snd _cache].
  split; [done|]. split; [done|]. split; [apply lookup_delete_eq|].
  split; [|split].
  - pose proof (stats_cases {| _cache := delete f (_cache after_set);
                               _ttl := _ttl after_set |} now') as Hc.
    destruct (stats _ now') as [listing|] eqn:Hst; [|exact Hc].
    rewrite (stats_keys _ _ _ _ Hst); cbn [_cache].
    rewrite lookup_delete_eq. by intros [? ?].
  - intros cs pr t e Hk Hexp. rewrite (get_expired cs pr t e) by done.
    split; [done|]. apply lookup_delete_eq.
  - intros cs pr t returned. unfold get.
    destruct (_cache cs !! Cache._generate_cache_key pr) as [e|]; [|done].
    destruct (expired (_ttl cs) t e) eqn:Hexp; [done|].
    intros [= <-]. by exists e.
Qed.

Lemma C4_witness :
  fst (get (set (init 3600) Samples.pr_small Samples.context_1
              ClockSamples.t_stamp ClockSamples.t_stamp)
           Samples.pr_small' ClockSamples.t_late) = None
  /\ _cache (snd (get (set (init 3600) Samples.pr_small Samples.context_1
                         ClockSamples.t_stamp ClockSamples.t_stamp)
                      Samples.pr_small' ClockSamples.t_late))
     !! Cache._generate_cache_key Samples.pr_small = None.
Proof.
  pose proof (C4_entry_of_expired_computed_age_is_evicted (init 3600)
                Samples.pr_small Samples.pr_small' Samples.context_1
                ClockSamples.t_stamp ClockSamples.t_stamp
                ClockSamples.t_late ClockSamples.t_late) as H.
  destruct H as (Hnone & _ & Habsent & _).
  - vm_compute. reflexivity.
  - vm_compute. reflexivity.
  - split; [exact Hnone | exact Habsent].
Defined.

(** C4, the claim as stated, fails: with a TTL of 3600, an entry stamped at the double
    [0.3] and read at the double [3600.3], a reading later than the stamp
    plus the TTL, has the computed age [3600.0]; the test [age > ttl] fails,
    [get] returns the stored context, keeps the entry, and [stats] still
    lists the fingerprint. *)
Lemma C4_counterexample :
  Double.value ClockSamples.t_stamp
  = Some (5404319552844595 # 18014398509481984)
  /\ Double.value ClockSamples.t_hour
     = Some (7917143426963866 # 2199023255552)
  /\ ((5404319552844595 # 18014398509481984) + inject_Z 3600
      < 7917143426963866 # 2199023255552)%Q
  /\ Double.value (Double.sub ClockSamples.t_hour ClockSamples.t_stamp)
     = Some (7916483719987200 # 2199023255552)
  /\ (7916483719987200 # 2199023255552 == inject_Z 3600)%Q
  /\ get (set (init 3600) Samples.pr_small Samples.context_1
            ClockSamples.t_stamp ClockSamples.t_stamp)
         Samples.pr_small' ClockSamples.t_hour
     = (Some Samples.context_1,
        set (init 3600) Samples.pr_small Samples.context_1
          ClockSamples.t_stamp ClockSamples.t_stamp)
  /\ (fun listing => key <$> entries listing)
       <$> stats (snd (get (set (init 3600) Samples.pr_small
                              Samples.context_1
                              ClockSamples.t_stamp ClockSamples.t_stamp)
                           Samples.pr_small' ClockSamples.t_hour))
                 ClockSamples.t_hour
     = Some [Cache._generate_cache_key Samples.pr_small].
Proof. repeat split; vm_compute; reflexivity. Qed.

(** The same happens at a reading that is later than the stamp plus the
    TTL also when this sum is computed in doubles: the sum of the stamp
    [2^-42] and [3600.0] is [3600.0], the reading is the double next above
    it, and the computed age is [3600.0] again. *)
Lemma reading_above_the_float_sum_is_served :
  Double.value ClockSamples.t_ttl = Some (7916483719987200 # 2199023255552)
  /\ (7916483719987200 # 2199023255552 == inject_Z 3600)%Q
  /\ Double.add ClockSamples.t_tiny ClockSamples.t_ttl = ClockSamples.t_ttl
  /\ Double.lt (Double.add ClockSamples.t_tiny ClockSamples.t_ttl)
       ClockSamples.t_next = true
  /\ Double.sub ClockSamples.t_next ClockSamples.t_tiny = ClockSamples.t_ttl
  /\ get (set (init 3600) Samples.pr_small Samples.context_1
            ClockSamples.t_tiny ClockSamples.t_tiny)
         Samples.pr_small' ClockSamples.t_next
     = (Some Samples.context_1,
        set (init 3600) Samples.pr_small Samples.context_1
          ClockSamples.t_tiny ClockSamples.t_tiny).
Proof. repeat split; vm_compute; reflexivity. Qed.

(** C8 (sweep on write, on the age the code computes). After every [set],
    no entry of the store has a computed age, the double
    [t_sweep - timestamp], above the TTL at the reading of the sweep: [set] removes every entry of the whole
    store, under any key, for which the test [age > ttl] holds, keeps the
    others, and the entry it has just written is treated alike. *)
Theorem C8_set_leaves_no_entry_of_expired_computed_age
    (self : CacheService) (pr_data : PRAnalyzeRequest)
    (context : PRContext) (t_store t_sweep : Double.float) :
  let after_set := set self pr_data context t_store t_sweep in
  (forall (k : string) (e : CacheEntry),
      _cache after_set !! k = Some e ->
      Double.gt_int (Double.sub t_sweep (timestamp e)) (_ttl after_set)
      = false)
  /\ (forall (k : string) (e : CacheEntry),
        k <> Cache._generate_cache_key pr_data ->
        _cache self !! k = Some e ->
        Double.gt_int (Double.sub t_sweep (timestamp e)) (_ttl self) = true ->
        _cache after_set !! k = None)
  /\ (forall (k : string) (e : CacheEntry),
        k <> Cache._generate_cache_key pr_data ->
        _cache self !! k = Some e ->
        Double.gt_int (Double.sub t_sweep (timestamp e)) (_ttl self) = false ->
        _cache after_set !! k = Some e)
  /\ _cache after_set !! Cache._generate_cache_key pr_data
     = (if Double.gt_int (Double.sub t_sweep t_store) (_ttl self)
        then None
        else Some {| data := context; timestamp := t_store;
                     pr_title := title pr_data |}).
Proof.
  intros after_set. subst after_set. split; [|split; [|split]].
  - intros k e. rewrite lookup_after_set.
    destruct (_ !! k) as [e'|]; [|done].
    destruct (expired (_ttl self) t_sweep e') eqn:Hexp; [done|].
    intros [= <-]. exact Hexp.
  - intros k e Hne Hk Hold.
    rewrite lookup_after_set, lookup_insert_ne, Hk by done.
    unfold expired, age. by rewrite Hold.
  - intros k e Hne Hk Hfresh.
    rewrite lookup_after_set, lookup_insert_ne, Hk by done.
    unfold expired, age. by rewrite Hfresh.
  - by rewrite lookup_after_set, lookup_insert_eq.
Qed.

Lemma C8_witness :
  _cache (set ClockSamples.cache_stamped Samples.pr_small Samples.context_1
            ClockSamples.t_late ClockSamples.t_late)
    !! Cache._generate_cache_key Samples.pr_high = None.
Proof.
  refine (proj1 (proj2 (C8_set_leaves_no_entry_of_expired_computed_age
                          ClockSamples.cache_stamped Samples.pr_small
                          Samples.context_1
                          ClockSamples.t_late ClockSamples.t_late))
            (Cache._generate_cache_key Samples.pr_high)
            {| data := Samples.context_2; timestamp := ClockSamples.t_stamp;
               pr_title := "Fix null check" |} _ _ _).
  - vm_compute. discriminate.
  - vm_compute. reflexivity.
  - vm_compute. reflexivity.
Defined.

(** C8, the claim as stated, fails: with a TTL of 3600, the entry stamped at the double
    [0.3] is still in the store after a [set] under another key whose
    sweep reads the double [3600.3], although the time elapsed since the
    stamp, the exact difference of the two readings, exceeds 3600. *)
Lemma C8_counterexample :
  _cache ClockSamples.cache_stamped
    !! Cache._generate_cache_key Samples.pr_high
  = Some {| data := Samples.context_2; timestamp := ClockSamples.t_stamp;
            pr_title := "Fix null check" |}
  /\ Cache._generate_cache_key Samples.pr_high
     <> Cache._generate_cache_key Samples.pr_small
  /\ _cache (set ClockSamples.cache_stamped Samples.pr_small
               Samples.context_1 ClockSamples.t_hour ClockSamples.t_hour)
       !! Cache._generate_cache_key Samples.pr_high
     = Some {| data := Samples.context_2; timestamp := ClockSamples.t_stamp;
               pr_title := "Fix null check" |}
  /\ Double.value ClockSamples.t_stamp
     = Some (5404319552844595 # 18014398509481984)
  /\ Double.value ClockSamples.t_hour
     = Some (7917143426963866 # 2199023255552)
  /\ (inject_Z 3600
      < (7917143426963866 # 2199023255552)
        - (5404319552844595 # 18014398509481984))%Q.
Proof.
  repeat split; try (vm_compute; reflexivity).
  vm_compute. discriminate.
Qed.

End FloatCacheClaims.

(** ** The retrying invoker *)

Section InvokerFacts.
Import Groq.

Lemma calls_app (tr1 tr2 : list event) :
  calls (tr1 ++ tr2) = (calls tr1 + calls tr2)%nat.
Proof. unfold calls. by rewrite filter_app, length_app. Qed.

(** Before the last attempt every exception leads to another attempt. *)
Lemma handle_exception_not_last (max_retries attempt : Z) (e : exn) :
  attempt < max_retries - 1 ->
  exists sleep, handle_exception max_retries attempt e = Continue e sleep.
Proof.
  intros Hlt. apply Z.ltb_lt in Hlt. unfold handle_exception.
  destruct e; rewrite ?Hlt; try (eexists; reflexivity).
  destruct (is_rate_limit _); eexists; reflexivity.
Qed.

Lemma handle_exception_generic (max_retries attempt : Z) (e : exn) :
  is_generic e = true ->
  handle_exception max_retries attempt e
  = if attempt <? max_retries - 1
    then Continue e (Some (generic_wait attempt))
    else Finish (Raised (ValueError (exhausted_text max_retries e))).
Proof.
  unfold is_generic, is_rate_limited, handle_exception, exhausted_text.
  destruct e; simpl; try reflexivity.
  intros Hg. apply negb_true_iff in Hg. by rewrite Hg.
Qed.

Lemma handle_exception_rate_limited (max_retries attempt : Z) (e : exn) :
  is_rate_limited e = true ->
  handle_exception max_retries attempt e
  = if attempt <? max_retries - 1
    then Continue e (Some (rate_limit_wait attempt))
    else Finish (Raised (ValueError rate_limit_message)).
Proof.
  unfold is_rate_limited, handle_exception.
  destruct e; simpl; try discriminate.
  intros Hr. by rewrite Hr.
Qed.

(** The generic delay is below the rate-limit delay at every index. *)
Lemma generic_wait_lt_rate_limit_wait (attempt : Z) :
  0 <= attempt ->
  generic_wait attempt < rate_limit_wait attempt.
Proof.
  intros Hpos. unfold generic_wait, rate_limit_wait.
  destruct (Z_lt_le_dec attempt 4) as [Hsmall|Hlarge].
  - assert (Hcases : attempt = 0 \/ attempt = 1 \/ attempt = 2 \/ attempt = 3)
      by lia.
    destruct Hcases as [-> | [-> | [-> | ->]]]; vm_compute; reflexivity.
  - assert (H16 : 2 ^ 4 <= 2 ^ attempt) by (apply Z.pow_le_mono_r; lia).
    assert (H64 : 2 ^ 6 <= 2 ^ (attempt + 2)) by (apply Z.pow_le_mono_r; lia).
    change (2 ^ 4) with 16 in H16. change (2 ^ 6) with 64 in H64. lia.
Qed.

Section Run.
Variable json_loads : string -> string + Json.value.
Variable construct_error_text : Json.value -> string.
Variable client : Z -> completion.
Variable pr_data : PRAnalyzeRequest.
Variable max_retries : Z.

Local Abbreviation body := (attempt_body json_loads construct_error_text client
                          pr_data max_retries).
Local Abbreviation run := (loop json_loads construct_error_text client
                         pr_data max_retries).

(** When every attempt before the last one asks for another attempt,
    the run ends the way the last attempt ends. *)
Lemma loop_reaches_last (o : outcome) (remaining : nat) :
  forall (attempt : Z) (last_error : option exn),
    attempt + Z.of_nat remaining = max_retries ->
    (1 <= remaining)%nat ->
    (forall i, attempt <= i < max_retries - 1 ->
               exists e sleep, fst (body i) = Continue e sleep) ->
    fst (body (max_retries - 1)) = Finish o ->
    fst (run remaining attempt last_error) = o.
Proof.
  induction remaining as [|r IH]; intros attempt last_error Hsum Hpos Hearly Hlast;
    [lia|].
  cbn [loop]. destruct (body attempt) as [st evs] eqn:Hbody.
  destruct (decide (r = 0%nat)) as [-> | Hr].
  - replace (max_retries - 1) with attempt in Hlast by lia.
    rewrite Hbody in Hlast; simpl in Hlast. by subst st.
  - destruct (Hearly attempt) as (e & sleep & Hst); [lia|].
    rewrite Hbody in Hst; simpl in Hst. subst st.
    destruct (run r (attempt + 1) (Some e)) as [o' rest] eqn:Hrun.
    simpl. replace o' with (fst (run r (attempt + 1) (Some e)))
      by (by rewrite Hrun).
    apply IH; [lia|lia| |done].
    intros i Hi. apply Hearly. lia.
Qed.

(** Before the last attempt, an attempt whose reply is not parsed into a
    context asks for another attempt. *)
Lemma attempt_continues_before_last (i : Z) :
  prompt_error pr_data = None ->
  i < max_retries - 1 ->
  (forall c, client i = Responds c ->
             parse json_loads construct_error_text c = None) ->
  exists e sleep, fst (body i) = Continue e sleep.
Proof.
  intros Hprompt Hi Hparse. unfold attempt_body. rewrite Hprompt.
  destruct (client i) as [c|e] eqn:Hcall; cbn [fst].
  - specialize (Hparse c eq_refl). unfold parse in Hparse. unfold interpret.
    destruct (json_loads (strip_fences (Py.strip c))) as [t|v].
    + replace (i =? max_retries - 1) with false
        by (symmetry; apply Z.eqb_neq; lia).
      eauto.
    + destruct (PRContext_construct construct_error_text v) as [e|ctx];
        [|discriminate].
      destruct (handle_exception_not_last max_retries i e) as [sl Hsl];
        [lia|]. eauto.
  - destruct (handle_exception_not_last max_retries i e) as [sl Hsl];
      [lia|]. eauto.
Qed.

(** A reply of the last attempt that decodes but from which no context can
    be built makes the run raise, whatever the decoder is. *)
Lemma invalid_reply_raises (content : string) (v : Json.value) (e : exn) :
  1 <= max_retries ->
  prompt_error pr_data = None ->
  (forall i c, 0 <= i < max_retries - 1 ->
               client i = Responds c ->
               parse json_loads construct_error_text c = None) ->
  client (max_retries - 1) = Responds content ->
  json_loads (strip_fences (Py.strip content)) = inr v ->
  PRContext_construct construct_error_text v = inl e ->
  fst (analyze_pr json_loads construct_error_text client pr_data max_retries)
  = Raised (ValueError ("Analysis failed after " +:+ Py.str_int max_retries
                        +:+ " attempts: " +:+ str_exn e)).
Proof.
  intros Hmax Hprompt Hearly Hlast Hdecode Hinvalid. unfold analyze_pr.
  apply loop_reaches_last; [lia|lia| |].
  - intros i Hi. apply attempt_continues_before_last; [done|lia|].
    intros c Hc. apply (Hearly i c); [lia|done].
  - unfold attempt_body. rewrite Hprompt, Hlast. cbn [fst].
    unfold interpret. rewrite Hdecode, Hinvalid.
    assert (Hcls : is_groq_error e = false).
    { unfold PRContext_construct in Hinvalid.
      destruct v; try (injection Hinvalid as <-; reflexivity).
      destruct (PRContext_fields items); [discriminate|].
      injection Hinvalid as <-. reflexivity. }
    unfold handle_exception. rewrite Z.ltb_irrefl.
    destruct e; try reflexivity. discriminate.
Qed.

(** A run in which every call fails with a generic error. *)
Lemma loop_all_generic (remaining : nat) :
  forall (attempt : Z) (last_error : option exn),
    prompt_error pr_data = None ->
    attempt + Z.of_nat remaining = max_retries ->
    (1 <= remaining)%nat ->
    (forall i, attempt <= i < max_retries ->
               exists e, client i = Fails e /\ is_generic e = true) ->
    exists e tr,
      client (max_retries - 1) = Fails e
      /\ run remaining attempt last_error
         = (Raised (ValueError (exhausted_text max_retries e)), tr)
      /\ calls tr = remaining.
Proof.
  induction remaining as [|r IH]; intros attempt last_error Hprompt Hsum Hpos Hfail;
    [lia|].
  destruct (Hfail attempt) as (e & Hcall & Hgen); [lia|].
  cbn [loop]. unfold attempt_body. rewrite Hprompt, Hcall.
  rewrite (handle_exception_generic _ _ _ Hgen).
  destruct (decide (r = 0%nat)) as [-> | Hr].
  - replace (attempt <? max_retries - 1) with false
      by (symmetry; apply Z.ltb_ge; lia).
    exists e, [Call attempt]. replace (max_retries - 1) with attempt by lia.
    done.
  - replace (attempt <? max_retries - 1) with true
      by (symmetry; apply Z.ltb_lt; lia).
    destruct (IH (attempt + 1) (Some e)) as (e' & tr & Hlast & Hrun & Hcalls);
      [done|lia|lia| |].
    { intros i Hi. apply Hfail. lia. }
    rewrite Hrun. exists e', (([Call attempt] ++ [Sleep (generic_wait attempt)]) ++ tr)%list.
    repeat split; [done|]. rewrite calls_app, Hcalls. reflexivity.
Qed.

End Run.

End InvokerFacts.

Section InvokerClaims.
Import Groq.

(** C1 (parse failure, as the code has it). When the reply of the last
    attempt is not decodable JSON, the invoker returns the fallback context
    built from the request and raises nothing. The run reaches its last
    attempt when no earlier reply was parsed into a context; the prompt can
    be built, so that the provider is called. *)
Theorem C1_undecodable_reply_falls_back
    (json_loads : string -> string + Json.value)
    (construct_error_text : Json.value -> string)
    (client : Z -> completion) (pr_data : PRAnalyzeRequest)
    (max_retries : Z) (content text : string) :
  1 <= max_retries ->
  prompt_error pr_data = None ->
  (forall i c, 0 <= i < max_retries - 1 ->
               client i = Responds c ->
               parse json_loads construct_error_text c = None) ->
  client (max_retries - 1) = Responds content ->
  json_loads (strip_fences (Py.strip content)) = inl text ->
  fst (analyze_pr json_loads construct_error_text client pr_data max_retries)
  = Returned (_create_fallback_context pr_data
                (strip_fences (Py.strip content))).
Proof.
  intros Hmax Hprompt Hearly Hlast Hdecode. unfold analyze_pr.
  apply loop_reaches_last; [lia|lia| |].
  - intros i Hi. apply attempt_continues_before_last; [done|lia|].
    intros c Hc. apply (Hearly i c); [lia|done].
  - unfold attempt_body. rewrite Hprompt, Hlast. cbn [fst].
    unfold interpret. rewrite Hdecode, Z.eqb_refl. reflexivity.
Qed.

Lemma C1_witness :
  fst (analyze_pr Samples.loads Samples.error_text Samples.client_prose
         Samples.pr_small 3)
  = Returned (_create_fallback_context Samples.pr_small
                "Sorry, I cannot help with that.").
Proof.
  refine (C1_undecodable_reply_falls_back Samples.loads Samples.error_text
            Samples.client_prose Samples.pr_small 3
            "Sorry, I cannot help with that."
            "Expecting value: line 1 column 1 (char 0)" _ _ _ _ _).
  - lia.
  - reflexivity.
  - intros i c _ Hc. injection Hc as <-. vm_compute. reflexivity.
  - reflexivity.
  - vm_compute. reflexivity.
Defined.

(** C1, the claim as stated, fails: a reply that is valid JSON but lacks the
    required fields is not turned into a fallback. On the last attempt the
    validation error reaches the generic handler and the invoker raises. *)
Lemma C1_counterexample :
  Samples.client_empty_object 2 = Responds "{}"
  /\ parse Samples.loads Samples.error_text "{}" = None
  /\ analyze_pr Samples.loads Samples.error_text Samples.client_empty_object
       Samples.pr_small 3
     = (Raised (ValueError
          "Analysis failed after 3 attempts: 8 validation errors for PRContext"),
        [Call 0; Sleep 1; Call 1; Sleep 2; Call 2]).
Proof. vm_compute. repeat split. Qed.

(** C2 (retry bound). When every call of the Completion Service fails with a
    generic error, the invoker makes exactly [max_retries] calls and then
    raises; it returns no result. With at least one attempt, the error
    raised is the exhausted-retries error whose text carries the text of the
    failure of the last call. *)
Theorem C2_generic_failures_exhaust_retries
    (json_loads : string -> string + Json.value)
    (construct_error_text : Json.value -> string)
    (client : Z -> completion) (pr_data : PRAnalyzeRequest)
    (max_retries : Z) :
  prompt_error pr_data = None ->
  (forall i, 0 <= i < max_retries ->
             exists e, client i = Fails e /\ is_generic e = true) ->
  exists msg tr,
    analyze_pr json_loads construct_error_text client pr_data max_retries
    = (Raised (ValueError msg), tr)
    /\ calls tr = Z.to_nat max_retries
    /\ (1 <= max_retries ->
        exists e, client (max_retries - 1) = Fails e
                  /\ msg = exhausted_text max_retries e).
Proof.
  intros Hprompt Hfail. unfold analyze_pr.
  destruct (Z_lt_le_dec max_retries 1) as [Hnone|Hsome].
  - replace (Z.to_nat max_retries) with 0%nat by lia. cbn [loop].
    eexists _, []. repeat split. lia.
  - destruct (loop_all_generic json_loads construct_error_text client pr_data
                max_retries (Z.to_nat max_retries) 0 None)
      as (e & tr & Hlast & Hrun & Hcalls); [done|lia|lia|done|].
    exists (exhausted_text max_retries e), tr. repeat split; [done|done|].
    intros _. by exists e.
Qed.

Lemma C2_witness :
  exists msg tr,
    analyze_pr Samples.loads Samples.error_text Samples.client_down
      Samples.pr_small 3
    = (Raised (ValueError msg), tr)
    /\ calls tr = 3%nat
    /\ (1 <= 3 ->
        exists e, Samples.client_down (3 - 1) = Fails e
                  /\ msg = exhausted_text 3 e).
Proof.
  refine (C2_generic_failures_exhaust_retries Samples.loads Samples.error_text
            Samples.client_down Samples.pr_small 3 _ _).
  - reflexivity.
  - intros i _. eexists. split; [reflexivity|]. vm_compute. reflexivity.
Defined.

(** C5 (backoff by class). At an attempt that will be retried, a
    rate-limited failure makes the invoker wait [min(2^(attempt+2), 30)]
    seconds and a generic failure [min(2^attempt, 10)] seconds: the first is
    strictly longer, and they are capped at 30 and at 10 seconds. *)
Theorem C5_rate_limit_backoff_is_longer
    (max_retries attempt : Z) (e_rate e_generic : exn) :
  0 <= attempt < max_retries - 1 ->
  is_rate_limited e_rate = true ->
  is_generic e_generic = true ->
  exists w_rate w_generic,
    handle_exception max_retries attempt e_rate
    = Continue e_rate (Some w_rate)
    /\ handle_exception max_retries attempt e_generic
       = Continue e_generic (Some w_generic)
    /\ w_rate = Z.min (2 ^ (attempt + 2)) 30
    /\ w_generic = Z.min (2 ^ attempt) 10
    /\ w_generic < w_rate
    /\ w_rate <= 30
    /\ w_generic <= 10.
Proof.
  intros Hattempt Hrate Hgen.
  exists (rate_limit_wait attempt), (generic_wait attempt).
  rewrite (handle_exception_rate_limited _ _ _ Hrate).
  rewrite (handle_exception_generic _ _ _ Hgen).
  replace (attempt <? max_retries - 1) with true
    by (symmetry; apply Z.ltb_lt; lia).
  repeat split; try reflexivity.
  - apply generic_wait_lt_rate_limit_wait. lia.
  - unfold rate_limit_wait. lia.
  - unfold generic_wait. lia.
Qed.

Lemma C5_witness :
  exists w_rate w_generic,
    handle_exception 3 1 (GroqError "Rate limit reached for model")
    = Continue (GroqError "Rate limit reached for model") (Some w_rate)
    /\ handle_exception 3 1 (GroqError "Connection error.")
       = Continue (GroqError "Connection error.") (Some w_generic)
    /\ w_rate = Z.min (2 ^ (1 + 2)) 30
    /\ w_generic = Z.min (2 ^ 1) 10
    /\ w_generic < w_rate
    /\ w_rate <= 30
    /\ w_generic <= 10.
Proof.
  refine (C5_rate_limit_backoff_is_longer 3 1
            (GroqError "Rate limit reached for model")
            (GroqError "Connection error.") _ _ _).
  - lia.
  - vm_compute. reflexivity.
  - vm_compute. reflexivity.
Defined.

End InvokerClaims.

(** ** The fingerprint *)

Section FingerprintClaims.
Import Cache.

(** [hashlib.sha256] on the empty message, on [abc] and on a message of two
    blocks. *)
Example sha256_test_vectors :
  Sha256.hexdigest []
  = "e3b0c44298fc1c149afbf4c8996fb92427ae41e4649b934ca495991b7852b855"
  /\ Sha256.hexdigest (Py.encode "abc")
     = "ba7816bf8f01cfea414140de5dae2223b00361a396177a9cb410ff61f20015ad"
  /\ Sha256.hexdigest (repeat 97 100)
     = "2816597888e4a0d3a36b82b83316ab32680eb8f00f8cd3b904d681246d285a0e".
Proof. vm_compute. repeat split. Qed.

Lemma dumps_str_list (l : list string) :
  map Json.dumps (Json.JStr <$> l) = Json.quote <$> l.
Proof.
  induction l as [|x l IH]; [done|].
  rewrite !fmap_cons. cbn [map]. f_equal. exact IH.
Qed.

(** Sorting the five keys puts the record in the order of the canonical
    string. *)
Lemma dumps_cache_input (pr_data : PRAnalyzeRequest) :
  Json.dumps (cache_input pr_data)
  = canonical_string (title pr_data)
      (Z.of_nat (length (files pr_data)))
      (Py.sum (additions <$> files pr_data))
      (Py.sum (deletions <$> files pr_data))
      (filename <$> take 3 (files pr_data)).
Proof.
  unfold cache_input, canonical_string.
  cbn [Json.dumps map fst snd].
  rewrite dumps_str_list. reflexivity.
Qed.

Lemma length_slice_to (n : nat) (s : string) :
  String.length (Py.slice_to n s) = Nat.min n (String.length s).
Proof.
  revert s. induction n as [|n IH]; intros [|c s]; simpl; try done.
  by rewrite IH.
Qed.

Lemma length_hex (bs : list Z) :
  String.length (Sha256.hex bs) = (2 * length bs)%nat.
Proof. induction bs as [|b bs IH]; simpl; [done|]. rewrite IH. lia. Qed.

Lemma length_sha256 (msg : list Z) : length (Sha256.sha256 msg) = 32%nat.
Proof. unfold Sha256.sha256, Sha256.digest_of. by rewrite !length_app. Qed.

(** The key is always 16 characters long. *)
Lemma length_generate_cache_key (pr_data : PRAnalyzeRequest) :
  String.length (_generate_cache_key pr_data) = 16%nat.
Proof.
  unfold _generate_cache_key, Sha256.hexdigest.
  rewrite length_slice_to, length_hex, length_sha256. reflexivity.
Qed.

(** C3 (fingerprint, with the names of the code). The cache key is the
    first 16 hexadecimal characters of the SHA-256 digest of the UTF-8 bytes
    of the JSON serialization, keys sorted, of the record holding the title
    under [title], the number of files under [files], the sums of additions
    and deletions under [total_additions] and [total_deletions], and the
    first three file names under [sample_files]; hence two requests that
    agree on these five values have the same key, whatever their other
    fields are. *)
Theorem C3_fingerprint_of_five_fields (A B : PRAnalyzeRequest) :
  _generate_cache_key A
  = digest16 (canonical_string (title A) (Z.of_nat (length (files A)))
                (Py.sum (additions <$> files A))
                (Py.sum (deletions <$> files A))
                (filename <$> take 3 (files A)))
  /\ (title A = title B ->
      length (files A) = length (files B) ->
      Py.sum (additions <$> files A) = Py.sum (additions <$> files B) ->
      Py.sum (deletions <$> files A) = Py.sum (deletions <$> files B) ->
      filename <$> take 3 (files A) = filename <$> take 3 (files B) ->
      _generate_cache_key A = _generate_cache_key B).
Proof.
  assert (Hkey : forall R : PRAnalyzeRequest,
             _generate_cache_key R
             = digest16 (canonical_string (title R)
                           (Z.of_nat (length (files R)))
                           (Py.sum (additions <$> files R))
                           (Py.sum (deletions <$> files R))
                           (filename <$> take 3 (files R)))).
  { intros R. unfold _generate_cache_key, digest16.
    by rewrite dumps_cache_input. }
  split; [apply Hkey|].
  intros Htitle Hcount Hadd Hdel Hnames.
  rewrite (Hkey A), (Hkey B).
  by rewrite Htitle, Hcount, Hadd, Hdel, Hnames.
Qed.

Lemma C3_witness :
  Samples.pr_small <> Samples.pr_small'
  /\ _generate_cache_key Samples.pr_small
     = _generate_cache_key Samples.pr_small'.
Proof.
  split; [discriminate|].
  refine (proj2 (C3_fingerprint_of_five_fields Samples.pr_small
                   Samples.pr_small') _ _ _ _ _); reflexivity.
Defined.

(** C3, the claim as stated, fails on the name of one field: the record of
    the spec calls the number of files [file_count], the code calls it
    [files], and the digests differ. For the request of the end-to-end
    scenario the code hashes the first string below, the spec the second. *)
Lemma C3_counterexample :
  Json.dumps (cache_input Samples.pr_small)
  = Json.dumps
      (Json.JDict
         [ ("files", Json.JInt 2);
           ("sample_files", Json.JList [Json.JStr "a.ts"; Json.JStr "b.ts"]);
           ("title", Json.JStr "Fix null check");
           ("total_additions", Json.JInt 15);
           ("total_deletions", Json.JInt 3) ])
  /\ Json.dumps (spec_record "Fix null check" 2 15 3 ["a.ts"; "b.ts"])
     = Json.dumps
         (Json.JDict
            [ ("file_count", Json.JInt 2);
              ("sample_files", Json.JList [Json.JStr "a.ts"; Json.JStr "b.ts"]);
              ("title", Json.JStr "Fix null check");
              ("total_additions", Json.JInt 15);
              ("total_deletions", Json.JInt 3) ])
  /\ _generate_cache_key Samples.pr_small = "e5937c2cbb66910a"
  /\ spec_fingerprint (title Samples.pr_small)
       (Z.of_nat (length (files Samples.pr_small)))
       (Py.sum (additions <$> files Samples.pr_small))
       (Py.sum (deletions <$> files Samples.pr_small))
       (filename <$> take 3 (files Samples.pr_small))
     = "2a978a04119abd5a"
  /\ _generate_cache_key Samples.pr_small
     <> spec_fingerprint (title Samples.pr_small)
          (Z.of_nat (length (files Samples.pr_small)))
          (Py.sum (additions <$> files Samples.pr_small))
          (Py.sum (deletions <$> files Samples.pr_small))
          (filename <$> take 3 (files Samples.pr_small)).
Proof. vm_compute. repeat split; discriminate. Qed.

End FingerprintClaims.

(** ** The fallback context *)

Section FallbackClaims.
Import Groq.

Lemma fallback_priority_time (pr_data : PRAnalyzeRequest) (raw : string) :
  (estimated_review_time (_create_fallback_context pr_data raw),
   review_priority (_create_fallback_context pr_data raw))
  = band (Py.sum ((fun f => additions f + deletions f) <$> files pr_data)).
Proof.
  unfold _create_fallback_context.
  destruct (band _) as [review_time priority]. reflexivity.
Qed.

Lemma fallback_lists (pr_data : PRAnalyzeRequest) (raw : string) :
  affected_areas (_create_fallback_context pr_data raw)
  = (fun f => Py.split_head "/" (filename f)) <$> take 5 (files pr_data)
  /\ key_changes (_create_fallback_context pr_data raw)
     = (fun f => filename f +:+ " (" +:+ status f +:+ ")")
       <$> take 5 (files pr_data).
Proof.
  unfold _create_fallback_context.
  destruct (band _) as [review_time priority]. split; reflexivity.
Qed.

(** C6 (fallback synthesis). The fallback context is a function of the
    request alone (the raw reply is ignored). Its priority and estimated
    review time follow the bands of the total of additions and deletions:
    below 50 low and 5-10 minutes, below 200 medium and 15-25 minutes, below
    500 high and 30-45 minutes, otherwise critical and 1+ hours. Its affected
    areas and key changes are computed from the file names and statuses of
    the first five files and from nothing else. *)
Theorem C6_fallback_is_determined_by_volume_bands
    (pr_data : PRAnalyzeRequest) (raw_response : string) :
  let total := Py.sum ((fun f => additions f + deletions f) <$> files pr_data) in
  let c := _create_fallback_context pr_data raw_response in
  (total < 50 ->
     review_priority c = "low" /\ estimated_review_time c = "5-10 minutes")
  /\ (50 <= total < 200 ->
      review_priority c = "medium" /\ estimated_review_time c = "15-25 minutes")
  /\ (200 <= total < 500 ->
      review_priority c = "high" /\ estimated_review_time c = "30-45 minutes")
  /\ (500 <= total ->
      review_priority c = "critical" /\ estimated_review_time c = "1+ hours")
  /\ affected_areas c
     = (fun f => Py.split_head "/" (filename f)) <$> take 5 (files pr_data)
  /\ key_changes c
     = (fun f => filename f +:+ " (" +:+ status f +:+ ")")
       <$> take 5 (files pr_data)
  /\ (forall raw' : string, _create_fallback_context pr_data raw' = c)
  /\ (forall (pr' : PRAnalyzeRequest) (raw' : string),
        (fun f => (filename f, status f)) <$> take 5 (files pr')
        = (fun f => (filename f, status f)) <$> take 5 (files pr_data) ->
        affected_areas (_create_fallback_context pr' raw') = affected_areas c
        /\ key_changes (_create_fallback_context pr' raw') = key_changes c).
Proof.
  intros total c.
  pose proof (fallback_priority_time pr_data raw_response) as Hband.
  fold c total in Hband. unfold band in Hband.
  destruct (fallback_lists pr_data raw_response) as [Hareas Hkeys].
  fold c in Hareas, Hkeys.
  repeat apply conj.
  - intros H. replace (total <? 50) with true in Hband
      by (symmetry; apply Z.ltb_lt; lia).
    by injection Hband as -> ->.
  - intros H. replace (total <? 50) with false in Hband
      by (symmetry; apply Z.ltb_ge; lia).
    replace (total <? 200) with true in Hband
      by (symmetry; apply Z.ltb_lt; lia).
    by injection Hband as -> ->.
  - intros H. replace (total <? 50) with false in Hband
      by (symmetry; apply Z.ltb_ge; lia).
    replace (total <? 200) with false in Hband
      by (symmetry; apply Z.ltb_ge; lia).
    replace (total <? 500) with true in Hband
      by (symmetry; apply Z.ltb_lt; lia).
    by injection Hband as -> ->.
  - intros H. replace (total <? 50) with false in Hband
      by (symmetry; apply Z.ltb_ge; lia).
    replace (total <? 200) with false in Hband
      by (symmetry; apply Z.ltb_ge; lia).
    replace (total <? 500) with false in Hband
      by (symmetry; apply Z.ltb_ge; lia).
    by injection Hband as -> ->.
  - exact Hareas.
  - exact Hkeys.
  - reflexivity.
  - intros pr' raw' Hsame.
    destruct (fallback_lists pr' raw') as [-> ->]. rewrite Hareas, Hkeys.
    change (fun f : PRFile => Py.split_head "/" (filename f))
      with ((fun p : string * string => Py.split_head "/" (fst p))
            ∘ (fun f : PRFile => (filename f, status f))).
    change (fun f : PRFile => filename f +:+ " (" +:+ status f +:+ ")")
      with ((fun p : string * string => fst p +:+ " (" +:+ snd p +:+ ")")
            ∘ (fun f : PRFile => (filename f, status f))).
    rewrite !list_fmap_compose, Hsame. done.
Qed.

Lemma C6_witness :
  (review_priority (_create_fallback_context Samples.pr_small "x") = "low"
   /\ estimated_review_time (_create_fallback_context Samples.pr_small "x")
      = "5-10 minutes")
  /\ (review_priority (_create_fallback_context Samples.pr_medium "x") = "medium"
      /\ estimated_review_time (_create_fallback_context Samples.pr_medium "x")
         = "15-25 minutes")
  /\ (review_priority (_create_fallback_context Samples.pr_high "x") = "high"
      /\ estimated_review_time (_create_fallback_context Samples.pr_high "x")
         = "30-45 minutes")
  /\ (review_priority (_create_fallback_context Samples.pr_critical "x")
      = "critical"
      /\ estimated_review_time (_create_fallback_context Samples.pr_critical "x")
         = "1+ hours").
Proof.
  split; [|split; [|split]].
  - refine (proj1 (C6_fallback_is_determined_by_volume_bands
                     Samples.pr_small "x") _).
    vm_compute. reflexivity.
  - refine (proj1 (proj2 (C6_fallback_is_determined_by_volume_bands
                            Samples.pr_medium "x")) _).
    vm_compute. split; discriminate || reflexivity.
  - refine (proj1 (proj2 (proj2 (C6_fallback_is_determined_by_volume_bands
                                   Samples.pr_high "x"))) _).
    vm_compute. split; discriminate || reflexivity.
  - refine (proj1 (proj2 (proj2 (proj2
              (C6_fallback_is_determined_by_volume_bands
                 Samples.pr_critical "x")))) _).
    vm_compute. discriminate.
Defined.

End FallbackClaims.

(** ** Request validation *)

Section ValidationClaims.
Import Router.

Lemma check_files_rejects (fs : list PRFile) :
  length fs = 0%nat \/ (100 < length fs)%nat ->
  exists msg, check_files fs = Rejected msg.
Proof.
  intros [Hnone|Hmany]; unfold check_files, validate_files.
  - rewrite Hnone. simpl. eauto.
  - replace (Z.of_nat (length fs) <? 1) with false
      by (symmetry; apply Z.ltb_ge; lia).
    replace (Z.of_nat (length fs) >? 100) with true
      by (symmetry; apply Z.gtb_lt; lia).
    eauto.
Qed.

Lemma check_files_accepts (fs : list PRFile) :
  (1 <= length fs <= 100)%nat -> check_files fs = Accepted fs.
Proof.
  intros Hlen. unfold check_files, validate_files.
  replace (Z.of_nat (length fs) <? 1) with false
    by (symmetry; apply Z.ltb_ge; lia).
  replace (Z.of_nat (length fs) >? 100) with false; [done|].
  symmetry. rewrite Z.gtb_ltb. apply Z.ltb_ge. lia.
Qed.

Lemma check_title_inv (t t' : string) :
  check_title t = Accepted t' -> t' = t.
Proof.
  unfold check_title. repeat case_match; congruence.
Qed.

Lemma check_files_inv (fs fs' : list PRFile) :
  check_files fs = Accepted fs' -> fs' = fs.
Proof.
  unfold check_files, validate_files. repeat case_match; congruence.
Qed.

(** C9 (file count). A request body with no file or with more than 100
    files fails the validation of its [files] field, and the endpoint
    answers 422 with the cache untouched and no call to the provider; a body
    with 1 to 100 files passes the validation of this field. *)
Theorem C9_file_count_is_checked_before_cache_and_provider
    (json_loads : string -> string + Json.value)
    (construct_error_text : Json.value -> string)
    (client : Z -> Groq.completion) (api_key_configured : bool)
    (body : PRAnalyzeRequest) (cs : Cache.CacheService) (clk : clock) :
  (length (files body) = 0%nat \/ (100 < length (files body))%nat ->
     (exists msg, check_files (files body) = Rejected msg)
     /\ (exists msg, PRAnalyzeRequest_validate body = Rejected msg)
     /\ (exists msg,
           analyze_endpoint json_loads construct_error_text client
             api_key_configured body cs clk
           = (HTTPError 422 msg, cs, [])))
  /\ ((1 <= length (files body) <= 100)%nat ->
      check_files (files body) = Accepted (files body)).
Proof.
  split; [|apply check_files_accepts].
  intros Hbad. destruct (check_files_rejects _ Hbad) as [msg Hmsg].
  assert (Hval : exists msg', PRAnalyzeRequest_validate body = Rejected msg').
  { unfold PRAnalyzeRequest_validate. rewrite Hmsg.
    destruct (check_title (title body)); eauto. }
  split; [eauto|]. split; [exact Hval|].
  destruct Hval as [msg' Hval]. exists msg'.
  unfold analyze_endpoint. by rewrite Hval.
Qed.

Lemma C9_witness :
  (exists msg,
     analyze_endpoint Samples.loads Samples.error_text Samples.client_prose
       true Samples.pr_no_files Samples.cache_old
       {| t_get := 10; t_store := 11; t_sweep := 12 |}
     = (HTTPError 422 msg, Samples.cache_old, []))
  /\ (exists msg,
        analyze_endpoint Samples.loads Samples.error_text Samples.client_prose
          true Samples.pr_too_many Samples.cache_old
          {| t_get := 10; t_store := 11; t_sweep := 12 |}
        = (HTTPError 422 msg, Samples.cache_old, []))
  /\ check_files (files Samples.pr_small) = Accepted (files Samples.pr_small).
Proof.
  split; [|split].
  - refine (proj2 (proj2 (proj1
              (C9_file_count_is_checked_before_cache_and_provider
                 Samples.loads Samples.error_text Samples.client_prose true
                 Samples.pr_no_files Samples.cache_old
                 {| t_get := 10; t_store := 11; t_sweep := 12 |}) _))).
    left. reflexivity.
  - refine (proj2 (proj2 (proj1
              (C9_file_count_is_checked_before_cache_and_provider
                 Samples.loads Samples.error_text Samples.client_prose true
                 Samples.pr_too_many Samples.cache_old
                 {| t_get := 10; t_store := 11; t_sweep := 12 |}) _))).
    right. vm_compute. lia.
  - refine (proj2
              (C9_file_count_is_checked_before_cache_and_provider
                 Samples.loads Samples.error_text Samples.client_prose true
                 Samples.pr_small Samples.cache_old
                 {| t_get := 10; t_store := 11; t_sweep := 12 |}) _).
    vm_compute. lia.
Defined.

(** C10 (description). The description validator rejects nothing: a
    description of more than 10000 characters becomes its first 10000
    characters followed by "... (truncated)", a shorter one is kept, an
    absent or empty one becomes the empty string; and in the validated
    request every other field is the one of the body. *)
Theorem C10_description_is_truncated_not_rejected (body : PRAnalyzeRequest) :
  (forall v : string,
      10000 < Py.len v ->
      validate_description (Some v)
      = Py.slice_to 10000 v +:+ "... (truncated)")
  /\ (forall v : string,
        Py.len v <= 10000 -> validate_description (Some v) = v)
  /\ validate_description None = ""
  /\ validate_description (Some "") = ""
  /\ (forall (t : string) (fs : list PRFile),
        check_title (title body) = Accepted t ->
        check_files (files body) = Accepted fs ->
        PRAnalyzeRequest_validate body
        = Accepted {| title := title body;
                      description :=
                        Some (validate_description (description body));
                      files := files body;
                      commits := commits body;
                      base_branch := base_branch body;
                      head_branch := head_branch body;
                      pr_url := pr_url body |}).
Proof.
  split; [|split; [|split; [|split]]].
  - intros v Hlong. unfold validate_description.
    replace (Py.len v >? 10000) with true by (symmetry; apply Z.gtb_lt; lia).
    destruct v; [|reflexivity]. unfold Py.len in Hlong; simpl in Hlong. lia.
  - intros v Hshort. unfold validate_description.
    replace (Py.len v >? 10000) with false.
    + by rewrite andb_false_r.
    + symmetry. rewrite Z.gtb_ltb. apply Z.ltb_ge. lia.
  - reflexivity.
  - reflexivity.
  - intros t fs Ht Hfs. unfold PRAnalyzeRequest_validate. rewrite Ht, Hfs.
    apply check_title_inv in Ht. apply check_files_inv in Hfs. by subst.
Qed.

Lemma C10_witness :
  validate_description (Some Samples.long_description)
  = Py.slice_to 10000 Samples.long_description +:+ "... (truncated)".
Proof.
  refine (proj1 (C10_description_is_truncated_not_rejected Samples.pr_small)
            Samples.long_description _).
  vm_compute. reflexivity.
Defined.

End ValidationClaims.

(* ===================================================================== *)
(** * Further properties of the code *)
(* ===================================================================== *)

(** ** The cache key and the store *)

Section CacheMore.
Import Cache Observe.

Lemma all_chars_slice_to (P : ascii -> bool) (n : nat) (s : string) :
  all_chars P s = true -> all_chars P (Py.slice_to n s) = true.
Proof.
  revert s. induction n as [|n IH]; intros [|c s]; simpl; try done.
  intros [Hc Hs]%andb_true_iff. by rewrite Hc, IH.
Qed.

Lemma hex_digit_is_hex (d : Z) :
  0 <= d < 16 -> is_hex_char (Py.hex_digit d) = true.
Proof.
  intros Hd.
  assert (Hcases : d = 0 \/ d = 1 \/ d = 2 \/ d = 3 \/ d = 4 \/ d = 5 \/ d = 6
                   \/ d = 7 \/ d = 8 \/ d = 9 \/ d = 10 \/ d = 11 \/ d = 12
                   \/ d = 13 \/ d = 14 \/ d = 15) by lia.
  repeat (destruct Hcases as [-> | Hcases]; [vm_compute; reflexivity|]).
  subst d. vm_compute. reflexivity.
Qed.

Lemma all_chars_hex (bs : list Z) :
  Forall (fun b => 0 <= b < 256) bs ->
  all_chars is_hex_char (Sha256.hex bs) = true.
Proof.
  induction 1 as [|b bs Hb _ IH]; [done|]. cbn [Sha256.hex all_chars].
  rewrite IH, andb_true_r. apply andb_true_iff. split; apply hex_digit_is_hex.
  - rewrite Z.shiftr_div_pow2 by lia. change (2 ^ 4) with 16.
    split; [apply Z.div_pos; lia|apply Z.div_lt_upper_bound; lia].
  - change 15 with (Z.ones 4). rewrite Z.land_ones by lia.
    change (2 ^ 4) with 16. apply Z.mod_pos_bound. lia.
Qed.

Lemma be_bytes_range (n : nat) (x : Z) :
  Forall (fun b => 0 <= b < 256) (Sha256.be_bytes n x).
Proof.
  induction n as [|n IH]; cbn [Sha256.be_bytes]; constructor; [|exact IH].
  change 255 with (Z.ones 8). rewrite Z.land_ones by lia.
  change (2 ^ 8) with 256. apply Z.mod_pos_bound. lia.
Qed.

Lemma sha256_range (msg : list Z) :
  Forall (fun b => 0 <= b < 256) (Sha256.sha256 msg).
Proof.
  unfold Sha256.sha256, Sha256.digest_of.
  repeat (apply Forall_app; split); apply be_bytes_range.
Qed.

(** X1. Whatever the request, the cache key is a string of exactly 16
    characters, each of them one of [0-9a-f]. *)
Theorem X1_cache_key_is_16_hex_characters (pr_data : PRAnalyzeRequest) :
  String.length (_generate_cache_key pr_data) = 16%nat
  /\ all_chars is_hex_char (_generate_cache_key pr_data) = true.
Proof.
  split; [apply length_generate_cache_key|].
  unfold _generate_cache_key, Sha256.hexdigest.
  apply all_chars_slice_to, all_chars_hex, sha256_range.
Qed.

(** The three ways a [get] can go. *)
Lemma get_cases (self : CacheService) (pr_data : PRAnalyzeRequest) (now : Q) :
  (_cache self !! _generate_cache_key pr_data = None
   /\ get self pr_data now = (None, self))
  \/ (exists e, _cache self !! _generate_cache_key pr_data = Some e
                /\ expired (_ttl self) now e = true
                /\ get self pr_data now
                   = (None, {| _cache := delete (_generate_cache_key pr_data)
                                           (_cache self);
                               _ttl := _ttl self |}))
  \/ (exists e, _cache self !! _generate_cache_key pr_data = Some e
                /\ expired (_ttl self) now e = false
                /\ get self pr_data now = (Some (data e), self)).
Proof.
  unfold get.
  destruct (_cache self !! _generate_cache_key pr_data) as [e|] eqn:Hk;
    [|by left].
  destruct (expired (_ttl self) now e) eqn:Hexp; right; [left|right]; eauto.
Qed.

(** X2. A [get] changes at most the entry of the key it reads: the TTL and
    every other entry stay as they are, nothing is ever added, and the store
    is left unchanged whenever the key is absent or a context is
    returned. *)
Theorem X2_get_touches_only_its_own_key
    (self : CacheService) (pr_data : PRAnalyzeRequest) (now : Q) :
  let after := snd (get self pr_data now) in
  _ttl after = _ttl self
  /\ (forall k, k <> _generate_cache_key pr_data ->
                _cache after !! k = _cache self !! k)
  /\ _cache after ⊆ _cache self
  /\ (_cache self !! _generate_cache_key pr_data = None -> after = self)
  /\ (forall context, fst (get self pr_data now) = Some context ->
                      after = self).
Proof.
  intros after. subst after.
  destruct (get_cases self pr_data now)
    as [[Hk ->]|[(e & Hk & Hexp & ->)|(e & Hk & Hexp & ->)]]; cbn [fst snd _ttl _cache].
  - repeat split; try done.
  - repeat split; try done.
    + intros k Hne. by apply lookup_delete_ne.
    + apply delete_subseteq.
    + intros Hnone. congruence.
  - repeat split; try done.
Qed.

(** X3. Reading twice at the same time gives the same answer, and the
    second read changes nothing: the eviction of an expired entry happens
    once. *)
Theorem X3_get_is_idempotent
    (self : CacheService) (pr_data : PRAnalyzeRequest) (now : Q) :
  get (snd (get self pr_data now)) pr_data now = get self pr_data now.
Proof.
  destruct (get_cases self pr_data now)
    as [[Hk Hget]|[(e & Hk & Hexp & Hget)|(e & Hk & Hexp & Hget)]];
    rewrite Hget; cbn [snd]; try exact Hget.
  unfold get; cbn [_cache _ttl]. by rewrite lookup_delete_eq.
Qed.

End CacheMore.

(** ** The sweep, the write and the statistics on the clock of the
    interpreter *)

Section FloatCacheMore.
Import FloatCache.

(** X4. The sweep only removes entries; it removes an entry exactly when
    its computed age, the double [now - timestamp], exceeds the TTL; it
    changes nothing when this holds of no entry, and sweeping again at the
    same reading changes nothing more. *)
Theorem X4_cleanup_removes_exactly_the_expired
    (self : CacheService) (now : Double.float) :
  _cache (_cleanup_expired self now) ⊆ _cache self
  /\ (forall k e, _cache self !! k = Some e ->
                  (_cache (_cleanup_expired self now) !! k = None
                   <-> Double.gt_int (Double.sub now (timestamp e)) (_ttl self)
                       = true))
  /\ ((forall k e, _cache self !! k = Some e ->
                   Double.gt_int (Double.sub now (timestamp e)) (_ttl self)
                   = false) ->
      _cleanup_expired self now = self)
  /\ _cleanup_expired (_cleanup_expired self now) now
     = _cleanup_expired self now.
Proof.
  split; [|split; [|split]].
  - apply sweep_subseteq.
  - intros k e Hk. rewrite lookup_sweep, Hk.
    change (Double.gt_int (Double.sub now (timestamp e)) (_ttl self))
      with (expired (_ttl self) now e).
    by destruct (expired _ _ _).
  - intros Hfresh. apply service_eq; [|done].
    apply map_eq. intros k. rewrite lookup_sweep.
    destruct (_cache self !! k) as [e|] eqn:Hk; [|done].
    apply Hfresh in Hk. unfold expired, age. by rewrite Hk.
  - apply service_eq; [|done].
    apply map_eq. intros k. rewrite !lookup_sweep. cbn [_ttl _cleanup_expired].
    destruct (_cache self !! k) as [e|]; [|done].
    destruct (expired (_ttl self) now e) eqn:Hexp; [done|]. by rewrite Hexp.
Qed.

(** X5. A [set] makes the store grow by at most one entry, and the entry it
    writes is in the store afterwards unless its own computed age at the
    sweep, the double [t_sweep - t_store], already exceeds the TTL (a
    negative TTL, or a clock that jumped). *)
Theorem X5_set_adds_at_most_one_entry
    (self : CacheService) (pr_data : PRAnalyzeRequest) (context : PRContext)
    (t_store t_sweep : Double.float) :
  (size (_cache (set self pr_data context t_store t_sweep))
   <= S (size (_cache self)))%nat
  /\ (Double.gt_int (Double.sub t_sweep t_store) (_ttl self) = false ->
      _cache (set self pr_data context t_store t_sweep)
        !! Cache._generate_cache_key pr_data
      = Some {| data := context; timestamp := t_store;
                pr_title := title pr_data |})
  /\ (Double.gt_int (Double.sub t_sweep t_store) (_ttl self) = true ->
      _cache (set self pr_data context t_store t_sweep)
        !! Cache._generate_cache_key pr_data = None).
Proof.
  split; [|split].
  - unfold set.
    etrans; [apply map_subseteq_size, sweep_subseteq|].
    cbn [_cache]. rewrite map_size_insert.
    destruct (_cache self !! Cache._generate_cache_key pr_data); simpl; lia.
  - intros Hfresh. rewrite lookup_after_set, lookup_insert_eq.
    unfold expired, age; cbn [timestamp]. by rewrite Hfresh.
  - intros Hold. rewrite lookup_after_set, lookup_insert_eq.
    unfold expired, age; cbn [timestamp]. by rewrite Hold.
Qed.

(** X6. When [stats] returns, it counts what it lists, and it lists every
    entry of the store once, under its key, with its title and with
    [int] of its computed age, those above the TTL included: reading the
    statistics evicts nothing. It raises only when the computed age of
    some entry is an infinity or a NaN. *)
Theorem X6_stats_lists_the_whole_store
    (self : CacheService) (now : Double.float) :
  match stats self now with
  | Some listing =>
      total_entries listing = Z.of_nat (length (entries listing))
      /\ total_entries listing = Z.of_nat (size (_cache self))
      /\ ttl_seconds listing = _ttl self
      /\ NoDup (key <$> entries listing)
      /\ (forall k e, _cache self !! k = Some e ->
            exists seconds,
              Double.int (Double.sub now (timestamp e)) = Some seconds
              /\ {| key := k; age_seconds := seconds;
                    stat_pr_title := pr_title e |} ∈ entries listing)
      /\ (forall entry, entry ∈ entries listing ->
            exists e, _cache self !! key entry = Some e
                      /\ Double.int (Double.sub now (timestamp e))
                         = Some (age_seconds entry)
                      /\ stat_pr_title entry = pr_title e)
  | None =>
      exists k e, _cache self !! k = Some e
                  /\ Double.int (Double.sub now (timestamp e)) = None
  end.
Proof.
  pose proof (stats_cases self now) as Hc.
  destruct (stats self now) as [listing|]; [|exact Hc].
  destruct Hc as (Hm & Htotal & Httl).
  split; [|split; [done|split; [done|split; [|split]]]].
  - rewrite Htotal. apply length_mapM in Hm.
    by rewrite <- Hm, length_map_to_list.
  - rewrite (mapM_fmap_key _ _ _ Hm). apply NoDup_fst_map_to_list.
  - intros k e Hk.
    destruct (mapM_elem_of_l _ _ _ (k, e) Hm) as (entry & Hentry & Hin).
    { by apply elem_of_map_to_list. }
    unfold stats_entry, age in Hentry; cbn [fst snd] in Hentry.
    destruct (Double.int _) as [seconds|]; [|done].
    injection Hentry as <-. by exists seconds.
  - intros entry Hin.
    destruct (mapM_elem_of_r _ _ _ entry Hm Hin) as ([k e] & Hkv & Hentry).
    apply elem_of_map_to_list in Hkv.
    unfold stats_entry, age in Hentry; cbn [fst snd] in Hentry.
    destruct (Double.int _) as [seconds|] eqn:Hint; [|done].
    injection Hentry as <-. by exists e.
Qed.

(** X7. The age shown by [stats] for an entry is its computed age, the
    double [now - timestamp], cut toward zero: that double is finite, and
    the age shown lies within one second of its exact value, on the side
    of zero. *)
Theorem X7_stats_age_is_computed_age_truncated
    (self : CacheService) (now : Double.float) (k : string) (e : CacheEntry)
    (listing : Stats) :
  _cache self !! k = Some e ->
  stats self now = Some listing ->
  exists entry q,
    entry ∈ entries listing
    /\ key entry = k
    /\ stat_pr_title entry = pr_title e
    /\ Double.value (Double.sub now (timestamp e)) = Some q
    /\ ((0 <= q)%Q ->
        0 <= age_seconds entry
        /\ (inject_Z (age_seconds entry) <= q)%Q
        /\ (q < inject_Z (age_seconds entry + 1))%Q)
    /\ ((q <= 0)%Q ->
        age_seconds entry <= 0
        /\ (inject_Z (age_seconds entry - 1) < q)%Q
        /\ (q <= inject_Z (age_seconds entry))%Q).
Proof.
  intros Hk Hst.
  pose proof (stats_cases self now) as Hc. rewrite Hst in Hc.
  destruct Hc as (Hm & _ & _).
  destruct (mapM_elem_of_l _ _ _ (k, e) Hm) as (entry & Hentry & Hin).
  { by apply elem_of_map_to_list. }
  unfold stats_entry, age, Double.int in Hentry; cbn [fst snd] in Hentry.
  destruct (Double.value (Double.sub now (timestamp e))) as [q|] eqn:Hq;
    [|done].
  injection Hentry as <-.
  eexists _, q. split; [exact Hin|]. cbn [key stat_pr_title age_seconds].
  split; [done|]. split; [done|]. split; [done|]. split.
  - apply trunc_nonneg.
  - apply trunc_nonpos.
Qed.

Lemma X7_witness :
  exists entry q,
    entry ∈ [ {| key := Cache._generate_cache_key Samples.pr_high;
                 age_seconds := 3;
                 stat_pr_title := "Fix null check" |} ]
    /\ key entry = Cache._generate_cache_key Samples.pr_high
    /\ stat_pr_title entry = "Fix null check"
    /\ Double.value (Double.sub ClockSamples.read_1 ClockSamples.stamp_1)
       = Some q
    /\ ((0 <= q)%Q ->
        0 <= age_seconds entry
        /\ (inject_Z (age_seconds entry) <= q)%Q
        /\ (q < inject_Z (age_seconds entry + 1))%Q)
    /\ ((q <= 0)%Q ->
        age_seconds entry <= 0
        /\ (inject_Z (age_seconds entry - 1) < q)%Q
        /\ (q <= inject_Z (age_seconds entry))%Q).
Proof.
  refine (X7_stats_age_is_computed_age_truncated
            (set (init 3600) Samples.pr_high Samples.context_2
               ClockSamples.stamp_1 ClockSamples.stamp_1)
            ClockSamples.read_1
            (Cache._generate_cache_key Samples.pr_high)
            {| data := Samples.context_2; timestamp := ClockSamples.stamp_1;
               pr_title := "Fix null check" |}
            {| total_entries := 1; ttl_seconds := 3600;
               entries := [ {| key := Cache._generate_cache_key Samples.pr_high;
                               age_seconds := 3;
                               stat_pr_title := "Fix null check" |} ] |}
            _ _).
  - vm_compute. reflexivity.
  - vm_compute. reflexivity.
Defined.

(** The age is rounded before it is cut: between the doubles
    [0.36568891691258554] and [3.3656889169125854] less than three seconds
    elapse, their computed difference is [3.0], and [stats] shows 3. *)
Lemma stats_rounds_the_age_first :
  Double.value ClockSamples.stamp_1
  = Some (6587665879764162 # 18014398509481984)
  /\ Double.value ClockSamples.read_1
     = Some (7578857676026264 # 2251799813685248)
  /\ ((7578857676026264 # 2251799813685248)
      - (6587665879764162 # 18014398509481984) < inject_Z 3)%Q
  /\ (fun listing => age_seconds <$> entries listing)
       <$> stats (set (init 3600) Samples.pr_high Samples.context_2
                    ClockSamples.stamp_1 ClockSamples.stamp_1)
                 ClockSamples.read_1
     = Some [3].
Proof. repeat split; vm_compute; reflexivity. Qed.

End FloatCacheMore.

(** ** Clearing the cache *)

Section CacheClear.
Import Cache.

(** X8. After [clear] every read misses and leaves the empty store as it
    is, the statistics show no entry, and the TTL is the one of before. *)
Theorem X8_clear_empties_the_store
    (self : CacheService) (pr_data : PRAnalyzeRequest) (now : Q) :
  get (clear self) pr_data now = (None, clear self)
  /\ total_entries (stats (clear self) now) = 0
  /\ entries (stats (clear self) now) = []
  /\ ttl_seconds (stats (clear self) now) = _ttl self.
Proof.
  unfold clear, get, stats; cbn [_cache _ttl total_entries entries ttl_seconds].
  rewrite lookup_empty, map_size_empty, map_to_list_empty. done.
Qed.

End CacheClear.

(** ** Strings *)

Section StringFacts.

Lemma length_append (s t : string) :
  String.length (s +:+ t) = (String.length s + String.length t)%nat.
Proof. induction s as [|c s IH]; simpl; [done|]. by rewrite IH. Qed.

Lemma slice_to_append (n : nat) (s t : string) :
  (n <= String.length s)%nat ->
  Py.slice_to n (s +:+ t) = Py.slice_to n s.
Proof.
  revert s. induction n as [|n IH]; intros [|c s] Hlen; simpl in *;
    try done; try lia.
  rewrite IH by lia. done.
Qed.

Lemma slice_to_all (n : nat) (s : string) :
  (String.length s <= n)%nat -> Py.slice_to n s = s.
Proof.
  revert s. induction n as [|n IH]; intros [|c s] Hlen; simpl in *;
    try done; try lia.
  rewrite IH by lia. done.
Qed.

Lemma slice_from_append (s t : string) :
  Py.slice_from (String.length s) (s +:+ t) = t.
Proof. induction s as [|c s IH]; simpl; [by destruct t|done]. Qed.

Lemma prefix_append (p s : string) : String.prefix p (p +:+ s) = true.
Proof.
  induction p as [|c p IH]; simpl; [by destruct s|].
  destruct (ascii_dec c c); [done|congruence].
Qed.

End StringFacts.

(** ** Request validation, continued *)

Section ValidationMore.
Import Router.

(** Cutting at [n] characters and appending a suffix: the result is short,
    and cutting it again gives it back. *)
Lemma truncate_facts (n : nat) (suffix s : string) :
  (n < String.length s)%nat ->
  String.length (Py.slice_to n s +:+ suffix) = (n + String.length suffix)%nat
  /\ Py.slice_to n (Py.slice_to n s +:+ suffix) = Py.slice_to n s.
Proof.
  intros Hlen.
  assert (Hcut : String.length (Py.slice_to n s) = n)
    by (rewrite length_slice_to; lia).
  split.
  - by rewrite length_append, Hcut.
  - rewrite slice_to_append by lia. apply slice_to_all. lia.
Qed.

Lemma validate_description_short (s : string) :
  Py.len s <= 10000 -> validate_description (Some s) = s.
Proof.
  intros Hs. unfold validate_description.
  replace (Py.len s >? 10000) with false; [by rewrite andb_false_r|].
  symmetry. rewrite Z.gtb_ltb. apply Z.ltb_ge. lia.
Qed.

(** The result on a long description, with the cut at an opaque [n]. *)
Lemma validate_description_long (s : string) :
  10000 < Py.len s ->
  exists n : nat,
    Z.of_nat n = 10000
    /\ validate_description (Some s) = Py.slice_to n s +:+ "... (truncated)".
Proof.
  intros Hs. remember 10000%nat as n eqn:Hn. exists n. split.
  - subst n. vm_compute. reflexivity.
  - unfold validate_description. rewrite <- Hn.
    replace (Py.len s >? 10000) with true by (symmetry; apply Z.gtb_lt; lia).
    destruct s; [|reflexivity]. unfold Py.len in Hs; simpl in Hs. lia.
Qed.

Lemma validate_description_bounded (v : option string) :
  Py.len (validate_description v) <= 10015.
Proof.
  destruct v as [s|]; [|vm_compute; discriminate].
  destruct (Z_le_gt_dec (Py.len s) 10000) as [Hs|Hs].
  - rewrite validate_description_short by done. lia.
  - destruct (validate_description_long s) as (n & Hn & ->); [lia|].
    destruct (truncate_facts n "... (truncated)" s) as [Hlen _].
    { unfold Py.len in Hs. lia. }
    unfold Py.len. rewrite Hlen. simpl String.length. lia.
Qed.

(** X9. The description validator leaves at most 10015 characters, and
    running it on its own result changes nothing: a description that was
    truncated once is not cut a second time. *)
Theorem X9_description_validator_is_bounded_and_idempotent
    (v : option string) :
  Py.len (validate_description v) <= 10015
  /\ validate_description (Some (validate_description v))
     = validate_description v.
Proof.
  split; [apply validate_description_bounded|].
  destruct v as [s|]; [|reflexivity].
  destruct (Z_le_gt_dec (Py.len s) 10000) as [Hs|Hs].
  - rewrite (validate_description_short s Hs).
    exact (validate_description_short s Hs).
  - destruct (validate_description_long s) as (n & Hn & Hcut); [lia|].
    rewrite Hcut.
    destruct (truncate_facts n "... (truncated)" s) as [Hlen Hagain].
    { unfold Py.len in Hs. lia. }
    destruct (validate_description_long
                (Py.slice_to n s +:+ "... (truncated)")) as (n' & Hn' & ->).
    { unfold Py.len. rewrite Hlen. simpl String.length. lia. }
    replace n' with n by lia. by rewrite Hagain.
Qed.

(** X10. A request that passed validation has a title of 1 to 500
    characters, 1 to 100 files and a description of at most 10015
    characters that is never [None]; title, files, commits, branches and URL
    are those of the body. *)
Theorem X10_validated_request_invariants (body pr_data : PRAnalyzeRequest) :
  PRAnalyzeRequest_validate body = Accepted pr_data ->
  1 <= Py.len (title pr_data) <= 500
  /\ (1 <= length (files pr_data) <= 100)%nat
  /\ (exists d, description pr_data = Some d /\ Py.len d <= 10015)
  /\ title pr_data = title body
  /\ files pr_data = files body
  /\ commits pr_data = commits body
  /\ base_branch pr_data = base_branch body
  /\ head_branch pr_data = head_branch body
  /\ pr_url pr_data = pr_url body.
Proof.
  unfold PRAnalyzeRequest_validate.
  destruct (check_title (title body)) as [t|] eqn:Ht; [|discriminate].
  destruct (check_files (files body)) as [fs|] eqn:Hfs; [|discriminate].
  intros [= <-]; cbn.
  pose proof (check_title_inv _ _ Ht) as ->.
  pose proof (check_files_inv _ _ Hfs) as ->.
  split; [|split; [|split]].
  - unfold check_title in Ht.
    destruct (Py.len (title body) <? 1) eqn:H1; [discriminate|].
    destruct (Py.len (title body) >? 500) eqn:H2; [discriminate|].
    apply Z.ltb_ge in H1. rewrite Z.gtb_ltb in H2. apply Z.ltb_ge in H2. lia.
  - unfold check_files, validate_files in Hfs.
    destruct (Z.of_nat (length (files body)) <? 1) eqn:H1; [discriminate|].
    destruct (Z.of_nat (length (files body)) >? 100) eqn:H2; [discriminate|].
    apply Z.ltb_ge in H1. rewrite Z.gtb_ltb in H2. apply Z.ltb_ge in H2. lia.
  - eexists. split; [reflexivity|].
    apply validate_description_bounded.
  - done.
Qed.

Lemma X10_witness :
  1 <= Py.len (title Samples.pr_small') <= 500
  /\ (1 <= length (files Samples.pr_small') <= 100)%nat
  /\ (exists d, description Samples.pr_small' = Some d /\ Py.len d <= 10015)
  /\ title Samples.pr_small' = title Samples.pr_small'
  /\ files Samples.pr_small' = files Samples.pr_small'
  /\ commits Samples.pr_small' = commits Samples.pr_small'
  /\ base_branch Samples.pr_small' = base_branch Samples.pr_small'
  /\ head_branch Samples.pr_small' = head_branch Samples.pr_small'
  /\ pr_url Samples.pr_small' = pr_url Samples.pr_small'.
Proof.
  refine (X10_validated_request_invariants Samples.pr_small' Samples.pr_small' _).
  vm_compute. reflexivity.
Defined.

End ValidationMore.

(** ** The retry loop, in general *)

Section InvokerMore.
Import Groq Observe.

Lemma sleeps_app (tr1 tr2 : list event) :
  sleeps (tr1 ++ tr2) = (sleeps tr1 ++ sleeps tr2)%list.
Proof. unfold sleeps. apply omap_app. Qed.

Lemma generic_wait_range (attempt : Z) :
  0 <= attempt -> 1 <= generic_wait attempt <= 10.
Proof.
  intros Hpos. unfold generic_wait.
  assert (0 < 2 ^ attempt) by (apply Z.pow_pos_nonneg; lia). lia.
Qed.

Lemma rate_limit_wait_range (attempt : Z) :
  0 <= attempt -> 4 <= rate_limit_wait attempt <= 30.
Proof.
  intros Hpos. unfold rate_limit_wait.
  assert (2 ^ 2 <= 2 ^ (attempt + 2)) by (apply Z.pow_le_mono_r; lia).
  change (2 ^ 2) with 4 in *. lia.
Qed.

(** What the two outer handlers can do. *)
Lemma handle_exception_cases (max_retries attempt : Z) (e : exn) :
  (attempt < max_retries - 1
   /\ exists w, handle_exception max_retries attempt e = Continue e (Some w)
                /\ (w = rate_limit_wait attempt \/ w = generic_wait attempt))
  \/ (max_retries - 1 <= attempt
      /\ exists msg, handle_exception max_retries attempt e
                     = Finish (Raised (ValueError msg))).
Proof.
  unfold handle_exception.
  destruct (attempt <? max_retries - 1) eqn:Hlt;
    [apply Z.ltb_lt in Hlt; left|apply Z.ltb_ge in Hlt; right];
    (split; [lia|]); destruct e; try destruct (is_rate_limit _); eauto.
Qed.

Section Run.
Variable json_loads : string -> string + Json.value.
Variable construct_error_text : Json.value -> string.
Variable client : Z -> completion.
Variable pr_data : PRAnalyzeRequest.
Variable max_retries : Z.

Local Abbreviation body := (attempt_body json_loads construct_error_text client
                              pr_data max_retries).
Local Abbreviation run := (loop json_loads construct_error_text client
                             pr_data max_retries).

(** The events of one attempt: the call, unless the prompt cannot be
    built. *)
Lemma attempt_events (attempt : Z) :
  snd (body attempt)
  = match prompt_error pr_data with
    | Some _ => []
    | None => [Call attempt]
    end.
Proof.
  unfold attempt_body. destruct (prompt_error pr_data); [done|].
  by destruct (client attempt).
Qed.

(** How one attempt can end. *)
Lemma attempt_cases (attempt : Z) :
  (exists context, fst (body attempt) = Finish (Returned context))
  \/ (max_retries - 1 <= attempt
      /\ exists msg, fst (body attempt) = Finish (Raised (ValueError msg)))
  \/ (attempt <> max_retries - 1
      /\ exists e, fst (body attempt) = Continue e None)
  \/ (attempt < max_retries - 1
      /\ exists e w, fst (body attempt) = Continue e (Some w)
                     /\ (w = rate_limit_wait attempt
                         \/ w = generic_wait attempt)).
Proof.
  assert (Hexn : forall e,
    (max_retries - 1 <= attempt
      /\ exists msg, handle_exception max_retries attempt e
                     = Finish (Raised (ValueError msg)))
    \/ (attempt < max_retries - 1
      /\ exists e' w, handle_exception max_retries attempt e
                      = Continue e' (Some w)
                     /\ (w = rate_limit_wait attempt
                         \/ w = generic_wait attempt))).
  { intros e.
    destruct (handle_exception_cases max_retries attempt e)
      as [[Hlt (w & Hw & Hor)]|[Hge Hmsg]]; [right|left]; eauto 6. }
  unfold attempt_body.
  destruct (prompt_error pr_data) as [e|]; cbn [fst];
    [destruct (Hexn e); auto|].
  destruct (client attempt) as [content|e]; cbn [fst];
    [|destruct (Hexn e); auto].
  unfold interpret.
  destruct (json_loads _) as [text|v].
  - destruct (attempt =? max_retries - 1) eqn:Heq.
    + left. eauto.
    + apply Z.eqb_neq in Heq. right. right. left. eauto.
  - destruct (PRContext_construct construct_error_text v) as [e|context].
    + destruct (Hexn e); auto.
    + left. eauto.
Qed.

(** Bounds on every run of the loop. *)
Lemma loop_bounds (remaining : nat) :
  forall (attempt : Z) (last_error : option exn),
    0 <= attempt ->
    attempt + Z.of_nat remaining = max_retries ->
    (calls (snd (run remaining attempt last_error)) <= remaining)%nat
    /\ (length (sleeps (snd (run remaining attempt last_error)))
        <= remaining - 1)%nat
    /\ Forall (fun w => 1 <= w <= 30)
              (sleeps (snd (run remaining attempt last_error))).
Proof.
  induction remaining as [|r IH]; intros attempt last_error Hpos Hsum;
    cbn [loop]; [by repeat split|].
  pose proof (attempt_events attempt) as Hevs.
  pose proof (attempt_cases attempt) as Hcases.
  destruct (body attempt) as [st evs]; cbn [fst snd] in *.
  assert (Hevs' : (calls evs <= 1)%nat /\ sleeps evs = []).
  { subst evs. by destruct (prompt_error pr_data); split; cbn; try lia. }
  destruct Hevs' as [Hcalls Hsl].
  destruct Hcases as [[c ->]|[[_ [m ->]]|[[Hne [e ->]]|[Hlt (e & w & -> & Hw)]]]];
    cbn [snd].
  - rewrite Hsl. repeat split; [lia|cbn; lia|done].
  - rewrite Hsl. repeat split; [lia|cbn; lia|done].
  - destruct (IH (attempt + 1) (Some e)) as (IHc & IHl & IHf); [lia|lia|].
    destruct (run r (attempt + 1) (Some e)) as [o rest]; cbn [snd] in *.
    rewrite app_nil_r, calls_app, sleeps_app, Hsl. cbn [app].
    repeat split; [lia|lia|done].
  - destruct (IH (attempt + 1) (Some e)) as (IHc & IHl & IHf); [lia|lia|].
    destruct (run r (attempt + 1) (Some e)) as [o rest]; cbn [snd] in *.
    rewrite !calls_app, !sleeps_app, Hsl.
    change (calls [Sleep w]) with 0%nat. change (sleeps [Sleep w]) with [w].
    cbn [app length].
    repeat split; [lia|lia|].
    constructor; [|done].
    pose proof (generic_wait_range attempt Hpos).
    pose proof (rate_limit_wait_range attempt Hpos).
    destruct Hw as [-> | ->]; lia.
Qed.

(** Every run ends with a context or with a [ValueError]. *)
Lemma loop_outcome (remaining : nat) :
  forall (attempt : Z) (last_error : option exn),
    (exists context,
        fst (run remaining attempt last_error) = Returned context)
    \/ (exists msg,
          fst (run remaining attempt last_error) = Raised (ValueError msg)).
Proof.
  induction remaining as [|r IH]; intros attempt last_error; cbn [loop];
    [right; eauto|].
  pose proof (attempt_cases attempt) as Hcases.
  destruct (body attempt) as [st evs]; cbn [fst] in *.
  destruct Hcases as [[c ->]|[[_ [m ->]]|[[_ [e ->]]|[_ (e & w & -> & _)]]]];
    cbn [fst]; eauto;
    specialize (IH (attempt + 1) (Some e));
    destruct (run r (attempt + 1) (Some e)) as [o rest]; exact IH.
Qed.

End Run.

(** X11. Whatever the provider, the decoder and the request do, one
    invocation calls the provider at most [max_retries] times, sleeps at
    most [max_retries - 1] times, and every sleep lasts between 1 and 30
    seconds. *)
Theorem X11_run_is_bounded
    (json_loads : string -> string + Json.value)
    (construct_error_text : Json.value -> string)
    (client : Z -> completion) (pr_data : PRAnalyzeRequest)
    (max_retries : Z) :
  let tr := snd (analyze_pr json_loads construct_error_text client pr_data
                   max_retries) in
  (calls tr <= Z.to_nat max_retries)%nat
  /\ (length (sleeps tr) <= Z.to_nat max_retries - 1)%nat
  /\ Forall (fun w => 1 <= w <= 30) (sleeps tr).
Proof.
  intros tr. subst tr. unfold analyze_pr.
  destruct (Z_lt_le_dec max_retries 1) as [Hnone|Hsome].
  - replace (Z.to_nat max_retries) with 0%nat by lia. cbn. by repeat split.
  - apply loop_bounds; lia.
Qed.

(** X12. An invocation never lets an exception of the provider, of the
    decoder or of the validation escape as it is: it returns a context or
    raises a [ValueError]. *)
Theorem X12_only_ValueError_is_raised
    (json_loads : string -> string + Json.value)
    (construct_error_text : Json.value -> string)
    (client : Z -> completion) (pr_data : PRAnalyzeRequest)
    (max_retries : Z) :
  (exists context,
      fst (analyze_pr json_loads construct_error_text client pr_data
             max_retries) = Returned context)
  \/ (exists msg,
        fst (analyze_pr json_loads construct_error_text client pr_data
               max_retries) = Raised (ValueError msg)).
Proof. unfold analyze_pr. apply loop_outcome. Qed.

End InvokerMore.

(** ** Runs in which every attempt ends the same way *)

Section UniformRuns.
Import Groq Observe.

Lemma omap_Some_fmap {A B} (f : A -> B) (l : list A) :
  omap (fun x => Some (f x)) l = f <$> l.
Proof. induction l as [|x l IH]; [done|]. cbn. by rewrite IH. Qed.

Lemma omap_None {A B} (l : list A) :
  omap (fun _ : A => @None B) l = [].
Proof. induction l as [|x l IH]; [done|]. cbn. by rewrite IH. Qed.

Lemma length_range_from (a : Z) (n : nat) : length (range_from a n) = n.
Proof. revert a. induction n as [|n IH]; intros a; cbn; [done|]. by rewrite IH. Qed.

Section Run.
Variable json_loads : string -> string + Json.value.
Variable construct_error_text : Json.value -> string.
Variable client : Z -> completion.
Variable pr_data : PRAnalyzeRequest.
Variable max_retries : Z.

Local Abbreviation body := (attempt_body json_loads construct_error_text client
                              pr_data max_retries).
Local Abbreviation run := (loop json_loads construct_error_text client
                             pr_data max_retries).

(** A run whose attempts before the last all pause the same way and whose
    last attempt ends in [final]: its outcome, its calls and its sleeps. *)
Lemma loop_uniform (pause : Z -> option Z) (final : outcome) (remaining : nat) :
  forall (attempt : Z) (last_error : option exn),
    attempt + Z.of_nat remaining = max_retries ->
    (1 <= remaining)%nat ->
    (forall i, attempt <= i < max_retries - 1 ->
               exists e, fst (body i) = Continue e (pause i)) ->
    fst (body (max_retries - 1)) = Finish final ->
    exists tr,
      run remaining attempt last_error = (final, tr)
      /\ sleeps tr = omap pause (range_from attempt (remaining - 1))
      /\ filter is_call tr
         = match prompt_error pr_data with
           | Some _ => []
           | None => Call <$> range_from attempt remaining
           end.
Proof.
  induction remaining as [|r IH]; intros attempt last_error Hsum Hpos Hearly Hlast;
    [lia|].
  cbn [loop]. pose proof (attempt_events json_loads construct_error_text
                            client pr_data max_retries attempt) as Hevs.
  destruct (body attempt) as [st evs] eqn:Hbody; cbn [snd] in Hevs.
  destruct (decide (r = 0%nat)) as [-> | Hr].
  - replace (max_retries - 1) with attempt in Hlast by lia.
    rewrite Hbody in Hlast; cbn [fst] in Hlast. subst st.
    exists evs. split; [done|]. split; [by subst evs; destruct (prompt_error _)|].
    subst evs. by destruct (prompt_error pr_data).
  - destruct (Hearly attempt) as [e Hst]; [lia|].
    rewrite Hbody in Hst; cbn [fst] in Hst. subst st.
    destruct (IH (attempt + 1) (Some e)) as (tr & Hrun & Hsl & Hcl);
      [lia|lia| |done|].
    { intros i Hi. apply Hearly. lia. }
    rewrite Hrun. eexists. split; [reflexivity|].
    destruct r as [|r']; [done|].
    replace (S (S r') - 1)%nat with (S r') by lia.
    replace (S r' - 1)%nat with r' in Hsl by lia.
    rewrite !sleeps_app, !filter_app, Hsl, Hcl. cbn [range_from omap].
    assert (Hevs' : sleeps evs = []
                    /\ filter is_call evs
                       = match prompt_error pr_data with
                         | Some _ => []
                         | None => [Call attempt]
                         end).
    { subst evs. by destruct (prompt_error pr_data). }
    destruct Hevs' as [-> ->].
    split.
    + destruct (pause attempt) eqn:Hp; cbn; rewrite Hp; reflexivity.
    + destruct (prompt_error pr_data), (pause attempt); reflexivity.
Qed.

End Run.

(** X13. When every call fails with a rate-limit error, the invoker calls
    the provider [max_retries] times, sleeps 4, 8, 16 and then 30 seconds
    between the calls, and raises the [ValueError] that tells to try again
    in a few minutes. *)
Theorem X13_rate_limit_exhaustion
    (json_loads : string -> string + Json.value)
    (construct_error_text : Json.value -> string)
    (client : Z -> completion) (pr_data : PRAnalyzeRequest)
    (max_retries : Z) :
  1 <= max_retries ->
  prompt_error pr_data = None ->
  (forall i, 0 <= i < max_retries ->
             exists e, client i = Fails e /\ is_rate_limited e = true) ->
  exists tr,
    analyze_pr json_loads construct_error_text client pr_data max_retries
    = (Raised (ValueError rate_limit_message), tr)
    /\ calls tr = Z.to_nat max_retries
    /\ sleeps tr
       = rate_limit_wait <$> range_from 0 (Z.to_nat max_retries - 1).
Proof.
  intros Hmax Hprompt Hfail. unfold analyze_pr.
  destruct (loop_uniform json_loads construct_error_text client pr_data
              max_retries (fun i => Some (rate_limit_wait i))
              (Raised (ValueError rate_limit_message))
              (Z.to_nat max_retries) 0 None) as (tr & Hrun & Hsl & Hcl);
    [lia|lia| | |].
  - intros i Hi. destruct (Hfail i) as (e & Hcall & Hrate); [lia|].
    exists e. unfold attempt_body. rewrite Hprompt, Hcall. cbn [fst].
    rewrite (handle_exception_rate_limited _ _ _ Hrate).
    by replace (i <? max_retries - 1) with true
      by (symmetry; apply Z.ltb_lt; lia).
  - destruct (Hfail (max_retries - 1)) as (e & Hcall & Hrate); [lia|].
    unfold attempt_body. rewrite Hprompt, Hcall. cbn [fst].
    rewrite (handle_exception_rate_limited _ _ _ Hrate).
    by rewrite Z.ltb_irrefl.
  - exists tr. split; [done|]. split.
    + unfold calls. rewrite Hcl, Hprompt, length_fmap.
      apply length_range_from.
    + rewrite Hsl. apply omap_Some_fmap.
Qed.

Lemma X13_witness :
  exists tr,
    analyze_pr Samples.loads Samples.error_text
      (fun _ => Fails (GroqError "Rate limit reached for model"))
      Samples.pr_small 3
    = (Raised (ValueError rate_limit_message), tr)
    /\ calls tr = Z.to_nat 3
    /\ sleeps tr = rate_limit_wait <$> range_from 0 (Z.to_nat 3 - 1).
Proof.
  refine (X13_rate_limit_exhaustion Samples.loads Samples.error_text
            (fun _ => Fails (GroqError "Rate limit reached for model"))
            Samples.pr_small 3 _ _ _).
  - lia.
  - reflexivity.
  - intros i _. eexists. split; [reflexivity|]. vm_compute. reflexivity.
Defined.

(** X14. When every call fails with a generic error, the sleeps between
    the calls follow the doubling schedule 1, 2, 4, 8 and then 10 seconds,
    one sleep after each call but the last. *)
Theorem X14_generic_backoff_schedule
    (json_loads : string -> string + Json.value)
    (construct_error_text : Json.value -> string)
    (client : Z -> completion) (pr_data : PRAnalyzeRequest)
    (max_retries : Z) :
  1 <= max_retries ->
  prompt_error pr_data = None ->
  (forall i, 0 <= i < max_retries ->
             exists e, client i = Fails e /\ is_generic e = true) ->
  sleeps (snd (analyze_pr json_loads construct_error_text client pr_data
                 max_retries))
  = generic_wait <$> range_from 0 (Z.to_nat max_retries - 1)
  /\ filter is_call (snd (analyze_pr json_loads construct_error_text client
                            pr_data max_retries))
     = Call <$> range_from 0 (Z.to_nat max_retries).
Proof.
  intros Hmax Hprompt Hfail. unfold analyze_pr.
  destruct (Hfail (max_retries - 1)) as (e_last & Hcall_last & Hgen_last);
    [lia|].
  destruct (loop_uniform json_loads construct_error_text client pr_data
              max_retries (fun i => Some (generic_wait i))
              (Raised (ValueError (exhausted_text max_retries e_last)))
              (Z.to_nat max_retries) 0 None) as (tr & Hrun & Hsl & Hcl);
    [lia|lia| | |].
  - intros i Hi. destruct (Hfail i) as (e & Hcall & Hgen); [lia|].
    exists e. unfold attempt_body. rewrite Hprompt, Hcall. cbn [fst].
    rewrite (handle_exception_generic _ _ _ Hgen).
    by replace (i <? max_retries - 1) with true
      by (symmetry; apply Z.ltb_lt; lia).
  - unfold attempt_body. rewrite Hprompt, Hcall_last. cbn [fst].
    rewrite (handle_exception_generic _ _ _ Hgen_last).
    by rewrite Z.ltb_irrefl.
  - rewrite Hrun. cbn [snd]. rewrite Hsl, Hcl, Hprompt.
    split; [apply omap_Some_fmap|done].
Qed.

Lemma X14_witness :
  sleeps (snd (analyze_pr Samples.loads Samples.error_text
                 Samples.client_down Samples.pr_small 3))
  = generic_wait <$> range_from 0 (Z.to_nat 3 - 1)
  /\ filter is_call (snd (analyze_pr Samples.loads Samples.error_text
                            Samples.client_down Samples.pr_small 3))
     = Call <$> range_from 0 (Z.to_nat 3).
Proof.
  refine (X14_generic_backoff_schedule Samples.loads Samples.error_text
            Samples.client_down Samples.pr_small 3 _ _ _).
  - lia.
  - reflexivity.
  - intros i _. eexists. split; [reflexivity|]. vm_compute. reflexivity.
Defined.

(** X15. A reply that cannot be decoded is retried at once: when every
    reply is undecodable, the run is [max_retries] calls in a row without a
    single sleep, and it ends with the fallback context. *)
Theorem X15_decode_failures_are_retried_without_sleep
    (json_loads : string -> string + Json.value)
    (construct_error_text : Json.value -> string)
    (client : Z -> completion) (pr_data : PRAnalyzeRequest)
    (max_retries : Z) (reply : Z -> string) :
  1 <= max_retries ->
  prompt_error pr_data = None ->
  (forall i, 0 <= i < max_retries ->
             client i = Responds (reply i)
             /\ exists text,
                  json_loads (strip_fences (Py.strip (reply i))) = inl text) ->
  analyze_pr json_loads construct_error_text client pr_data max_retries
  = (Returned (_create_fallback_context pr_data
                 (strip_fences (Py.strip (reply (max_retries - 1))))),
     Call <$> range_from 0 (Z.to_nat max_retries)).
Proof.
  intros Hmax Hprompt Hreply. unfold analyze_pr.
  destruct (loop_uniform json_loads construct_error_text client pr_data
              max_retries (fun _ => None)
              (Returned (_create_fallback_context pr_data
                 (strip_fences (Py.strip (reply (max_retries - 1))))))
              (Z.to_nat max_retries) 0 None) as (tr & Hrun & Hsl & Hcl);
    [lia|lia| | |].
  - intros i Hi. destruct (Hreply i) as (Hcall & text & Hdec); [lia|].
    exists (JSONDecodeError text). unfold attempt_body.
    rewrite Hprompt, Hcall. cbn [fst]. unfold interpret. rewrite Hdec.
    by replace (i =? max_retries - 1) with false
      by (symmetry; apply Z.eqb_neq; lia).
  - destruct (Hreply (max_retries - 1)) as (Hcall & text & Hdec); [lia|].
    unfold attempt_body. rewrite Hprompt, Hcall. cbn [fst].
    unfold interpret. by rewrite Hdec, Z.eqb_refl.
  - rewrite Hrun. f_equal. rewrite Hprompt in Hcl. rewrite <- Hcl.
    rewrite omap_None in Hsl. clear Hrun Hcl.
    induction tr as [|[a|w] tr IH]; [done| |discriminate].
    cbn. f_equal. by apply IH.
Qed.

Lemma X15_witness :
  analyze_pr Samples.loads Samples.error_text Samples.client_prose
    Samples.pr_small 3
  = (Returned (_create_fallback_context Samples.pr_small
                 (strip_fences (Py.strip "Sorry, I cannot help with that."))),
     Call <$> range_from 0 (Z.to_nat 3)).
Proof.
  refine (X15_decode_failures_are_retried_without_sleep Samples.loads
            Samples.error_text Samples.client_prose Samples.pr_small 3
            (fun _ => "Sorry, I cannot help with that.") _ _ _).
  - lia.
  - reflexivity.
  - intros i _. split; [reflexivity|]. eexists. vm_compute. reflexivity.
Defined.

End UniformRuns.

(** ** Runs that stop early or never call the provider *)

Section EarlyRuns.
Import Groq Observe.

Lemma only_sleeps (tr : list event) :
  filter is_call tr = [] -> tr = Sleep <$> sleeps tr.
Proof.
  induction tr as [|[a|w] tr IH]; cbn; [done|discriminate|].
  intros Hcalls. f_equal. by apply IH.
Qed.

Section Run.
Variable json_loads : string -> string + Json.value.
Variable construct_error_text : Json.value -> string.
Variable client : Z -> completion.
Variable pr_data : PRAnalyzeRequest.
Variable max_retries : Z.

Local Abbreviation body := (attempt_body json_loads construct_error_text client
                              pr_data max_retries).
Local Abbreviation run := (loop json_loads construct_error_text client
                             pr_data max_retries).

(** The run stops at the first attempt that finishes. *)
Lemma loop_stops_at (k : Z) (o : outcome) (remaining : nat) :
  forall (attempt : Z) (last_error : option exn),
    prompt_error pr_data = None ->
    attempt <= k < attempt + Z.of_nat remaining ->
    (forall i, attempt <= i < k ->
               exists e sleep, fst (body i) = Continue e sleep) ->
    fst (body k) = Finish o ->
    exists tr,
      run remaining attempt last_error = (o, tr)
      /\ filter is_call tr
         = Call <$> range_from attempt (Z.to_nat (k - attempt) + 1).
Proof.
  induction remaining as [|r IH]; intros attempt last_error Hprompt Hk Hearly Hstop;
    [lia|].
  cbn [loop]. pose proof (attempt_events json_loads construct_error_text
                            client pr_data max_retries attempt) as Hevs.
  rewrite Hprompt in Hevs.
  destruct (body attempt) as [st evs] eqn:Hbody; cbn [snd] in Hevs. subst evs.
  destruct (decide (attempt = k)) as [-> | Hne].
  - rewrite Hbody in Hstop; cbn [fst] in Hstop. subst st.
    eexists. split; [reflexivity|].
    by replace (Z.to_nat (k - k) + 1)%nat with 1%nat by lia.
  - destruct (Hearly attempt) as (e & sl & Hst); [lia|].
    rewrite Hbody in Hst; cbn [fst] in Hst. subst st.
    destruct (IH (attempt + 1) (Some e)) as (tr & Hrun & Hcl);
      [done|lia| |done|].
    { intros i Hi. apply Hearly. lia. }
    rewrite Hrun. eexists. split; [reflexivity|].
    rewrite !filter_app, Hcl.
    replace (Z.to_nat (k - attempt) + 1)%nat
      with (S (Z.to_nat (k - (attempt + 1)) + 1)) by lia.
    by destruct sl.
Qed.

End Run.

(** X16. The first reply that is parsed into a context ends the run: the
    invoker returns that context and makes no further call, whatever the
    later calls would have answered. *)
Theorem X16_first_parsed_reply_is_returned
    (json_loads : string -> string + Json.value)
    (construct_error_text : Json.value -> string)
    (client : Z -> completion) (pr_data : PRAnalyzeRequest)
    (max_retries k : Z) (content : string) (context : PRContext) :
  0 <= k < max_retries ->
  prompt_error pr_data = None ->
  (forall i c, 0 <= i < k ->
               client i = Responds c ->
               parse json_loads construct_error_text c = None) ->
  client k = Responds content ->
  parse json_loads construct_error_text content = Some context ->
  exists tr,
    analyze_pr json_loads construct_error_text client pr_data max_retries
    = (Returned context, tr)
    /\ filter is_call tr = Call <$> range_from 0 (Z.to_nat k + 1).
Proof.
  intros Hk Hprompt Hearly Hcall Hparse. unfold analyze_pr.
  destruct (loop_stops_at json_loads construct_error_text client pr_data
              max_retries k (Returned context) (Z.to_nat max_retries) 0 None)
    as (tr & Hrun & Hcl); [done|lia| | |].
  - intros i Hi. apply attempt_continues_before_last; [done|lia|].
    intros c Hc. apply (Hearly i c); [lia|done].
  - unfold attempt_body. rewrite Hprompt, Hcall. cbn [fst].
    unfold parse in Hparse. unfold interpret.
    destruct (json_loads _) as [text|v]; [discriminate|].
    destruct (PRContext_construct _ v) as [e|c]; [discriminate|].
    by injection Hparse as ->.
  - exists tr. split; [done|]. by rewrite Z.sub_0_r in Hcl.
Qed.

Lemma X16_witness :
  exists tr,
    analyze_pr MoreSamples.loads Samples.error_text
      MoreSamples.client_second_ok Samples.pr_small 3
    = (Returned Samples.context_1, tr)
    /\ filter is_call tr = Call <$> range_from 0 (Z.to_nat 1 + 1).
Proof.
  refine (X16_first_parsed_reply_is_returned MoreSamples.loads
            Samples.error_text MoreSamples.client_second_ok
            Samples.pr_small 3 1
            ("```json" +:+ MoreSamples.analysis_text +:+ "```")
            Samples.context_1 _ _ _ _ _).
  - lia.
  - reflexivity.
  - intros i c Hi Hc. replace i with 0 in Hc by lia.
    injection Hc as <-. vm_compute. reflexivity.
  - reflexivity.
  - vm_compute. reflexivity.
Defined.

(** X17. A request whose commits are [None] never reaches the provider:
    building the prompt raises in every attempt, the invoker sleeps through
    the generic schedule and raises a [ValueError] that carries the text of
    that error. *)
Theorem X17_absent_commits_never_reach_the_provider
    (json_loads : string -> string + Json.value)
    (construct_error_text : Json.value -> string)
    (client : Z -> completion) (pr_data : PRAnalyzeRequest)
    (max_retries : Z) :
  1 <= max_retries ->
  commits pr_data = None ->
  analyze_pr json_loads construct_error_text client pr_data max_retries
  = (Raised (ValueError
       ("Analysis failed after " +:+ Py.str_int max_retries
        +:+ " attempts: 'NoneType' object is not subscriptable")),
     Sleep <$> (generic_wait <$> range_from 0 (Z.to_nat max_retries - 1))).
Proof.
  intros Hmax Hnone. unfold analyze_pr.
  assert (Hprompt : prompt_error pr_data
                    = Some (TypeError "'NoneType' object is not subscriptable"))
    by (unfold prompt_error; by rewrite Hnone).
  destruct (loop_uniform json_loads construct_error_text client pr_data
              max_retries (fun i => Some (generic_wait i))
              (Raised (ValueError
                 ("Analysis failed after " +:+ Py.str_int max_retries
                  +:+ " attempts: 'NoneType' object is not subscriptable")))
              (Z.to_nat max_retries) 0 None) as (tr & Hrun & Hsl & Hcl);
    [lia|lia| | |].
  - intros i Hi. eexists. unfold attempt_body. rewrite Hprompt. cbn [fst].
    unfold handle_exception.
    by replace (i <? max_retries - 1) with true
      by (symmetry; apply Z.ltb_lt; lia).
  - unfold attempt_body. rewrite Hprompt. cbn [fst].
    unfold handle_exception. by rewrite Z.ltb_irrefl.
  - rewrite Hrun. f_equal. rewrite Hprompt in Hcl.
    rewrite (only_sleeps tr Hcl), Hsl. by rewrite omap_Some_fmap.
Qed.

Lemma X17_witness :
  analyze_pr Samples.loads Samples.error_text Samples.client_prose
    MoreSamples.pr_no_commits 3
  = (Raised (ValueError
       ("Analysis failed after " +:+ Py.str_int 3
        +:+ " attempts: 'NoneType' object is not subscriptable")),
     Sleep <$> (generic_wait <$> range_from 0 (Z.to_nat 3 - 1))).
Proof.
  refine (X17_absent_commits_never_reach_the_provider Samples.loads
            Samples.error_text Samples.client_prose
            MoreSamples.pr_no_commits 3 _ _).
  - lia.
  - reflexivity.
Defined.

End EarlyRuns.

(** ** Interpreting a reply *)

Section ReplyFacts.
Import Groq Observe.

Lemma endswith_append (s p : string) : Py.endswith (s +:+ p) p = true.
Proof.
  unfold Py.endswith. rewrite length_append.
  replace (String.length s + String.length p - String.length p)%nat
    with (String.length s) by lia.
  rewrite slice_from_append, String.eqb_refl, andb_true_r.
  apply Nat.leb_le. lia.
Qed.

Lemma slice_to_neg_append (s p : string) :
  Py.slice_to_neg (String.length p) (s +:+ p) = s.
Proof.
  unfold Py.slice_to_neg. rewrite length_append.
  replace (String.length s + String.length p - String.length p)%nat
    with (String.length s) by lia.
  rewrite slice_to_append by lia. by apply slice_to_all.
Qed.

(** A text that does not start with a fence does not start with the longer
    fence either. *)
Lemma prefix_String (a b : ascii) (p s : string) :
  String.prefix (String a p) (String b s)
  = Ascii.eqb a b && String.prefix p s.
Proof.
  cbn [String.prefix]. destruct (ascii_dec a b) as [-> | Hne].
  - by rewrite Ascii.eqb_refl.
  - apply Ascii.eqb_neq in Hne. by rewrite Hne.
Qed.

Lemma no_fence_no_json_fence (s : string) :
  Py.startswith s "```" = false -> Py.startswith s "```json" = false.
Proof.
  unfold Py.startswith.
  destruct s as [|c1 [|c2 [|c3 s]]]; try reflexivity;
    rewrite !prefix_String;
    repeat (destruct (Ascii.eqb _ _); cbn [andb]; try done);
    try (rewrite !prefix_String; by destruct (Ascii.eqb _ _)).
  by destruct s.
Qed.

(** X18. Removing the fence: a reply between [```json] and [```], or
    between [```] and [```], is reduced to what stands between the markers,
    stripped of surrounding white space; a reply without a marker at either
    end is only stripped. *)
Theorem X18_strip_fences_unwraps_the_reply (s : string) :
  (Py.startswith (s +:+ "```") "```" = false ->
   strip_fences ("```json" +:+ s +:+ "```") = Py.strip s)
  /\ (Py.startswith (s +:+ "```") "json" = false ->
      strip_fences ("```" +:+ s +:+ "```") = Py.strip s)
  /\ (Py.startswith s "```" = false -> Py.endswith s "```" = false ->
      strip_fences s = Py.strip s).
Proof.
  split; [|split].
  - intros Hinner. unfold strip_fences.
    replace (Py.startswith ("```json" +:+ s +:+ "```") "```json") with true
      by (symmetry; apply prefix_append).
    change 7%nat with (String.length "```json").
    rewrite slice_from_append, Hinner, endswith_append.
    change 3%nat with (String.length "```").
    by rewrite slice_to_neg_append.
  - intros Hinner. unfold strip_fences.
    assert (Hjson : Py.startswith ("```" +:+ s +:+ "```") "```json" = false).
    { exact Hinner. }
    rewrite Hjson.
    replace (Py.startswith ("```" +:+ s +:+ "```") "```") with true
      by (symmetry; apply prefix_append).
    change 3%nat with (String.length "```").
    by rewrite slice_from_append, endswith_append, slice_to_neg_append.
  - intros Hstart Hend. unfold strip_fences.
    by rewrite (no_fence_no_json_fence s Hstart), Hstart, Hend.
Qed.

Lemma X18_witness :
  strip_fences ("```json" +:+ (" " +:+ MoreSamples.analysis_text +:+ " ")
                +:+ "```")
  = Py.strip (" " +:+ MoreSamples.analysis_text +:+ " ").
Proof.
  refine (proj1 (X18_strip_fences_unwraps_the_reply
                   (" " +:+ MoreSamples.analysis_text +:+ " ")) _).
  vm_compute. reflexivity.
Defined.

Lemma dict_get_app_Some (k : string) (items extra : list (string * Json.value))
    (v : Json.value) :
  Json.dict_get k items = Some v ->
  Json.dict_get k (items ++ extra) = Some v.
Proof.
  induction items as [|[k' v'] items IH]; cbn; [discriminate|].
  destruct (String.eqb k k'); [done|exact IH].
Qed.

Lemma field_str_app (items extra : list (string * Json.value)) (k s : string) :
  field_str items k = Some s -> field_str (items ++ extra) k = Some s.
Proof.
  unfold field_str.
  destruct (Json.dict_get k items) as [v|] eqn:Hk; [|discriminate].
  by rewrite (dict_get_app_Some _ _ extra _ Hk).
Qed.

Lemma field_list_app (items extra : list (string * Json.value)) (k : string)
    (l : list string) :
  field_list items k = Some l -> field_list (items ++ extra) k = Some l.
Proof.
  unfold field_list.
  destruct (Json.dict_get k items) as [v|] eqn:Hk; [|discriminate].
  by rewrite (dict_get_app_Some _ _ extra _ Hk).
Qed.

Lemma field_str_missing (items : list (string * Json.value)) (k : string) :
  Json.dict_get k items = None -> field_str items k = None.
Proof. unfold field_str. by intros ->. Qed.

Lemma field_list_missing (items : list (string * Json.value)) (k : string) :
  Json.dict_get k items = None -> field_list items k = None.
Proof. unfold field_list. by intros ->. Qed.

(** X19. Building a context from a decoded reply: a reply that is not an
    object raises [TypeError]; an object that lacks any one of the eight
    fields raises [ValidationError]; and keys beyond the eight fields do not
    change the context that is built. *)
Theorem X19_context_needs_exactly_its_eight_fields
    (construct_error_text : Json.value -> string)
    (items : list (string * Json.value)) :
  (forall k,
      k ∈ [ "summary"; "purpose"; "testing_focus"; "potential_risks";
            "affected_areas"; "review_priority"; "estimated_review_time";
            "key_changes" ] ->
      Json.dict_get k items = None ->
      PRContext_construct construct_error_text (Json.JDict items)
      = inl (ValidationError (construct_error_text (Json.JDict items))))
  /\ (forall context extra,
        PRContext_construct construct_error_text (Json.JDict items)
        = inr context ->
        PRContext_construct construct_error_text (Json.JDict (items ++ extra))
        = inr context)
  /\ (forall v,
        (forall l, v <> Json.JDict l) ->
        PRContext_construct construct_error_text v
        = inl (TypeError (construct_error_text v))).
Proof.
  split; [|split].
  - intros k Hin Hnone.
    assert (Hfields : PRContext_fields items = None).
    { unfold PRContext_fields.
      pose proof (field_str_missing items k Hnone) as Hs.
      pose proof (field_list_missing items k Hnone) as Hl.
      repeat (apply elem_of_cons in Hin as [-> | Hin];
              [rewrite ?Hs, ?Hl;
               repeat (match goal with
                       | |- context [field_str items ?f] =>
                           destruct (field_str items f); cbn; try done
                       | |- context [field_list items ?f] =>
                           destruct (field_list items f); cbn; try done
                       end); done|]).
      by apply elem_of_nil in Hin. }
    unfold PRContext_construct. by rewrite Hfields.
  - intros context extra. unfold PRContext_construct.
    destruct (PRContext_fields items) as [c|] eqn:Hc; [|discriminate].
    intros [= <-].
    assert (Hextra : PRContext_fields (items ++ extra) = Some c);
      [|by rewrite Hextra].
    unfold PRContext_fields in *.
    destruct (field_str items "summary") as [x1|] eqn:H1; [|discriminate].
    destruct (field_str items "purpose") as [x2|] eqn:H2; [|discriminate].
    destruct (field_list items "testing_focus") as [x3|] eqn:H3; [|discriminate].
    destruct (field_list items "potential_risks") as [x4|] eqn:H4; [|discriminate].
    destruct (field_list items "affected_areas") as [x5|] eqn:H5; [|discriminate].
    destruct (field_str items "review_priority") as [x6|] eqn:H6; [|discriminate].
    destruct (field_str items "estimated_review_time") as [x7|] eqn:H7;
      [|discriminate].
    destruct (field_list items "key_changes") as [x8|] eqn:H8; [|discriminate].
    rewrite (field_str_app _ extra _ _ H1), (field_str_app _ extra _ _ H2),
      (field_list_app _ extra _ _ H3), (field_list_app _ extra _ _ H4),
      (field_list_app _ extra _ _ H5), (field_str_app _ extra _ _ H6),
      (field_str_app _ extra _ _ H7), (field_list_app _ extra _ _ H8).
    exact Hc.
  - intros v Hv. unfold PRContext_construct.
    destruct v; try reflexivity. by destruct (Hv items0).
Qed.

End ReplyFacts.

(** ** The fallback context and the classification of failures *)

Section FallbackMore.
Import Groq Observe.

Lemma split_head_has_no_sep (sep : ascii) (s : string) :
  has_char sep (Py.split_head sep s) = false.
Proof.
  induction s as [|c s IH]; cbn; [done|].
  destruct (Ascii.eqb c sep) eqn:Hc; cbn; [done|].
  by rewrite Ascii.eqb_sym, Hc, IH.
Qed.

(** X20. The fallback context is always well formed: its priority is one
    of the four levels, it has three testing items and two risks, one
    affected area and one key change for each of the first five files, a
    purpose of 1 to 200 characters, and no affected area holds a slash. *)
Theorem X20_fallback_context_is_well_formed
    (pr_data : PRAnalyzeRequest) (raw_response : string) :
  let c := _create_fallback_context pr_data raw_response in
  review_priority c ∈ ["low"; "medium"; "high"; "critical"]
  /\ length (testing_focus c) = 3%nat
  /\ length (potential_risks c) = 2%nat
  /\ length (affected_areas c) = Nat.min 5 (length (files pr_data))
  /\ length (key_changes c) = Nat.min 5 (length (files pr_data))
  /\ 1 <= Py.len (purpose c) <= 200
  /\ Forall (fun area => has_char "/" area = false) (affected_areas c).
Proof.
  intros c. subst c.
  pose proof (fallback_priority_time pr_data raw_response) as Hband.
  destruct (fallback_lists pr_data raw_response) as [Hareas Hkeys].
  split; [|split; [|split; [|split; [|split; [|split]]]]].
  - unfold band in Hband.
    repeat (destruct (_ <? _) in Hband); injection Hband as _ ->;
      repeat (first [by left | right]).
  - unfold _create_fallback_context. by destruct (band _).
  - unfold _create_fallback_context. by destruct (band _).
  - by rewrite Hareas, length_fmap, length_take.
  - by rewrite Hkeys, length_fmap, length_take.
  - assert (Hpurpose :
        purpose (_create_fallback_context pr_data raw_response)
        = match description pr_data with
          | Some d => if Py.truthy d then Py.slice_to 200 d
                      else "No description provided"
          | None => "No description provided"
          end)
      by (unfold _create_fallback_context; by destruct (band _)).
    rewrite Hpurpose.
    destruct (description pr_data) as [[|ch d]|]; try (vm_compute; split; discriminate).
    cbn [Py.truthy]. unfold Py.len. rewrite length_slice_to.
    cbn [String.length]. lia.
  - rewrite Hareas. apply Forall_fmap, Forall_forall. intros f _.
    apply split_head_has_no_sep.
Qed.

Lemma lower_append (s t : string) :
  Py.lower (s +:+ t) = Py.lower s +:+ Py.lower t.
Proof. induction s as [|c s IH]; simpl; [done|]. by rewrite IH. Qed.

Lemma contains_append (before sub after : string) :
  Py.contains sub (before +:+ sub +:+ after) = true.
Proof.
  induction before as [|c before IH].
  - change (Py.contains sub (sub +:+ after) = true).
    destruct (sub +:+ after) eqn:Heq; cbn [Py.contains];
      rewrite <- Heq, prefix_append; done.
  - change (String.prefix sub (String c (before +:+ sub +:+ after))
            || Py.contains sub (before +:+ sub +:+ after) = true).
    rewrite IH. apply orb_true_r.
Qed.

(** X21. A [GroqError] is handled as a rate-limit failure as soon as its
    text holds the words rate limit or quota anywhere and in any letter
    case; the same text in an exception of another class is handled as a
    generic failure. *)
Theorem X21_rate_limit_is_read_off_the_text
    (before marker after : string) :
  (Py.lower marker = "rate limit" \/ Py.lower marker = "quota") ->
  is_rate_limited (GroqError (before +:+ marker +:+ after)) = true
  /\ is_generic (OtherException (before +:+ marker +:+ after)) = true
  /\ is_generic (ValidationError (before +:+ marker +:+ after)) = true
  /\ is_generic (TypeError (before +:+ marker +:+ after)) = true.
Proof.
  intros Hmarker. split; [|by repeat split].
  unfold is_rate_limited, is_rate_limit. cbn [is_groq_error str_exn andb].
  rewrite !lower_append.
  destruct Hmarker as [-> | ->]; rewrite contains_append;
    [done|apply orb_true_r].
Qed.

Lemma X21_witness :
  is_rate_limited
    (GroqError ("Error code: 429 - " +:+ "Rate Limit" +:+ " reached")) = true
  /\ is_generic
       (OtherException ("Error code: 429 - " +:+ "Rate Limit" +:+ " reached"))
     = true
  /\ is_generic
       (ValidationError ("Error code: 429 - " +:+ "Rate Limit" +:+ " reached"))
     = true
  /\ is_generic
       (TypeError ("Error code: 429 - " +:+ "Rate Limit" +:+ " reached"))
     = true.
Proof.
  refine (X21_rate_limit_is_read_off_the_text "Error code: 429 - "
            "Rate Limit" " reached" _).
  left. vm_compute. reflexivity.
Defined.

End FallbackMore.

(** ** The /analyze endpoint *)

Section RouterMore.
Import Router Observe.

Lemma ttl_get (self : Cache.CacheService) (pr_data : PRAnalyzeRequest) (now : Q) :
  Cache._ttl (snd (Cache.get self pr_data now)) = Cache._ttl self.
Proof.
  destruct (get_cases self pr_data now)
    as [[_ ->]|[(e & _ & _ & ->)|(e & _ & _ & ->)]]; reflexivity.
Qed.

Lemma get_subseteq (self : Cache.CacheService) (pr_data : PRAnalyzeRequest)
    (now : Q) :
  Cache._cache (snd (Cache.get self pr_data now)) ⊆ Cache._cache self.
Proof.
  destruct (get_cases self pr_data now)
    as [[_ ->]|[(e & _ & _ & ->)|(e & _ & _ & ->)]]; cbn [snd Cache._cache];
    try reflexivity.
  apply delete_subseteq.
Qed.


Section Handler.
Variable json_loads : string -> string + Json.value.
Variable construct_error_text : Json.value -> string.
Variable client : Z -> Groq.completion.
Variable api_key_configured : bool.

Local Abbreviation handle :=
  (handler json_loads construct_error_text client api_key_configured).

(** The ways the handler can end, with the store and the events of each. *)
Lemma handler_cases (pr_data : PRAnalyzeRequest) (cs : Cache.CacheService)
    (clk : clock) :
  let cs0 := snd (Cache.get cs pr_data (t_get clk)) in
  (commits pr_data = None /\ handle pr_data cs clk = (internal_error, cs, []))
  \/ (commits pr_data <> None
      /\ ((exists context,
             Cache.get cs pr_data (t_get clk) = (Some context, cs)
             /\ handle pr_data cs clk = (Success context true, cs, []))
          \/ (Cache.get cs pr_data (t_get clk) = (None, cs0)
              /\ ((files pr_data = []
                   /\ exists detail,
                        handle pr_data cs clk = (HTTPError 400 detail, cs0, []))
                  \/ (api_key_configured = false
                      /\ exists detail,
                           handle pr_data cs clk
                           = (HTTPError 503 detail, cs0, []))
                  \/ (files pr_data <> [] /\ api_key_configured = true
                      /\ exists tr,
                           snd (Groq.analyze_pr json_loads construct_error_text
                                  client pr_data 3) = tr
                           /\ ((exists context,
                                  handle pr_data cs clk
                                  = (Success context false,
                                     Cache.set cs0 pr_data context
                                       (t_store clk) (t_sweep clk), tr))
                               \/ (exists detail,
                                     handle pr_data cs clk
                                     = (HTTPError 422 detail, cs0, tr)))))))).
Proof.
  intros cs0. subst cs0. unfold handler.
  destruct (commits pr_data) as [l|]; [right; split; [done|]|by left].
  destruct (get_cases cs pr_data (t_get clk))
    as [[_ Hget]|[(e & _ & _ & Hget)|(e & _ & _ & Hget)]]; rewrite Hget;
    cbn [snd]; try (left; eauto; fail); right; (split; [done|]).
  all: destruct (files pr_data) as [|f fs] eqn:Hfiles; cbn [length Nat.eqb];
    [left; eauto|right].
  all: destruct api_key_configured; cbn [negb]; [right|left; eauto].
  all: split; [done|]; split; [done|].
  all: pose proof (loop_outcome json_loads construct_error_text client
                     pr_data 3 (Z.to_nat 3) 0 None) as Hout.
  all: change (Groq.loop json_loads construct_error_text client pr_data 3
                 (Z.to_nat 3) 0 None)
         with (Groq.analyze_pr json_loads construct_error_text client
                 pr_data 3) in Hout.
  all: destruct (Groq.analyze_pr json_loads construct_error_text client
                   pr_data 3) as [o tr]; cbn [fst snd] in *.
  all: exists tr; split; [done|].
  all: destruct Hout as [[c ->]|[m ->]]; [left|right]; eauto.
Qed.

End Handler.

End RouterMore.

Section EndpointMore.
Import Router Observe.



(** X23. Only a fresh success is stored: when the answer is an error or
    comes from the cache, the store holds no entry it did not hold before
    (an expired entry of the request's own key may have gone) and its TTL is
    unchanged; an answer from the cache involves no call to the provider. *)
Theorem X23_only_a_fresh_success_is_stored
    (json_loads : string -> string + Json.value)
    (construct_error_text : Json.value -> string)
    (client : Z -> Groq.completion) (api_key_configured : bool)
    (pr_data : PRAnalyzeRequest) (cs cs' : Cache.CacheService) (clk : clock)
    (r : response) (tr : list Groq.event) :
  handler json_loads construct_error_text client api_key_configured
    pr_data cs clk = (r, cs', tr) ->
  (forall context, r <> Success context false) ->
  Cache._cache cs' ⊆ Cache._cache cs
  /\ Cache._ttl cs' = Cache._ttl cs
  /\ (forall k, k <> Cache._generate_cache_key pr_data ->
                Cache._cache cs' !! k = Cache._cache cs !! k)
  /\ (forall context, r = Success context true -> tr = [] /\ cs' = cs).
Proof.
  intros Hrun Hnot.
  assert (Hcs' : cs' = cs \/ cs' = snd (Cache.get cs pr_data (t_get clk))).
  { destruct (handler_cases json_loads construct_error_text client
                api_key_configured pr_data cs clk)
      as [[_ H]|[_ [(c & _ & H)|[_ [[_ [d H]]|[[_ [d H]]|(_ & _ & tr' & _ & [[c H]|[d H]])]]]]]];
      rewrite H in Hrun; injection Hrun as <- <- <-; auto.
    by destruct (Hnot c). }
  assert (Hhit : forall context, r = Success context true -> tr = [] /\ cs' = cs).
  { intros context ->.
    destruct (handler_cases json_loads construct_error_text client
                api_key_configured pr_data cs clk)
      as [[_ H]|[_ [(c & _ & H)|[_ [[_ [d H]]|[[_ [d H]]|(_ & _ & tr' & _ & [[c H]|[d H]])]]]]]];
      rewrite H in Hrun; try discriminate.
    by injection Hrun as _ <- <-. }
  destruct Hcs' as [-> | ->]; (split; [|split; [|split]]); try done.
  - apply get_subseteq.
  - apply ttl_get.
  - intros k Hne.
    destruct (get_cases cs pr_data (t_get clk))
      as [[_ ->]|[(e & _ & _ & ->)|(e & _ & _ & ->)]]; cbn [snd Cache._cache];
      try done.
    by apply lookup_delete_ne.
Qed.

Lemma X23_witness :
  Cache._cache Samples.cache_old ⊆ Cache._cache Samples.cache_old
  /\ Cache._ttl Samples.cache_old = Cache._ttl Samples.cache_old
  /\ (forall k, k <> Cache._generate_cache_key Samples.pr_small ->
                Cache._cache Samples.cache_old !! k
                = Cache._cache Samples.cache_old !! k)
  /\ (forall context,
        HTTPError 422
          ("Analysis failed: "
           +:+ "AI analysis failed after 3 attempts: Connection error.")
        = Success context true ->
        [Groq.Call 0; Groq.Sleep 1; Groq.Call 1; Groq.Sleep 2; Groq.Call 2] = []
        /\ Samples.cache_old = Samples.cache_old).
Proof.
  refine (X23_only_a_fresh_success_is_stored Samples.loads Samples.error_text
            Samples.client_down true Samples.pr_small Samples.cache_old
            Samples.cache_old MoreSamples.clock_1 _ _ _ _).
  - vm_compute. reflexivity.
  - discriminate.
Defined.

(** X24. The answers of /analyze: a success, or an error with status 422,
    500 or 503. The status 400 of the handler's own file check is never
    sent, because validation has already refused a body without files; 500
    is sent only for absent commits and 503 only without a configured
    key. *)
Theorem X24_analyze_status_codes
    (json_loads : string -> string + Json.value)
    (construct_error_text : Json.value -> string)
    (client : Z -> Groq.completion) (api_key_configured : bool)
    (body : PRAnalyzeRequest) (cs : Cache.CacheService) (clk : clock) :
  let r := fst (fst (analyze_endpoint json_loads construct_error_text client
                       api_key_configured body cs clk)) in
  status_code r ∈ [200; 422; 500; 503]
  /\ (status_code r = 500 -> commits body = None)
  /\ (status_code r = 503 -> api_key_configured = false).
Proof.
  intros r. subst r. unfold analyze_endpoint.
  destruct (PRAnalyzeRequest_validate body) as [pr_data|msg] eqn:Hval;
    cbn [fst status_code].
  2:{ split; [set_solver|]. split; discriminate. }
  assert (Hfiles : files pr_data <> []).
  { unfold PRAnalyzeRequest_validate in Hval.
    destruct (check_title (title body)); [|discriminate].
    destruct (check_files (files body)) as [fs|] eqn:Hfs; [|discriminate].
    injection Hval as <-. cbn. apply check_files_inv in Hfs as Heq. subst fs.
    unfold check_files in Hfs. by destruct (files body). }
  assert (Hcommits : commits pr_data = commits body).
  { unfold PRAnalyzeRequest_validate in Hval.
    destruct (check_title (title body)); [|discriminate].
    destruct (check_files (files body)); [|discriminate].
    by injection Hval as <-. }
  destruct (handler_cases json_loads construct_error_text client
              api_key_configured pr_data cs clk)
    as [[Hc H]|[Hc [(c & _ & H)|[_ [[Hf [d H]]|[[Hk [d H]]|(_ & _ & tr' & _ & [[c H]|[d H]])]]]]]];
    rewrite H; cbn [fst status_code internal_error]; try done.
  - split; [set_solver|]. split; [by rewrite <- Hcommits|discriminate].
  - split; [set_solver|]. split; discriminate.
  - split; [set_solver|]. split; [discriminate|done].
  - split; [set_solver|]. split; discriminate.
  - split; [set_solver|]. split; discriminate.
Qed.

(** X25. A valid body whose commits are [None] is answered with the
    internal-error status 500 by /analyze: the failure occurs before the
    cache is read, so that the store is untouched and the provider is not
    called, even if a result for this request is cached. *)
Theorem X25_absent_commits_fail_before_the_cache
    (json_loads : string -> string + Json.value)
    (construct_error_text : Json.value -> string)
    (client : Z -> Groq.completion) (api_key_configured : bool)
    (body pr_data : PRAnalyzeRequest) (cs : Cache.CacheService) (clk : clock) :
  PRAnalyzeRequest_validate body = Accepted pr_data ->
  commits body = None ->
  analyze_endpoint json_loads construct_error_text client api_key_configured
    body cs clk
  = (HTTPError 500 "Internal server error during analysis", cs, []).
Proof.
  intros Hval Hnone. unfold analyze_endpoint. rewrite Hval.
  assert (Hcommits : commits pr_data = None).
  { unfold PRAnalyzeRequest_validate in Hval.
    destruct (check_title (title body)); [|discriminate].
    destruct (check_files (files body)); [|discriminate].
    by injection Hval as <-. }
  unfold handler. by rewrite Hcommits.
Qed.

Lemma X25_witness :
  analyze_endpoint MoreSamples.loads Samples.error_text MoreSamples.client_ok
    true MoreSamples.pr_no_commits
    (Cache.set (Cache.init 3600) MoreSamples.pr_no_commits Samples.context_1
       12 12)
    MoreSamples.clock_2
  = (HTTPError 500 "Internal server error during analysis",
     Cache.set (Cache.init 3600) MoreSamples.pr_no_commits Samples.context_1
       12 12,
     []).
Proof.
  refine (X25_absent_commits_fail_before_the_cache MoreSamples.loads
            Samples.error_text MoreSamples.client_ok true
            MoreSamples.pr_no_commits MoreSamples.pr_no_commits _
            MoreSamples.clock_2 _ _).
  - vm_compute. reflexivity.
  - reflexivity.
Defined.

(** X26. The health check and the service agree: the status is degraded
    exactly when no service can be built from the key. In that state the
    handler never calls the provider and stores nothing: it answers from the
    cache or with an error. *)
Theorem X26_without_a_key_only_the_cache_answers
    (json_loads : string -> string + Json.value)
    (construct_error_text : Json.value -> string)
    (client : Z -> Groq.completion) (GROQ_API_KEY : string)
    (pr_data : PRAnalyzeRequest) (cs : Cache.CacheService) (clk : clock) :
  (Config.health_status (Config.health_check GROQ_API_KEY) = "degraded"
   <-> Config.service_available GROQ_API_KEY = false)
  /\ (Config.health_status (Config.health_check GROQ_API_KEY) = "degraded" ->
      let res := handler json_loads construct_error_text client
                   (Config.service_available GROQ_API_KEY) pr_data cs clk in
      snd res = []
      /\ (forall context cached,
            fst (fst res) = Success context cached -> cached = true)
      /\ Cache._cache (snd (fst res)) ⊆ Cache._cache cs).
Proof.
  assert (Hiff : Config.health_status (Config.health_check GROQ_API_KEY)
                 = "degraded"
                 <-> Config.service_available GROQ_API_KEY = false).
  { unfold Config.health_check, Config.service_available,
      Config.GroqService_init; cbn [Config.health_status].
    destruct (Py.truthy GROQ_API_KEY),
      (String.eqb GROQ_API_KEY Config.placeholder_key); cbn;
      split; intros; done. }
  split; [exact Hiff|].
  intros Hdeg res. subst res. apply Hiff in Hdeg. rewrite Hdeg.
  destruct (handler_cases json_loads construct_error_text client false
              pr_data cs clk)
    as [[Hc H]|[Hc [(c & _ & H)|[_ [[Hf [d H]]|[[Hk [d H]]|(_ & Hk & _)]]]]]];
    try discriminate; rewrite H; cbn [fst snd];
    (split; [done|]); (split; [intros ? ? [=]; done|]);
    try reflexivity; apply get_subseteq.
Qed.

End EndpointMore.

(** ** The /analyze/quick endpoint *)

Section QuickMore.
Import Observe.

Lemma simplify_small (pr_data : PRAnalyzeRequest) (cs : list PRCommit) :
  commits pr_data = Some cs ->
  (length (files pr_data) <= 10)%nat ->
  (length cs <= 5)%nat ->
  Quick.simplify pr_data cs = pr_data.
Proof.
  intros Hcs Hfiles Hcommits. unfold Quick.simplify.
  rewrite (take_ge (files pr_data)) by lia.
  rewrite (take_ge cs) by lia. rewrite <- Hcs. by destruct pr_data.
Qed.

(** X27. On a request with at most 10 files and 5 commits the quick
    endpoint runs the invoker on the request as it is: it returns the
    context, or the error text, and makes the calls of the full analysis of
    that request, with both counters of the answer equal to the number of
    files. *)
Theorem X27_quick_runs_the_full_analysis_on_small_requests
    (json_loads : string -> string + Json.value)
    (construct_error_text : Json.value -> string)
    (client : Z -> Groq.completion) (GROQ_API_KEY : string)
    (pr_data : PRAnalyzeRequest) (cs : list PRCommit) :
  Config.service_available GROQ_API_KEY = true ->
  commits pr_data = Some cs ->
  (length (files pr_data) <= 10)%nat ->
  (length cs <= 5)%nat ->
  Quick.handler json_loads construct_error_text client GROQ_API_KEY pr_data
  = match Groq.analyze_pr json_loads construct_error_text client pr_data 3 with
    | (Groq.Returned context, tr) =>
        (Quick.Success context (Z.of_nat (length (files pr_data)))
           (Z.of_nat (length (files pr_data))), tr)
    | (Groq.Raised e, tr) =>
        (Quick.HTTPError 500 ("Quick analysis failed: " +:+ Groq.str_exn e), tr)
    end.
Proof.
  intros Hkey Hcs Hfiles Hcommits. unfold Quick.handler. rewrite Hcs.
  unfold Config.service_available in Hkey.
  destruct (Config.GroqService_init GROQ_API_KEY); [discriminate|].
  rewrite (simplify_small pr_data cs Hcs Hfiles Hcommits).
  by destruct (Groq.analyze_pr _ _ _ _ _) as [[c|e] tr].
Qed.

Lemma X27_witness :
  Quick.handler MoreSamples.loads Samples.error_text MoreSamples.client_ok
    "gsk_test" Samples.pr_small
  = match Groq.analyze_pr MoreSamples.loads Samples.error_text
            MoreSamples.client_ok Samples.pr_small 3 with
    | (Groq.Returned context, tr) =>
        (Quick.Success context (Z.of_nat (length (files Samples.pr_small)))
           (Z.of_nat (length (files Samples.pr_small))), tr)
    | (Groq.Raised e, tr) =>
        (Quick.HTTPError 500 ("Quick analysis failed: " +:+ Groq.str_exn e), tr)
    end.
Proof.
  refine (X27_quick_runs_the_full_analysis_on_small_requests MoreSamples.loads
            Samples.error_text MoreSamples.client_ok "gsk_test"
            Samples.pr_small [] _ _ _ _).
  - vm_compute. reflexivity.
  - reflexivity.
  - vm_compute. lia.
  - vm_compute. lia.
Defined.

(** X28. The answers of /analyze/quick: a context for which at most 10
    files were analysed, the first ten of the request, or an error whose
    status is 422 for a body that fails validation and 500 for everything
    else, a missing key included; and never more than three calls to the
    provider. *)
Theorem X28_quick_answers
    (json_loads : string -> string + Json.value)
    (construct_error_text : Json.value -> string)
    (client : Z -> Groq.completion) (GROQ_API_KEY : string)
    (body : PRAnalyzeRequest) :
  let res := Quick.quick_endpoint json_loads construct_error_text client
               GROQ_API_KEY body in
  ((exists context,
       fst res
       = Quick.Success context
           (Z.of_nat (Nat.min 10 (length (files body))))
           (Z.of_nat (length (files body)))
       /\ Config.service_available GROQ_API_KEY = true)
   \/ (exists msg, PRAnalyzeRequest_validate body = Rejected msg
                   /\ res = (Quick.HTTPError 422 msg, []))
   \/ (exists detail, fst res = Quick.HTTPError 500 detail))
  /\ (Groq.calls (snd res) <= 3)%nat
  /\ (Config.service_available GROQ_API_KEY = false -> snd res = []).
Proof.
  intros res. subst res. unfold Quick.quick_endpoint.
  destruct (PRAnalyzeRequest_validate body) as [pr_data|msg] eqn:Hval.
  2:{ split; [right; left; eauto|]. split; [cbn; lia|done]. }
  assert (Hfiles : files pr_data = files body).
  { unfold PRAnalyzeRequest_validate in Hval.
    destruct (check_title (title body)); [|discriminate].
    destruct (check_files (files body)) as [fs|] eqn:Hfs; [|discriminate].
    injection Hval as <-. cbn. by apply check_files_inv in Hfs. }
  unfold Quick.handler, Config.service_available.
  destruct (commits pr_data) as [cs|].
  2:{ split; [right; right; cbn; eauto|]. split; [cbn; lia|done]. }
  destruct (Config.GroqService_init GROQ_API_KEY) as [e|[]].
  { split; [right; right; cbn; eauto|]. split; [cbn; lia|done]. }
  pose proof (loop_bounds json_loads construct_error_text client
                (Quick.simplify pr_data cs) 3 (Z.to_nat 3) 0 None
                ltac:(lia) ltac:(lia)) as (Hcalls & _ & _).
  change (Groq.loop json_loads construct_error_text client
            (Quick.simplify pr_data cs) 3 (Z.to_nat 3) 0 None)
    with (Groq.analyze_pr json_loads construct_error_text client
            (Quick.simplify pr_data cs) 3) in Hcalls.
  destruct (Groq.analyze_pr _ _ _ _ _) as [[c|e] tr]; cbn [fst snd] in *.
  - split; [left|split; [exact Hcalls|discriminate]].
    exists c. split; [|done]. cbn [Quick.simplify files].
    by rewrite length_take, Hfiles.
  - split; [right; right; cbn; eauto|]. split; [exact Hcalls|discriminate].
Qed.

End QuickMore.

(** ** Configuration *)

Section ConfigMore.
Import Observe.

Lemma str_split_not_nil (sep : ascii) (s : string) :
  Config.str_split sep s <> [].
Proof.
  induction s as [|c s IH]; cbn; [done|].
  destruct (Ascii.eqb c sep); [done|].
  by destruct (Config.str_split sep s).
Qed.

Lemma str_split_has_no_sep (sep : ascii) (s : string) :
  Forall (fun piece => has_char sep piece = false) (Config.str_split sep s).
Proof.
  induction s as [|c s IH]; cbn; [by repeat constructor|].
  destruct (Ascii.eqb c sep) eqn:Hc; [by constructor|].
  destruct (Config.str_split sep s) as [|piece rest].
  - repeat constructor. cbn. by rewrite Ascii.eqb_sym, Hc.
  - inversion IH as [|? ? Hpiece Hrest]; subst. constructor; [|done].
    cbn. by rewrite Ascii.eqb_sym, Hc, Hpiece.
Qed.

Lemma lstrip_has_char (c : ascii) (s : string) :
  has_char c s = false -> has_char c (Py.lstrip s) = false.
Proof.
  induction s as [|c' s IH]; cbn; [done|].
  intros [Hc Hs]%orb_false_iff.
  destruct (Py.isspace c'); [by apply IH|]. cbn. by rewrite Hc, Hs.
Qed.

Lemma rstrip_has_char (c : ascii) (s : string) :
  has_char c s = false -> has_char c (Py.rstrip s) = false.
Proof.
  induction s as [|c' s IH]; cbn; [done|].
  intros [Hc Hs]%orb_false_iff. specialize (IH Hs).
  destruct (Py.rstrip s) as [|d r].
  - destruct (Py.isspace c'); cbn; [done|]. by rewrite Hc.
  - cbn in *. by rewrite Hc, IH.
Qed.

Lemma rstrip_cons (c : ascii) (s : string) :
  Py.rstrip (String c s)
  = match Py.rstrip s with
    | EmptyString =>
        if Py.isspace c then EmptyString else String c EmptyString
    | String d r => String c (String d r)
    end.
Proof. reflexivity. Qed.

Lemma rstrip_idempotent (s : string) :
  Py.rstrip (Py.rstrip s) = Py.rstrip s.
Proof.
  induction s as [|c s IH]; [done|].
  rewrite (rstrip_cons c s).
  destruct (Py.rstrip s) as [|d r] eqn:Hr.
  - destruct (Py.isspace c) eqn:Hc; [done|]. cbn. by rewrite Hc.
  - rewrite (rstrip_cons c (String d r)), IH. done.
Qed.

(** Stripping on the right keeps the first character of what is left. *)
Lemma rstrip_head (c : ascii) (s : string) :
  Py.rstrip (String c s) = EmptyString
  \/ exists r, Py.rstrip (String c s) = String c r.
Proof.
  cbn. destruct (Py.rstrip s); [destruct (Py.isspace c)|]; eauto.
Qed.

Lemma lstrip_head (s : string) :
  Py.lstrip s = EmptyString
  \/ exists c r, Py.lstrip s = String c r /\ Py.isspace c = false.
Proof.
  induction s as [|c s IH]; cbn; [by left|].
  destruct (Py.isspace c) eqn:Hc; [exact IH|right; eauto].
Qed.

Lemma strip_idempotent (s : string) : Py.strip (Py.strip s) = Py.strip s.
Proof.
  unfold Py.strip.
  destruct (lstrip_head s) as [-> | (c & r & -> & Hc)]; [done|].
  destruct (rstrip_head c r) as [-> | [r' Hr]]; [done|].
  rewrite Hr. cbn [Py.lstrip]. rewrite Hc, <- Hr. apply rstrip_idempotent.
Qed.

(** X29. The origins read from a comma-separated setting: none is empty,
    none has white space at either end, none holds a comma, and every piece
    between two commas that is not blank appears, stripped, among them. A
    setting given as a list is taken as it is. *)
Theorem X29_parse_origins_yields_clean_origins
    (text : string) (origins : list string) :
  Forall (fun origin => origin <> EmptyString
                        /\ Py.strip origin = origin
                        /\ has_char "," origin = false)
         (Config.parse_origins (inl text))
  /\ (forall piece, piece ∈ Config.str_split "," text ->
                    Py.strip piece <> EmptyString ->
                    Py.strip piece ∈ Config.parse_origins (inl text))
  /\ Config.parse_origins (inr origins) = origins.
Proof.
  split; [|split; [|reflexivity]].
  - unfold Config.parse_origins. apply Forall_fmap, Forall_forall.
    intros piece [Htruthy Hin]%list_elem_of_filter. cbn.
    split; [by destruct (Py.strip piece)|].
    split; [apply strip_idempotent|].
    pose proof (str_split_has_no_sep "," text) as Hsep.
    rewrite Forall_forall in Hsep. specialize (Hsep piece Hin).
    unfold Py.strip. by apply rstrip_has_char, lstrip_has_char.
  - intros piece Hin Hne. unfold Config.parse_origins.
    apply list_elem_of_fmap. exists piece. split; [done|].
    apply list_elem_of_filter. split; [|done].
    by destruct (Py.strip piece).
Qed.

End ConfigMore.

(** ** The title of a request *)

Section TitleMore.

(** X30. A body whose title is empty or longer than 500 characters is
    refused by both endpoints with status 422, before the handler runs: the
    store is untouched and the provider is not called. A title of 1 to 500
    characters passes the check of this field. *)
Theorem X30_title_length_is_checked_before_the_handlers
    (json_loads : string -> string + Json.value)
    (construct_error_text : Json.value -> string)
    (client : Z -> Groq.completion) (api_key_configured : bool)
    (GROQ_API_KEY : string)
    (body : PRAnalyzeRequest) (cs : Cache.CacheService) (clk : Router.clock) :
  (Py.len (title body) = 0 \/ 500 < Py.len (title body) ->
   (exists msg,
       Router.analyze_endpoint json_loads construct_error_text client
         api_key_configured body cs clk
       = (Router.HTTPError 422 msg, cs, []))
   /\ (exists msg,
         Quick.quick_endpoint json_loads construct_error_text client
           GROQ_API_KEY body
         = (Quick.HTTPError 422 msg, [])))
  /\ (1 <= Py.len (title body) <= 500 ->
      check_title (title body) = Accepted (title body)).
Proof.
  split.
  - intros Hbad.
    assert (Hval : exists msg, PRAnalyzeRequest_validate body = Rejected msg).
    { unfold PRAnalyzeRequest_validate, check_title.
      destruct Hbad as [Hempty|Hlong].
      - rewrite Hempty. cbn. eauto.
      - replace (Py.len (title body) <? 1) with false
          by (symmetry; apply Z.ltb_ge; lia).
        replace (Py.len (title body) >? 500) with true
          by (symmetry; apply Z.gtb_lt; lia).
        eauto. }
    destruct Hval as [msg Hval].
    unfold Router.analyze_endpoint, Quick.quick_endpoint. rewrite Hval. eauto.
  - intros Hok. unfold check_title.
    replace (Py.len (title body) <? 1) with false
      by (symmetry; apply Z.ltb_ge; lia).
    replace (Py.len (title body) >? 500) with false; [done|].
    symmetry. rewrite Z.gtb_ltb. apply Z.ltb_ge. lia.
Qed.

Lemma X30_witness :
  (exists msg,
      Router.analyze_endpoint Samples.loads Samples.error_text
        Samples.client_prose true
        {| title := ""; description := None; files := [Samples.file_a];
           commits := Some []; base_branch := None; head_branch := None;
           pr_url := None |}
        Samples.cache_old MoreSamples.clock_1
      = (Router.HTTPError 422 msg, Samples.cache_old, []))
  /\ (exists msg,
        Quick.quick_endpoint Samples.loads Samples.error_text
          Samples.client_prose "gsk_test"
          {| title := ""; description := None; files := [Samples.file_a];
             commits := Some []; base_branch := None; head_branch := None;
             pr_url := None |}
        = (Quick.HTTPError 422 msg, [])).
Proof.
  refine (proj1 (X30_title_length_is_checked_before_the_handlers Samples.loads
                   Samples.error_text Samples.client_prose true "gsk_test"
                   {| title := ""; description := None;
                      files := [Samples.file_a]; commits := Some [];
                      base_branch := None; head_branch := None;
                      pr_url := None |}
                   Samples.cache_old MoreSamples.clock_1) _).
  left. reflexivity.
Defined.

End TitleMore.
